(** * tiingo.py: the Tiingo client and its parquet price cache

    A shallow embedding of [src/tiingo.py].  The module talks to two things
    outside itself, the data provider (through [requests.get]) and the disk
    (through [pathlib], [os.path] and the parquet functions of pandas), and it
    raises Python exceptions.  Python code is embedded in a state-and-exception
    monad over a [World] that holds the file tree, the provider's answers, the
    chronological record of the effects performed, and the object allocator
    that gives exception objects their identity. *)

From Stdlib Require Import ZArith List Lia Ascii String.
From Stdlib Require Import Floats.PrimFloat Uint63.
From stdpp Require Import gmap strings list pretty.
Set Warnings "-register-all".

Local Open Scope string_scope.
Local Open Scope Z_scope.
Local Open Scope list_scope.

(** ** The [datetime] library: calendar dates and their ISO-8601 text *)

Module Datetime.

Record date := mkdate { year : Z; month : Z; day : Z }.

#[global] Instance date_eq_dec : EqDecision date.
Proof. solve_decision. Defined.

Definition is_leap (y : Z) : bool :=
  (y mod 4 =? 0) && (negb (y mod 100 =? 0) || (y mod 400 =? 0)).

Definition days_in_month (y m : Z) : Z :=
  if m =? 2 then (if is_leap y then 29 else 28)
  else if (m =? 4) || (m =? 6) || (m =? 9) || (m =? 11) then 30
  else 31.

(** The range check of the [date] constructor (MINYEAR = 1, MAXYEAR = 9999). *)
Definition valid (y m d : Z) : bool :=
  (1 <=? y) && (y <=? 9999) && (1 <=? m) && (m <=? 12)
  && (1 <=? d) && (d <=? days_in_month y m).

(** *** Day numbers: 0001-01-01 is day 1 *)

Definition days_before_year (y : Z) : Z :=
  let y := y - 1 in y * 365 + y / 4 - y / 100 + y / 400.

(** The days of a common year before the first of month [m]. *)
Definition common_days_before (m : Z) : Z :=
  nth (Z.to_nat m) [0; 0; 31; 59; 90; 120; 151; 181; 212; 243; 273; 304; 334] 0.

Definition days_before_month (y m : Z) : Z :=
  common_days_before m + (if (2 <? m) && is_leap y then 1 else 0).

Definition ymd_to_ord (y m d : Z) : Z :=
  days_before_year y + days_before_month y m + d.

Definition ord_to_ymd (ordinal : Z) : Z * Z * Z :=
  let n := ordinal - 1 in
  let n400 := n / 146097 in
  let n := n mod 146097 in
  let n100 := n / 36524 in
  let n := n mod 36524 in
  let n4 := n / 1461 in
  let n := n mod 1461 in
  let n1 := n / 365 in
  let n := n mod 365 in
  let y := n400 * 400 + 1 + n100 * 100 + n4 * 4 + n1 in
  if (n1 =? 4) || (n100 =? 4) then (y - 1, 12, 31)
  else
    let leapyear := (n1 =? 3) && (negb (n4 =? 24) || (n100 =? 3)) in
    let before (m : Z) :=
      common_days_before m + (if (2 <? m) && leapyear then 1 else 0) in
    let m := Z.shiftr (n + 50) 5 in
    if n <? before m
    then (y, m - 1, n - before (m - 1) + 1)
    else (y, m, n - before m + 1).

(** Monday is 0. *)
Definition weekday (y m d : Z) : Z := (ymd_to_ord y m d + 6) mod 7.

(** The day number of the Monday that starts ISO week 1 of the year. *)
Definition iso_week1_monday (y : Z) : Z :=
  let first_day := ymd_to_ord y 1 1 in
  let first_weekday := (first_day + 6) mod 7 in
  let week1_monday := first_day - first_weekday in
  if 3 <? first_weekday then week1_monday + 7 else week1_monday.

(** ISO year, week and weekday to year, month and day; [None] for a week or
    a weekday that the year does not have. *)
Definition iso_to_ymd (y wk dy : Z) : option (Z * Z * Z) :=
  if negb ((1 <=? y) && (y <=? 9999)) then None
  else if negb ((0 <? wk) && (wk <? 53)
                || (wk =? 53)
                   && ((weekday y 1 1 =? 3) || (weekday y 1 1 =? 2) && is_leap y))
  then None
  else if negb ((0 <? dy) && (dy <? 8)) then None
  else Some (ord_to_ymd (iso_week1_monday y + (wk - 1) * 7 + dy - 1)).

(** *** Reading digits *)

Definition digit (a : ascii) : option Z :=
  let n := Z.of_nat (nat_of_ascii a) in
  if (48 <=? n) && (n <=? 57) then Some (n - 48) else None.

Fixpoint number_from (acc : Z) (l : list ascii) : option Z :=
  match l with
  | [] => Some acc
  | a :: l' => d ← digit a; number_from (10 * acc + d) l'
  end.

(** A non-empty run of ASCII digits read as a decimal number. *)
Definition number (l : list ascii) : option Z :=
  match l with [] => None | _ => number_from 0 l end.

Definition is_char (c : string) (a : ascii) : bool :=
  bool_decide (String a EmptyString = c).

Definition is_digit (a : ascii) : bool := bool_decide (is_Some (digit a)).

Fixpoint span_digits (l : list ascii) : list ascii * list ascii :=
  match l with
  | a :: l' =>
      match digit a with
      | Some _ => let '(ds, rest) := span_digits l' in (a :: ds, rest)
      | None => ([], l)
      end
  | [] => ([], [])
  end.

(** The parsers of CPython walk the UTF-8 bytes of the text, which end with a
    NUL byte: [byte l i] is the byte at position i, NUL from the end on. *)
Definition byte (l : list ascii) (i : nat) : ascii := nth i l Ascii.zero.

Definition is_nul (a : ascii) : bool := Ascii.eqb a Ascii.zero.

(** [parse_digits]: exactly n digits from position p on. *)
Definition parse_digits (l : list ascii) (p n : nat) : option (nat * Z) :=
  v ← number_from 0 (map (byte l) (seq p n));
  Some ((p + n)%nat, v).

(** A "-" at position p, when the date is written with separators. *)
Definition skip_dash (l : list ascii) (uses_separator : bool) (p : nat) : option nat :=
  if uses_separator
  then (if is_char "-" (byte l p) then Some (S p) else None)
  else Some p.

(** [parse_isoformat_date]: YYYY-MM-DD, YYYYMMDD, YYYY-Www, YYYYWww,
    YYYY-Www-D or YYYYWwwD at the start of the text; [len] is where the caller
    takes the date to end.  What follows the last digit read is not looked
    at. *)
Definition parse_isoformat_date (l : list ascii) (len : nat) : option (Z * Z * Z) :=
  '(p, y) ← parse_digits l 0 4;
  let uses_separator := is_char "-" (byte l p) in
  let p := if uses_separator then S p else p in
  if is_char "W" (byte l p) then
    '(p, wk) ← parse_digits l (S p) 2;
    dy ← (if (p <? len)%nat
          then p ← skip_dash l uses_separator p;
               '(_, dy) ← parse_digits l p 1;
               Some dy
          else Some 1);
    iso_to_ymd y wk dy
  else
    '(p, m) ← parse_digits l p 2;
    p ← skip_dash l uses_separator p;
    '(_, d) ← parse_digits l p 2;
    Some (y, m, d).

(** [date.fromisoformat] *)
Definition date_fromisoformat (s : string) : option date :=
  let l := list_ascii_of_string s in
  let len := length l in
  if bool_decide (len = 7 ∨ len = 8 ∨ len = 10)%nat then
    '(y, m, d) ← parse_isoformat_date l len;
    if valid y m d then Some (mkdate y m d) else None
  else None.

Record datetime := mkdatetime {
  dt_date : date;
  hour : Z; minute : Z; second : Z; microsecond : Z;
  utcoffset : option Z  (* microseconds east of UTC; None: naive *)
}.

(** [_find_isoformat_datetime_separator]: where the date part ends. *)
Definition find_isoformat_datetime_separator (l : list ascii) : option nat :=
  let len := length l in
  if (len =? 7)%nat then Some 7%nat
  else if is_char "-" (byte l 4) then
    if is_char "W" (byte l 5) then
      if (len <? 8)%nat then None
      else if (8 <? len)%nat && is_char "-" (byte l 8) then
        if (len =? 9)%nat then None
        else if (10 <? len)%nat && is_digit (byte l 10) then Some 8%nat
        else Some 10%nat
      else Some 8%nat
    else Some 10%nat
  else if is_char "W" (byte l 4) then
    let idx := (7 + length (fst (span_digits (drop 7 l))))%nat in
    if (idx <? 9)%nat then Some idx
    else if Nat.even idx then Some 7%nat else Some 8%nat
  else Some 8%nat.

(** What the loop of [parse_hh_mm_ss_ff] does after one component. *)
Inductive after_component :=
| Finished (more : bool)   (* the text of the time is used up *)
| Continue (p : nat)       (* the next component starts at p *)
| Fraction (p : nat).      (* the fraction of a second starts at p *)

Definition component (l : list ascii) (p_end : nat) (first has_separator : bool)
    (p : nat) : option (Z * bool * after_component) :=
  '(p, v) ← parse_digits l p 2;
  let c := byte l p in
  let p := S p in
  let has_separator := if first then is_char ":" c else has_separator in
  if (p_end <=? p)%nat then Some (v, has_separator, Finished (negb (is_nul c)))
  else if has_separator && is_char ":" c then Some (v, has_separator, Continue p)
  else if is_char "." c || is_char "," c then Some (v, has_separator, Fraction p)
  else if negb has_separator then Some (v, has_separator, Continue (pred p))
  else None.

(** The fraction: at most six digits count, further digits are skipped. *)
Definition fraction (l : list ascii) (p_end p : nat) : option (Z * bool) :=
  let to_parse := Nat.min 6 (p_end - p) in
  '(p, us) ← parse_digits l p to_parse;
  let p := (p + length (fst (span_digits (drop p l))))%nat in
  Some (us * 10 ^ Z.of_nat (6 - to_parse), negb (is_nul (byte l p))).

(** [parse_hh_mm_ss_ff]: HH[:MM[:SS[.ffffff]]] or HH[MM[SS[.ffffff]]] between
    p and p_end.  The flag says whether text is left where the parser
    stopped. *)
Definition parse_hh_mm_ss_ff (l : list ascii) (p p_end : nat)
  : option (Z * Z * Z * Z * bool) :=
  '(h, sep, a) ← component l p_end true true p;
  match a with
  | Finished more => Some (h, 0, 0, 0, more)
  | Fraction p => '(us, more) ← fraction l p_end p; Some (h, 0, 0, us, more)
  | Continue p =>
      '(m, sep, a) ← component l p_end false sep p;
      match a with
      | Finished more => Some (h, m, 0, 0, more)
      | Fraction p => '(us, more) ← fraction l p_end p; Some (h, m, 0, us, more)
      | Continue p =>
          '(s, sep, a) ← component l p_end false sep p;
          match a with
          | Finished more => Some (h, m, s, 0, more)
          | Fraction p | Continue p =>
              '(us, more) ← fraction l p_end p; Some (h, m, s, us, more)
          end
      end
  end.

Definition is_tz_char (a : ascii) : bool :=
  is_char "Z" a || is_char "+" a || is_char "-" a.

(** [parse_isoformat_time]: the time of day from position p to the end of the
    text, with the offset when there is one, as seconds and microseconds. *)
Definition parse_isoformat_time (l : list ascii) (p : nat)
  : option (Z * Z * Z * Z * option (Z * Z)) :=
  let p_end := length l in
  let tz := match list_find (λ a, is_tz_char a = true) (drop p l) with
            | Some (k, _) => (p + k)%nat
            | None => Nat.max (S p) p_end
            end in
  '(h, m, s, us, more) ← parse_hh_mm_ss_ff l p tz;
  if (tz =? p_end)%nat then
    (if more : bool then None else Some (h, m, s, us, None))
  else if is_char "Z" (byte l tz) then
    (if is_nul (byte l (S tz)) then Some (h, m, s, us, Some (0, 0)) else None)
  else
    let sign := if is_char "-" (byte l tz) then -1 else 1 in
    '(th, tm, ts, tus, more) ← parse_hh_mm_ss_ff l (S tz) p_end;
    if more : bool then None
    else Some (h, m, s, us, Some (sign * (th * 3600 + tm * 60 + ts), sign * tus)).

(** The bytes of the UTF-8 character that starts with byte c. *)
Definition utf8_width (c : ascii) : nat :=
  let n := Z.of_nat (nat_of_ascii c) in
  if Z.land n 128 =? 0 then 1%nat
  else if Z.land n 240 =? 224 then 3%nat
  else if Z.land n 240 =? 240 then 4%nat
  else 2%nat.

(** The [timezone] constructor: an offset strictly within a day; an offset of
    no whole second is UTC. *)
Definition tzinfo (tz : option (Z * Z)) : option (option Z) :=
  match tz with
  | None => Some None
  | Some (secs, us) =>
      if secs =? 0 then Some (Some 0)
      else
        let t := secs * 1000000 + us in
        if (-86400000000 <? t) && (t <? 86400000000) then Some (Some t) else None
  end.

(** [datetime.fromisoformat]: the date, then one separator character, of any
    kind, then the time of day. *)
Definition datetime_fromisoformat (s : string) : option datetime :=
  let l := list_ascii_of_string s in
  let len := length l in
  if (len <? 7)%nat then None
  else
    sep ← find_isoformat_datetime_separator l;
    '(y, mo, d) ← parse_isoformat_date l sep;
    '(h, mi, sec, us, tz) ←
      (if (sep <? len)%nat
       then parse_isoformat_time l (sep + utf8_width (byte l sep))
       else Some (0, 0, 0, 0, None));
    off ← tzinfo tz;
    if valid y mo d && (h <? 24) && (mi <? 60) && (sec <? 60)
    then Some (mkdatetime (mkdate y mo d) h mi sec us off)
    else None.

Definition zero_pad (width : nat) (n : Z) : string :=
  let s := pretty n in
  string_of_list_ascii (replicate (width - String.length s) "0"%char) +:+ s.

(** [date.isoformat], which is also [str(date)]. *)
Definition isoformat (d : date) : string :=
  zero_pad 4 (year d) +:+ "-" +:+ zero_pad 2 (month d) +:+ "-" +:+ zero_pad 2 (day d).

(** The order of [date] objects. *)
Definition ltb (a b : date) : bool :=
  (year a <? year b)
  || ((year a =? year b)
      && ((month a <? month b) || ((month a =? month b) && (day a <? day b)))).

End Datetime.

(** ** Python objects

    The values that JSON decoding produces, and [datetime.date].  A Python
    [dict] keeps its insertion order: it is an association list, looked up from
    the left. *)

Inductive pyval :=
| PNone
| PBool (b : bool)
| PInt (z : Z)
| PFloat (f : float)
| PStr (s : string)
| PDate (d : Datetime.date)
| PList (l : list pyval)
| PDict (items : list (string * pyval)).

Fixpoint assoc {A} (k : string) (items : list (string * A)) : option A :=
  match items with
  | [] => None
  | (k', v) :: rest => if decide (k' = k) then Some v else assoc k rest
  end.

(** The name Python prints for the class of a value in its error messages. *)
Definition type_name (v : pyval) : string :=
  match v with
  | PNone => "NoneType" | PBool _ => "bool" | PInt _ => "int"
  | PFloat _ => "float" | PStr _ => "str" | PDate _ => "datetime.date"
  | PList _ => "list" | PDict _ => "dict"
  end.

(** Exception objects have an identity: the number the allocator gave them. *)
Record PyException := mkException {
  exc_id : nat;
  exc_class : string;
  exc_args : list string
}.

#[global] Instance PyException_eq_dec : EqDecision PyException.
Proof. solve_decision. Defined.

(** ** Paths, files and tables *)

(** A [pathlib.Path] is the list of its parts; an absolute path starts with
    the part "/".  The empty list is the working directory. *)
Abbreviation Path := (list string).

Fixpoint split_on (sep : ascii) (s : string) : list string :=
  match s with
  | EmptyString => [EmptyString]
  | String a s' =>
      if Ascii.eqb a sep then EmptyString :: split_on sep s'
      else match split_on sep s' with
           | c :: cs => String a c :: cs
           | [] => [String a EmptyString]
           end
  end.

Definition is_absolute (s : string) : bool :=
  match s with String a _ => Ascii.eqb a "/" | EmptyString => false end.

(** Empty parts and "." parts are dropped when a path is parsed; ".." stays. *)
Definition path_parts (s : string) : list string :=
  filter (λ c, c ≠ "" ∧ c ≠ ".") (split_on "/" s).

(** [pathlib.Path(s)] *)
Definition pathlib_Path (s : string) : Path :=
  (if is_absolute s then ["/"] else []) ++ path_parts s.

(** [p / s]: an absolute right operand replaces the left one. *)
Definition path_join (p : Path) (s : string) : Path :=
  if is_absolute s then pathlib_Path s else p ++ path_parts s.

Definition parent (p : Path) : Path := removelast p.

(** A [pandas.DataFrame]: the column labels and the rows, each row holding
    one cell per column.  A cell is the Python object that reading the cell
    gives. *)
Record DataFrame := mkDataFrame {
  columns : list string;
  rows : list (list pyval)
}.

(** What a file holds: a parquet table, given as the frame that loading the
    file makes of it, or bytes that are not parquet.  The parquet writer is a
    function of the table, so two files that hold the same table hold the same
    bytes. *)
Inductive FileData :=
| Parquet (df : DataFrame)
| Garbage (bytes : string).

Inductive Node :=
| Dir
| File (data : FileData).

(** ** The provider *)

Record Request := mkRequest {
  url : string;
  params : list (string * string);
  headers : list (string * string)
}.

(** A [requests.Response]: [json_body] is what [response.json()] decodes from
    the body, [None] when the body is not JSON. *)
Record Response := mkResponse {
  status_code : Z;
  text : string;
  json_body : option pyval
}.

(** What [requests.get] meets: an answer, or an exception of the HTTP stack
    (connection refused, timeout, ...) given by class and message. *)
Inductive NetReply :=
| Answer (r : Response)
| NetFailure (cls msg : string).

(** ** The world and the monad of Python code *)

Inductive Event :=
| EvLog (level msg : string)
| EvGet (req : Request)
| EvMkdir (p : Path)
| EvWrite (p : Path).

Record World := mkWorld {
  fs : gmap Path Node;
  net : Request → NetReply;
  trace : list Event;      (* oldest first *)
  last_obj : nat           (* the identity of the newest object *)
}.

Definition set_fs (f : gmap Path Node → gmap Path Node) (w : World) : World :=
  mkWorld (f (fs w)) (net w) (trace w) (last_obj w).
Definition set_trace (f : list Event → list Event) (w : World) : World :=
  mkWorld (fs w) (net w) (f (trace w)) (last_obj w).
Definition set_last_obj (n : nat) (w : World) : World :=
  mkWorld (fs w) (net w) (trace w) n.

(** The world after the events [evs] have been recorded. *)
Definition happened (evs : list Event) (w : World) : World :=
  set_trace (λ t, t ++ evs) w.

Inductive outcome (A : Type) :=
| Return (a : A)
| Raise (e : PyException).
Arguments Return {A} a.
Arguments Raise {A} e.

Definition Py (A : Type) : Type := World → outcome A * World.

#[global] Instance Py_ret : MRet Py := λ A a w, (Return a, w).
#[global] Instance Py_bind : MBind Py := λ A B f m w,
  match m w with
  | (Return a, w') => f a w'
  | (Raise e, w') => (Raise e, w')
  end.

(** [raise e] for an exception object that exists already. *)
Definition raise {A} (e : PyException) : Py A := λ w, (Raise e, w).

(** [raise Cls(args)]: the exception object is allocated at the raise. *)
Definition raise_new {A} (cls : string) (args : list string) : Py A := λ w,
  let i := S (last_obj w) in
  (Raise (mkException i cls args), set_last_obj i w).

Definition or_raise {A} (o : option A) (cls : string) (args : list string) : Py A :=
  match o with
  | Some a => mret a
  | None => raise_new cls args
  end.

Definition emit (ev : Event) : Py unit := λ w,
  (Return (), happened [ev] w).

(** ** Python operations on objects *)

(** [o[key]] for a string key. *)
Definition py_getitem (o : pyval) (key : string) : Py pyval :=
  match o with
  | PDict items => or_raise (assoc key items) "KeyError" [key]
  | PList _ => raise_new "TypeError" ["list indices must be integers or slices, not str"]
  | PStr _ => raise_new "TypeError" ["string indices must be integers, not 'str'"]
  | _ => raise_new "TypeError" ["'" +:+ type_name o +:+ "' object is not subscriptable"]
  end.

(** [iter(o)] run to its end: a list gives its elements, a dict its keys, a
    string its characters (here the bytes of the string). *)
Definition py_iter (o : pyval) : Py (list pyval) :=
  match o with
  | PList l => mret l
  | PDict items => mret (map (λ kv, PStr (fst kv)) items)
  | PStr s => mret (map (λ a, PStr (String a EmptyString)) (list_ascii_of_string s))
  | _ => raise_new "TypeError" ["'" +:+ type_name o +:+ "' object is not iterable"]
  end.

Definition py_date_fromisoformat (v : pyval) : Py Datetime.date :=
  match v with
  | PStr s => or_raise (Datetime.date_fromisoformat s) "ValueError"
                ["Invalid isoformat string: '" +:+ s +:+ "'"]
  | _ => raise_new "TypeError" ["fromisoformat: argument must be str"]
  end.

Definition py_datetime_fromisoformat (v : pyval) : Py Datetime.datetime :=
  match v with
  | PStr s => or_raise (Datetime.datetime_fromisoformat s) "ValueError"
                ["Invalid isoformat string: '" +:+ s +:+ "'"]
  | _ => raise_new "TypeError" ["fromisoformat: argument must be str"]
  end.

(** [a < b], where Python orders the pair: dates, ints and strings, each with
    its own kind.  [None] stands for the TypeError of an unordered pair. *)
Definition py_lt (a b : pyval) : option bool :=
  match a, b with
  | PDate x, PDate y => Some (Datetime.ltb x y)
  | PInt x, PInt y => Some (x <? y)
  | PStr x, PStr y => Some (String.ltb x y)
  | _, _ => None
  end.

(** [v == d] for a [date] d: an object that is not a date is not equal to it. *)
Definition py_eq_date (v : pyval) (d : Datetime.date) : bool :=
  match v with
  | PDate d' => bool_decide (d' = d)
  | _ => false
  end.

(** ** [logging] and [requests] *)

Definition logger_info (msg : string) : Py unit := emit (EvLog "INFO" msg).
Definition logger_error (msg : string) : Py unit := emit (EvLog "ERROR" msg).

Definition requests_get (url : string) (params headers : list (string * string))
  : Py Response := λ w,
  let req := mkRequest url params headers in
  let w1 := happened [EvGet req] w in
  match net w req with
  | Answer r => (Return r, w1)
  | NetFailure cls msg => raise_new cls [msg] w1
  end.

Definition response_json (r : Response) : Py pyval :=
  or_raise (json_body r) "JSONDecodeError" ["Expecting value"].

(** ** [pathlib], [os.path] and pandas on the file tree *)

(** The working directory and the root always exist. *)
Definition node (w : World) (p : Path) : option Node :=
  if decide (p = [] ∨ p = ["/"]) then Some Dir else fs w !! p.

(** [os.path.exists(p)] *)
Definition os_path_exists (p : Path) : Py bool := λ w,
  (Return (bool_decide (is_Some (node w p))), w).

Definition mkdir_one (p : Path) (last : bool) : Py unit := λ w,
  match node w p with
  | Some Dir => (Return (), w)
  | Some (File _) =>
      raise_new (if last then "FileExistsError" else "NotADirectoryError")
        ["File exists"] w
  | None => emit (EvMkdir p) (set_fs (insert p Dir) w)
  end.

Fixpoint mkdir_from (made : Path) (todo : list string) : Py unit :=
  match todo with
  | [] => mret ()
  | part :: rest =>
      mkdir_one (made ++ [part]) (bool_decide (rest = []));;
      mkdir_from (made ++ [part]) rest
  end.

(** [p.mkdir(parents=True, exist_ok=True)]: every missing ancestor is made,
    then p itself; a directory that is there already is left alone. *)
Definition mkdir_parents_exist_ok (p : Path) : Py unit := mkdir_from [] p.

(** *** Tables *)

Fixpoint index_of (c : string) (cols : list string) : option nat :=
  match cols with
  | [] => None
  | c' :: rest => if decide (c' = c) then Some 0%nat else S <$> index_of c rest
  end.

Definition column (df : DataFrame) (c : string) : option (list pyval) :=
  i ← index_of c (columns df);
  Some (map (λ r, nth i r PNone) (rows df)).

(** [df[c]]: the cells of column c, top to bottom. *)
Definition df_getitem (df : DataFrame) (c : string) : Py (list pyval) :=
  or_raise (column df c) "KeyError" [c].

(** The cells of the column at position j. *)
Definition column_at (df : DataFrame) (j : nat) : list pyval :=
  map (λ r, nth j r PNone) (rows df).

(** The table of the same labels and as many rows in which the cell of row i
    in a column is [f col i v], for the cells [col] of that column in [df] and
    the cell [v] of the row. *)
Definition map_cells (f : list pyval → nat → pyval → pyval) (df : DataFrame)
  : DataFrame :=
  mkDataFrame (columns df)
    (imap (λ i r, imap (λ j _, f (column_at df j) i (nth j r PNone)) (columns df))
       (rows df)).

(** *** The dtype that pandas infers for a column of objects

    A column of integers of 64 bits stays as it is (int64).  A column of such
    integers, floats and [None] that is not one of integers only becomes
    float64: an integer becomes the nearest double, [None] becomes NaN.  Any
    other column keeps its objects (dtype object). *)

Definition int64 (z : Z) : bool :=
  (-9223372036854775808 <=? z) && (z <=? 9223372036854775807).

(** [float(z)]: the double nearest to z, ties to even. *)
Definition float_of_int64 (z : Z) : float :=
  if z =? -9223372036854775808 then (-9223372036854775808)%float
  else if z <? 0 then PrimFloat.opp (PrimFloat.of_uint63 (Uint63.of_Z (- z)))
  else PrimFloat.of_uint63 (Uint63.of_Z z).

Definition is_int64 (v : pyval) : bool :=
  match v with PInt z => int64 z | _ => false end.

Definition is_float (v : pyval) : bool :=
  match v with PFloat _ => true | _ => false end.

Definition is_date (v : pyval) : bool :=
  match v with PDate _ => true | _ => false end.

Definition is_number (v : pyval) : bool := is_int64 v || is_float v.

Definition is_missing (v : pyval) : bool :=
  match v with PNone => true | _ => false end.

Definition float64_column (col : list pyval) : bool :=
  forallb (λ v, is_number v || is_missing v) col
  && existsb is_number col
  && negb (forallb is_int64 col).

Definition as_float64 (v : pyval) : pyval :=
  match v with
  | PInt z => PFloat (float_of_int64 z)
  | PNone => PFloat nan
  | _ => v
  end.

Definition infer_dtype (col : list pyval) (i : nat) (v : pyval) : pyval :=
  if float64_column col then as_float64 v else v.

(** *** Arrow

    [Table.from_pandas] gives every column an Arrow type, and the parquet file
    holds the typed columns.  A column of floats only (double), of 64-bit
    integers only (int64) or of dates only (date32) is [uniform]: it is
    stored, and loaded again, cell by cell as it is.  What Arrow does with any
    other column (strings, booleans, nested values, integers beyond 64 bits,
    objects of several kinds, [None] alone) is not described here but left to
    the library, an instance of [Arrow]: [arrow_error col] is the exception
    that the conversion of the column raises, if it raises, given by class and
    arguments, and [arrow_cell col i] is the object that loading the file
    gives for row i of the column.  An exception that pandas raises for such a
    column when the frame is built is taken for one of the conversion, which
    follows with no effect in between. *)

Definition uniform (col : list pyval) : bool :=
  forallb is_float col || forallb is_int64 col || forallb is_date col.

Class Arrow := {
  arrow_error : list pyval → option (string * list string);
  arrow_cell : list pyval → nat → pyval
}.

(** The table that a parquet file of [df] holds, or the exception of the first
    column that cannot be converted. *)
Definition to_arrow `{!Arrow} (df : DataFrame) : DataFrame + string * list string :=
  let cols := map (column_at df) (seq 0 (length (columns df))) in
  match omap (λ col, if uniform col then None else arrow_error col) cols with
  | e :: _ => inr e
  | [] => inl (map_cells (λ col i v, if uniform col then v else arrow_cell col i) df)
  end.

(** *** Parquet files *)

(** [str(p)] *)
Definition path_str (p : Path) : string :=
  match p with
  | [] => "."
  | root :: rest =>
      if decide (root = "/") then "/" +:+ String.concat "/" rest
      else String.concat "/" p
  end.

(** [pd.read_parquet(p, engine='pyarrow')].  A directory is read by pyarrow as
    a dataset of several files, which the file tree here does not describe:
    the model raises. *)
Definition read_parquet (p : Path) : Py DataFrame := λ w,
  match node w p with
  | Some (File (Parquet df)) => (Return df, w)
  | Some (File (Garbage _)) =>
      raise_new "ArrowInvalid" ["Parquet magic bytes not found in footer"] w
  | Some Dir => raise_new "ArrowInvalid" ["Not a parquet file"] w
  | None => raise_new "FileNotFoundError" ["No such file or directory"] w
  end.

(** [df.to_parquet(p, engine='pyarrow')].  The frame is converted first; then
    pandas checks that the parent of p is a directory, opens p for writing and
    writes the table, which replaces whatever file is at p. *)
Definition to_parquet `{!Arrow} (df : DataFrame) (p : Path) : Py unit := λ w,
  match to_arrow df with
  | inr (cls, args) => raise_new cls args w
  | inl table =>
      match node w p with
      | Some Dir => raise_new "IsADirectoryError" ["Is a directory"] w
      | _ =>
          match node w (parent p) with
          | Some Dir => emit (EvWrite p) (set_fs (insert p (File (Parquet table))) w)
          | _ =>
              raise_new "OSError"
                ["Cannot save file into a non-existent directory: '"
                 +:+ path_str (parent p) +:+ "'"] w
          end
      end
  end.

(** *** Minimum and maximum of a column *)

Fixpoint reduce_min (best : pyval) (l : list pyval) : option pyval :=
  match l with
  | [] => Some best
  | x :: l' => b ← py_lt x best; reduce_min (if b : bool then x else best) l'
  end.

Fixpoint reduce_max (best : pyval) (l : list pyval) : option pyval :=
  match l with
  | [] => Some best
  | x :: l' => b ← py_lt best x; reduce_max (if b : bool then x else best) l'
  end.

(** The least and the greatest cell of a column of objects: NaN for an empty
    column; [None] stands for the TypeError of a comparison that Python cannot
    make. *)
Definition col_min (col : list pyval) : option pyval :=
  match col with
  | [] => Some (PFloat nan)
  | x :: l => reduce_min x l
  end.

Definition col_max (col : list pyval) : option pyval :=
  match col with
  | [] => Some (PFloat nan)
  | x :: l => reduce_max x l
  end.

(** [Series.min()] and [Series.max()] *)
Definition Series_min (col : list pyval) : Py pyval :=
  or_raise (col_min col) "TypeError" ["'<' not supported between these instances"].

Definition Series_max (col : list pyval) : Py pyval :=
  or_raise (col_max col) "TypeError" ["'>' not supported between these instances"].

(** ** The module [tiingo] *)

(** [ErrorTickerNotFound = Exception("Ticker not found")], evaluated when the
    module is imported: the first object, number 0.  Every object allocated
    later has a number above [last_obj], hence above 0. *)
Definition ErrorTickerNotFound : PyException :=
  mkException 0 "Exception" ["Ticker not found"].

Module TickerPrice.

Record t := mk {
  date : Datetime.date;
  open : pyval;
  high : pyval;
  low : pyval;
  close : pyval;
  volume : pyval;
  adjusted_open : pyval;
  adjusted_high : pyval;
  adjusted_low : pyval;
  adjusted_close : pyval;
  adjusted_volume : pyval;
  dividend_cash : pyval;
  split_factor : pyval
}.

(** The keyword arguments are evaluated in the order they are written. *)
Definition from_json (json : pyval) : Py t :=
  date ← (s ← py_getitem json "date";
          dt ← py_datetime_fromisoformat s;
          mret (Datetime.dt_date dt));
  open ← py_getitem json "open";
  high ← py_getitem json "high";
  low ← py_getitem json "low";
  close ← py_getitem json "close";
  volume ← py_getitem json "volume";
  adjusted_open ← py_getitem json "adjOpen";
  adjusted_high ← py_getitem json "adjHigh";
  adjusted_low ← py_getitem json "adjLow";
  adjusted_close ← py_getitem json "adjClose";
  adjusted_volume ← py_getitem json "adjVolume";
  dividend_cash ← py_getitem json "divCash";
  split_factor ← py_getitem json "splitFactor";
  mret (mk date open high low close volume
           adjusted_open adjusted_high adjusted_low adjusted_close
           adjusted_volume dividend_cash split_factor).

(** The fields of the dataclass, in declaration order. *)
Definition fields : list string :=
  ["date"; "open"; "high"; "low"; "close"; "volume";
   "adjusted_open"; "adjusted_high"; "adjusted_low"; "adjusted_close";
   "adjusted_volume"; "dividend_cash"; "split_factor"].

Definition astuple (p : t) : list pyval :=
  [PDate (date p); open p; high p; low p; close p; volume p;
   adjusted_open p; adjusted_high p; adjusted_low p; adjusted_close p;
   adjusted_volume p; dividend_cash p; split_factor p].

End TickerPrice.

(** [pd.DataFrame(prices)] for a list of dataclass instances: one column per
    field and one row per instance, each column with the dtype that pandas
    infers for it; no column at all for the empty list. *)
Definition pd_DataFrame (prices : list TickerPrice.t) : DataFrame :=
  match prices with
  | [] => mkDataFrame [] []
  | _ => map_cells infer_dtype
           (mkDataFrame TickerPrice.fields (map TickerPrice.astuple prices))
  end.

Module TickerInfo.

Record t := mk {
  ticker : pyval;
  name : pyval;
  exchangeCode : pyval;
  description : pyval;
  startDate : Datetime.date;
  endDate : Datetime.date
}.

End TickerInfo.

Module TiingoClient.

Record t := mk { headers : list (string * string) }.

Definition __init__ (api_key : string) : t :=
  mk [("Content-Type", "application/json");
      ("Authorization", "Token " +:+ api_key)].

Definition prices_url (ticker : string) : string :=
  "https://api.tiingo.com/tiingo/daily/" +:+ ticker +:+ "/prices".

Definition prices_params (start_date end_date : Datetime.date)
  : list (string * string) :=
  [("startDate", Datetime.isoformat start_date);
   ("endDate", Datetime.isoformat end_date);
   ("resampleFreq", "daily")].

Definition info_url (ticker : string) : string :=
  "https://api.tiingo.com/tiingo/daily/" +:+ ticker.

(** Line 75: the list comprehension over [response.json()]. *)
Definition prices_of (response : Response) : Py (list TickerPrice.t) :=
  body ← response_json response;
  items ← py_iter body;
  mapM TickerPrice.from_json items.

Definition get_ticker_prices (self : t) (ticker : string)
    (start_date end_date : Datetime.date) : Py (list TickerPrice.t) :=
  logger_info ("Getting ticker prices for " +:+ ticker +:+ " from "
               +:+ Datetime.isoformat start_date +:+ " to "
               +:+ Datetime.isoformat end_date);;
  let url := prices_url ticker in
  let params := prices_params start_date end_date in
  response ← requests_get url params (headers self);
  prices_of response.

(** Lines 84-91: [response.json()] is decoded anew for every field. *)
Definition ticker_info_of (response : Response) : Py TickerInfo.t :=
  let field (k : string) := body ← response_json response; py_getitem body k in
  ticker ← field "ticker";
  name ← field "name";
  exchangeCode ← field "exchangeCode";
  description ← field "description";
  startDate ← (v ← field "startDate"; py_date_fromisoformat v);
  endDate ← (v ← field "endDate"; py_date_fromisoformat v);
  mret (TickerInfo.mk ticker name exchangeCode description startDate endDate).

Definition get_ticker_info (self : t) (ticker : string) : Py TickerInfo.t :=
  logger_info ("Getting ticker info for " +:+ ticker);;
  let url := info_url ticker in
  response ← requests_get url [] (headers self);
  if negb (status_code response =? 200) then
    logger_error ("Failed to get ticker info for " +:+ ticker +:+ ": "
                  +:+ pretty (status_code response) +:+ " " +:+ text response);;
    raise ErrorTickerNotFound
  else
    ticker_info_of response.

End TiingoClient.

Module TickerPriceStorage.

Record t := mk { tiingo : TiingoClient.t; path : Path }.

(** The default of [path] is ".prices". *)
Definition __init__ (tiingo : TiingoClient.t) (path : string) : Py t :=
  let p := pathlib_Path path in
  mkdir_parents_exist_ok p;;
  mret (mk tiingo p).

Definition filepath (self : t) (ticker : string) : Path :=
  path_join (path self) (ticker +:+ ".parquet").

(** Lines 102-105 of [read]: the cached table when there is one and it is
    fresh, [None] when [read] has to go on to the provider. *)
Definition cached_table (filepath : Path) (ticker_info : TickerInfo.t)
  : Py (option DataFrame) :=
  there ← os_path_exists filepath;
  if there : bool then
    df ← read_parquet filepath;
    lo ← (col ← df_getitem df "date"; Series_min col);
    if py_eq_date lo (TickerInfo.startDate ticker_info) then
      hi ← (col ← df_getitem df "date"; Series_max col);
      if py_eq_date hi (TickerInfo.endDate ticker_info)
      then mret (Some df)
      else mret None
    else mret None
  else mret None.

Definition read `{!Arrow} (self : t) (ticker : string) : Py DataFrame :=
  ticker_info ← TiingoClient.get_ticker_info (tiingo self) ticker;
  let filepath := filepath self ticker in
  cached ← cached_table filepath ticker_info;
  match cached with
  | Some df => mret df
  | None =>
      prices ← TiingoClient.get_ticker_prices (tiingo self) ticker
                 (TickerInfo.startDate ticker_info) (TickerInfo.endDate ticker_info);
      let df := pd_DataFrame prices in
      to_parquet df filepath;;
      read_parquet filepath
  end.

End TickerPriceStorage.

(** ** The script *)

(** Lines 112-114, what the module does when it is run as a program;
    [environ] is [os.environ]. *)
Definition main `{!Arrow} (environ : gmap string string) : Py DataFrame :=
  api_key ← or_raise (environ !! "TIINGO_API_KEY") "KeyError" ["TIINGO_API_KEY"];
  let client := TiingoClient.__init__ api_key in
  storage ← TickerPriceStorage.__init__ client ".prices";
  TickerPriceStorage.read storage "QQQ".

(** * Vocabulary of the statements *)

Definition info_request (c : TiingoClient.t) (ticker : string) : Request :=
  mkRequest (TiingoClient.info_url ticker) [] (TiingoClient.headers c).

Definition prices_request (c : TiingoClient.t) (ticker : string)
    (d1 d2 : Datetime.date) : Request :=
  mkRequest (TiingoClient.prices_url ticker) (TiingoClient.prices_params d1 d2)
    (TiingoClient.headers c).

Definition info_log (ticker : string) : Event :=
  EvLog "INFO" ("Getting ticker info for " +:+ ticker).

Definition info_error_log (ticker : string) (r : Response) : Event :=
  EvLog "ERROR" ("Failed to get ticker info for " +:+ ticker +:+ ": "
                 +:+ pretty (status_code r) +:+ " " +:+ text r).

Definition prices_log (ticker : string) (d1 d2 : Datetime.date) : Event :=
  EvLog "INFO" ("Getting ticker prices for " +:+ ticker +:+ " from "
                +:+ Datetime.isoformat d1 +:+ " to " +:+ Datetime.isoformat d2).

(** The events of a successful metadata call and of a price call. *)
Definition info_events (c : TiingoClient.t) (ticker : string) : list Event :=
  [info_log ticker; EvGet (info_request c ticker)].

Definition prices_events (c : TiingoClient.t) (ticker : string)
    (d1 d2 : Datetime.date) : list Event :=
  [prices_log ticker d1 d2; EvGet (prices_request c ticker d1 d2)].

(** The cells of the records, one column per field and one row per record,
    before pandas and Arrow have given the columns a type. *)
Definition records (prices : list TickerPrice.t) : DataFrame :=
  mkDataFrame TickerPrice.fields (map TickerPrice.astuple prices).

(** Prices are tidy when every column of their records holds floats only,
    64-bit integers only or dates only, or is one that pandas types float64:
    64-bit integers, floats and nulls, with a number among them. *)
Definition tidy (prices : list TickerPrice.t) : bool :=
  forallb (λ j, let col := column_at (records prices) j in
                uniform col || float64_column col)
    (seq 0 (length TickerPrice.fields)).

(** The date bounds of a table, as the freshness test of [read] takes them. *)
Definition date_bounds (df : DataFrame) : option (pyval * pyval) :=
  col ← column df "date";
  lo ← col_min col;
  hi ← col_max col;
  Some (lo, hi).

(** The keys that [TickerPrice.from_json] reads, in the order it reads them,
    and those that [get_ticker_info] reads. *)
Definition price_keys : list string :=
  ["date"; "open"; "high"; "low"; "close"; "volume"; "adjOpen"; "adjHigh";
   "adjLow"; "adjClose"; "adjVolume"; "divCash"; "splitFactor"].

Definition info_keys : list string :=
  ["ticker"; "name"; "exchangeCode"; "description"; "startDate"; "endDate"].

(** The keys of the list that a dict does not have. *)
Definition missing_keys (keys : list string) (items : list (string * pyval))
  : list string :=
  filter (λ k, assoc k items = None) keys.

(** [zero_pad width n] has [width] characters and reads back as [n]. *)
Definition pads_back (width : nat) (n : Z) : bool :=
  let l := list_ascii_of_string (Datetime.zero_pad width n) in
  bool_decide (length l = width) && bool_decide (Datetime.number l = Some n).

(** A ticker with no "/" in it. *)
Definition slash_free (s : string) : Prop :=
  "/"%char ∉ list_ascii_of_string s.

Definition is_get (ev : Event) : bool :=
  match ev with EvGet _ => true | _ => false end.

(** ** Properties of a computation

    [quiet]: when it returns, it has left the world as it was.
    [io_only]: it leaves the file tree and the provider alone, writes no file,
    and only ever allocates.
    [lib_io]: [io_only], and an exception it raises is an object allocated
    during the call. *)

Definition is_write (ev : Event) : bool :=
  match ev with EvWrite _ => true | _ => false end.

Record frame (w w' : World) : Prop := mkframe {
  frame_fs : fs w' = fs w;
  frame_net : net w' = net w;
  frame_obj : (last_obj w ≤ last_obj w')%nat;
  frame_trace : ∃ evs, trace w' = trace w ++ evs ∧ Forall (λ ev, is_write ev = false) evs
}.

Definition quiet {A} (m : Py A) : Prop :=
  ∀ w a w', m w = (Return a, w') → w' = w.

Definition io_only {A} (m : Py A) : Prop :=
  ∀ w r w', m w = (r, w') → frame w w'.

Definition lib_io {A} (m : Py A) : Prop :=
  ∀ w r w', m w = (r, w') →
    frame w w' ∧ ∀ e, r = Raise e → (last_obj w < exc_id e ≤ last_obj w')%nat.

(** [pure_py]: the computation only computes.  Decoding a response touches
    neither the disk nor the network: it is a value, or the raise of a new
    exception, fixed before the world is looked at. *)

Definition lift {A} (res : A + string * list string) : Py A :=
  match res with
  | inl a => mret a
  | inr (cls, args) => raise_new cls args
  end.

Definition pure_py {A} (m : Py A) : Prop := ∃ res, ∀ w, m w = lift res w.

(** [grows w w']: from [w] to [w'] nothing on the disk was removed or
    changed, the provider is the same, and the events are directory creations. *)
Definition is_mkdir (ev : Event) : bool :=
  match ev with EvMkdir _ => true | _ => false end.

Record grows (w w' : World) : Prop := mkgrows {
  grows_fs : ∀ q n, fs w !! q = Some n → fs w' !! q = Some n;
  grows_net : net w' = net w;
  grows_trace : ∃ evs, trace w' = trace w ++ evs ∧ Forall (λ ev, is_mkdir ev = true) evs
}.

(** [no_effect]: the computation returns from the world it started in, or
    raises a new exception and has done nothing else. *)
Definition no_effect {A} (m : Py A) : Prop :=
  ∀ w r w', m w = (r, w') →
    (∃ a, r = Return a ∧ w' = w)
    ∨ (∃ cls args, (r, w') = raise_new cls args w).

(** * Scenario data *)

(** The parquet library of the scenarios.  Of the columns that the model
    leaves to the library it refuses those that hold an integer beyond 64
    bits, with the OverflowError of pyarrow, and stores the others as they
    are. *)
Definition beyond_64_bits (v : pyval) : bool :=
  match v with
  | PInt z => (z <? -9223372036854775808) || (18446744073709551615 <? z)
  | _ => false
  end.

#[global] Instance scenario_arrow : Arrow := {|
  arrow_error col :=
    if existsb beyond_64_bits col
    then Some ("OverflowError", ["Python int too large to convert to C long"])
    else None;
  arrow_cell col i := nth i col PNone
|}.

Definition price_row (d : string) : pyval :=
  PDict [("date", PStr d); ("open", PFloat 100.0); ("high", PFloat 101.5);
         ("low", PFloat 99.0); ("close", PFloat 100.5); ("volume", PInt 1000);
         ("adjOpen", PFloat 100.0); ("adjHigh", PFloat 101.5);
         ("adjLow", PFloat 99.0); ("adjClose", PFloat 100.5);
         ("adjVolume", PInt 1000); ("divCash", PFloat 0.0);
         ("splitFactor", PFloat 1.0)].

Definition price_on (d : Datetime.date) : TickerPrice.t :=
  TickerPrice.mk d (PFloat 100.0) (PFloat 101.5) (PFloat 99.0) (PFloat 100.5)
    (PInt 1000) (PFloat 100.0) (PFloat 101.5) (PFloat 99.0) (PFloat 100.5)
    (PInt 1000) (PFloat 0.0) (PFloat 1.0).

Definition info_body (ticker start stop : string) : pyval :=
  PDict [("ticker", PStr ticker); ("name", PStr "Invesco QQQ Trust");
         ("exchangeCode", PStr "NASDAQ"); ("description", PStr "An index fund");
         ("startDate", PStr start); ("endDate", PStr stop)].

Definition ok (text : string) (body : pyval) : NetReply :=
  Answer (mkResponse 200 text (Some body)).

Definition not_found : NetReply :=
  Answer (mkResponse 404 "Not found." (Some (PDict [("detail", PStr "Not found.")]))).

(** A provider that knows one ticker. *)
Definition provider (ticker : string) (info prices : NetReply) (req : Request)
  : NetReply :=
  if decide (url req = TiingoClient.info_url ticker) then info
  else if decide (url req = TiingoClient.prices_url ticker) then prices
  else not_found.

(** The provider of the QQQ scenario: history from 2020-01-01 to 2020-01-03,
    price rows for the two trading days 2020-01-02 and 2020-01-03. *)
Definition qqq_provider : Request → NetReply :=
  provider "QQQ"
    (ok "(metadata)" (info_body "QQQ" "2020-01-01" "2020-01-03"))
    (ok "(prices)" (PList [price_row "2020-01-02"; price_row "2020-01-03"])).

(** A world whose disk is empty and in which only the module has been imported. *)
Definition fresh_world (prov : Request → NetReply) : World :=
  mkWorld ∅ prov [] 0.

(** A world whose disk holds the storage directory [.prices] and, in it, the
    given files. *)
Definition stored_world (prov : Request → NetReply) (files : list (string * FileData))
  : World :=
  mkWorld (list_to_map (([".prices"], Dir)
             :: map (λ nf, ([".prices"; fst nf], File (snd nf))) files))
    prov [] 0.

Definition client : TiingoClient.t := TiingoClient.__init__ "KEY".

Definition storage : TickerPriceStorage.t :=
  TickerPriceStorage.mk client [".prices"].

Definition jan (d : Z) : Datetime.date := Datetime.mkdate 2020 1 d.

(** A provider whose price endpoint cannot be reached. *)
Definition down_provider : Request → NetReply :=
  provider "QQQ"
    (ok "(metadata)" (info_body "QQQ" "2020-01-01" "2020-01-03"))
    (NetFailure "ConnectionError" "Connection aborted.").

(** A disk whose cache file for QQQ stops on 2020-01-02. *)
Definition stale_world : World :=
  stored_world down_provider [("QQQ.parquet", Parquet (pd_DataFrame [price_on (jan 2)]))].

(** A provider that has no price row for QQQ. *)
Definition empty_provider : Request → NetReply :=
  provider "QQQ"
    (ok "(metadata)" (info_body "QQQ" "2020-01-01" "2020-01-03"))
    (ok "[]" (PList [])).

(** The world after one [read] of "QQQ" in the scenario of C8. *)
Definition qqq_once : World :=
  snd (TickerPriceStorage.read storage "QQQ" (stored_world qqq_provider [])).

Definition qqq_table : DataFrame :=
  pd_DataFrame [price_on (jan 2); price_on (jan 3)].

(** A price row for 2020-01-03 whose open is an integer above 2^53, whose
    close is an integer and whose volume is null, and the record that
    [from_json] makes of it. *)
Definition untidy_row : pyval :=
  PDict [("date", PStr "2020-01-03"); ("open", PInt 9007199254740993);
         ("high", PFloat 101.5); ("low", PFloat 99.0); ("close", PInt 100);
         ("volume", PNone);
         ("adjOpen", PFloat 100.0); ("adjHigh", PFloat 101.5);
         ("adjLow", PFloat 99.0); ("adjClose", PFloat 100.5);
         ("adjVolume", PInt 1000); ("divCash", PFloat 0.0);
         ("splitFactor", PFloat 1.0)].

Definition untidy_price : TickerPrice.t :=
  TickerPrice.mk (jan 3) (PInt 9007199254740993) (PFloat 101.5) (PFloat 99.0)
    (PInt 100) PNone (PFloat 100.0) (PFloat 101.5) (PFloat 99.0) (PFloat 100.5)
    (PInt 1000) (PFloat 0.0) (PFloat 1.0).

Definition untidy_provider : Request → NetReply :=
  provider "QQQ"
    (ok "(metadata)" (info_body "QQQ" "2020-01-01" "2020-01-03"))
    (ok "(prices)" (PList [price_row "2020-01-02"; untidy_row])).

(** A price row whose volume does not fit 64 bits. *)
Definition huge_row : pyval :=
  PDict [("date", PStr "2020-01-02"); ("open", PFloat 100.0);
         ("high", PFloat 101.5); ("low", PFloat 99.0); ("close", PFloat 100.5);
         ("volume", PInt 1180591620717411303424);
         ("adjOpen", PFloat 100.0); ("adjHigh", PFloat 101.5);
         ("adjLow", PFloat 99.0); ("adjClose", PFloat 100.5);
         ("adjVolume", PInt 1000); ("divCash", PFloat 0.0);
         ("splitFactor", PFloat 1.0)].

Definition huge_price : TickerPrice.t :=
  TickerPrice.mk (jan 2) (PFloat 100.0) (PFloat 101.5) (PFloat 99.0) (PFloat 100.5)
    (PInt 1180591620717411303424) (PFloat 100.0) (PFloat 101.5) (PFloat 99.0)
    (PFloat 100.5) (PInt 1000) (PFloat 0.0) (PFloat 1.0).

Definition huge_provider : Request → NetReply :=
  provider "QQQ"
    (ok "(metadata)" (info_body "QQQ" "2020-01-01" "2020-01-03"))
    (ok "(prices)" (PList [huge_row])).

(** * Reasoning about Python code *)

(** ** The monad *)

Lemma happened_app evs1 evs2 w :
  happened evs2 (happened evs1 w) = happened (evs1 ++ evs2) w.
Proof. unfold happened, set_trace. simpl. by rewrite app_assoc. Qed.

Section Bind.
Context {A B : Type}.
Implicit Types (m : Py A) (f : A → Py B).

Lemma bind_Return m f w a w1 :
  m w = (Return a, w1) → (m ≫= f) w = f a w1.
Proof. intros H. unfold mbind, Py_bind. by rewrite H. Qed.

Lemma bind_Raise m f w e w1 :
  m w = (Raise e, w1) → (m ≫= f) w = (Raise e, w1).
Proof. intros H. unfold mbind, Py_bind. by rewrite H. Qed.

Lemma bind_inv m f w r w' :
  (m ≫= f) w = (r, w') →
  (∃ a w1, m w = (Return a, w1) ∧ f a w1 = (r, w'))
  ∨ (∃ e, m w = (Raise e, w') ∧ r = Raise e).
Proof.
  unfold mbind, Py_bind. destruct (m w) as [[a|e] w1]; intros H.
  - left. eauto.
  - right. exists e. by inversion H.
Qed.
End Bind.

Lemma frame_refl w : frame w w.
Proof.
  split; [done | done | lia |]. exists []. by rewrite app_nil_r.
Qed.

Lemma frame_trans w1 w2 w3 : frame w1 w2 → frame w2 w3 → frame w1 w3.
Proof.
  intros [Hf1 Hn1 Ho1 (e1 & Ht1 & Hw1)] [Hf2 Hn2 Ho2 (e2 & Ht2 & Hw2)].
  split; [congruence | congruence | lia |].
  exists (e1 ++ e2). split.
  - by rewrite Ht2, Ht1, app_assoc.
  - by apply Forall_app.
Qed.

Lemma frame_alloc w n : (last_obj w ≤ n)%nat → frame w (set_last_obj n w).
Proof.
  intros Hn. split; [done | done | done |]. exists []. by rewrite app_nil_r.
Qed.

Lemma frame_emit w ev : is_write ev = false → frame w (happened [ev] w).
Proof.
  intros Hev. split; [done | done | simpl; lia |]. exists [ev]. split; [done|].
  by constructor.
Qed.

Create HintDb py discriminated.

Lemma lib_io_io_only {A} (m : Py A) : lib_io m → io_only m.
Proof. intros H w r w' Hm. by destruct (H w r w' Hm). Qed.

Section Closure.
Context {A B : Type}.

Lemma quiet_ret (a : A) : quiet (mret a).
Proof. intros w a' w' H. by inversion H. Qed.

Lemma quiet_raise_new cls args : quiet (@raise_new A cls args).
Proof. intros w a w' H. inversion H. Qed.

Lemma quiet_raise e : quiet (@raise A e).
Proof. intros w a w' H. inversion H. Qed.

Lemma quiet_or_raise (o : option A) cls args : quiet (or_raise o cls args).
Proof. destruct o; [apply quiet_ret | apply quiet_raise_new]. Qed.

Lemma quiet_bind (m : Py A) (f : A → Py B) :
  quiet m → (∀ a, quiet (f a)) → quiet (m ≫= f).
Proof.
  intros Hm Hf w b w' H.
  apply bind_inv in H as [(a & w1 & H1 & H2) | (e & _ & ?)]; [|done].
  apply Hm in H1 as ->. by apply Hf in H2.
Qed.

Lemma lib_io_ret (a : A) : lib_io (mret a).
Proof. intros w r w' H. inversion H; subst. split; [apply frame_refl | done]. Qed.

Lemma lib_io_raise_new cls args : lib_io (@raise_new A cls args).
Proof.
  intros w r w' H. inversion H; subst. split.
  - apply frame_alloc. lia.
  - intros e [= <-]. simpl. lia.
Qed.

Lemma lib_io_or_raise (o : option A) cls args : lib_io (or_raise o cls args).
Proof. destruct o; [apply lib_io_ret | apply lib_io_raise_new]. Qed.

Lemma lib_io_bind (m : Py A) (f : A → Py B) :
  lib_io m → (∀ a, lib_io (f a)) → lib_io (m ≫= f).
Proof.
  intros Hm Hf w r w' H.
  apply bind_inv in H as [(a & w1 & H1 & H2) | (e & H1 & ->)].
  - destruct (Hm _ _ _ H1) as [F1 _]. destruct (Hf _ _ _ _ H2) as [F2 R2].
    split; [by eapply frame_trans|].
    intros e He. specialize (R2 e He). destruct F1. lia.
  - destruct (Hm _ _ _ H1) as [F1 R1]. split; [done|].
    intros e' [= <-]. by apply R1.
Qed.

Lemma io_only_bind (m : Py A) (f : A → Py B) :
  io_only m → (∀ a, io_only (f a)) → io_only (m ≫= f).
Proof.
  intros Hm Hf w r w' H.
  apply bind_inv in H as [(a & w1 & H1 & H2) | (e & H1 & ->)].
  - eapply frame_trans; [by eapply Hm | by eapply Hf].
  - by eapply Hm.
Qed.

Lemma io_only_raise e : io_only (@raise A e).
Proof. intros w r w' H. inversion H. apply frame_refl. Qed.
End Closure.

Lemma lib_io_emit ev : is_write ev = false → lib_io (emit ev).
Proof.
  intros Hev w r w' H. inversion H; subst. split; [by apply frame_emit | done].
Qed.

#[export] Hint Resolve quiet_ret quiet_raise_new quiet_raise quiet_or_raise
  lib_io_ret lib_io_raise_new lib_io_or_raise io_only_raise : py.

(** ** Computations that only compute *)

Section Pure.
Context {A B : Type}.

Lemma pure_ret (a : A) : pure_py (mret a).
Proof. by exists (inl a). Qed.

Lemma pure_raise_new cls args : pure_py (@raise_new A cls args).
Proof. by exists (inr (cls, args)). Qed.

Lemma pure_or_raise (o : option A) cls args : pure_py (or_raise o cls args).
Proof. destruct o; [apply pure_ret | apply pure_raise_new]. Qed.

Lemma pure_bind (m : Py A) (f : A → Py B) :
  pure_py m → (∀ a, pure_py (f a)) → pure_py (m ≫= f).
Proof.
  intros [[a|[cls args]] Hm] Hf.
  - destruct (Hf a) as [res Hres]. exists res. intros w.
    rewrite (bind_Return m f w a w); [done | apply Hm].
  - exists (inr (cls, args)). intros w.
    unfold mbind, Py_bind. by rewrite Hm.
Qed.

(** Two runs from worlds with the same allocator end alike. *)
Lemma pure_outcome (m : Py A) w v :
  pure_py m → last_obj w = last_obj v → fst (m w) = fst (m v).
Proof.
  intros [[a|[cls args]] Hm] Hobj; rewrite !Hm; simpl; [done|].
  by rewrite Hobj.
Qed.

Lemma pure_Return (m : Py A) w a w' :
  pure_py m → m w = (Return a, w') → ∀ v, m v = (Return a, v).
Proof.
  intros [[a'|[cls args]] Hm] H v; rewrite Hm in H; inversion H; subst.
  by rewrite Hm.
Qed.
End Pure.

Lemma pure_mapM {A B} (f : A → Py B) l : (∀ a, pure_py (f a)) → pure_py (mapM f l).
Proof.
  intros Hf. induction l as [|x l IH]; simpl.
  - apply pure_ret.
  - apply pure_bind; [done|]. intros y.
    apply pure_bind; [done|]. intros k. apply pure_ret.
Qed.

Lemma pure_quiet {A} (m : Py A) : pure_py m → quiet m.
Proof.
  intros [[a|[cls args]] Hm] w a' w' H; rewrite Hm in H; by inversion H.
Qed.

Lemma pure_lib_io {A} (m : Py A) : pure_py m → lib_io m.
Proof.
  intros [[a|[cls args]] Hm] w r w' H; rewrite Hm in H.
  - by apply (lib_io_ret a w).
  - by apply (lib_io_raise_new (A:=A) cls args w).
Qed.

#[export] Hint Resolve pure_ret pure_raise_new pure_or_raise pure_mapM
  pure_quiet pure_lib_io lib_io_io_only : py.

(** Walks through a computation built from binds, conditionals and matches. *)
Ltac py_walk :=
  repeat first
    [ progress intros
    | apply pure_bind | apply quiet_bind | apply lib_io_bind | apply io_only_bind
    | apply lib_io_emit; reflexivity
    | solve [auto with py]
    | match goal with
      | |- context [match ?x with _ => _ end] => destruct x
      end ].

(** ** The library functions *)

Lemma pure_py_getitem o k : pure_py (py_getitem o k).
Proof. unfold py_getitem. py_walk. Qed.

Lemma pure_py_iter o : pure_py (py_iter o).
Proof. unfold py_iter. py_walk. Qed.

Lemma pure_py_date_fromisoformat v : pure_py (py_date_fromisoformat v).
Proof. unfold py_date_fromisoformat. py_walk. Qed.

Lemma pure_py_datetime_fromisoformat v : pure_py (py_datetime_fromisoformat v).
Proof. unfold py_datetime_fromisoformat. py_walk. Qed.

Lemma pure_response_json r : pure_py (response_json r).
Proof. unfold response_json. py_walk. Qed.

Lemma pure_df_getitem df c : pure_py (df_getitem df c).
Proof. unfold df_getitem. py_walk. Qed.

Lemma pure_Series_min col : pure_py (Series_min col).
Proof. unfold Series_min. py_walk. Qed.

Lemma pure_Series_max col : pure_py (Series_max col).
Proof. unfold Series_max. py_walk. Qed.

Lemma quiet_os_path_exists p : quiet (os_path_exists p).
Proof. intros w a w' H. by inversion H. Qed.

Lemma lib_io_os_path_exists p : lib_io (os_path_exists p).
Proof. intros w r w' H. inversion H; subst. split; [apply frame_refl | done]. Qed.

Lemma quiet_read_parquet p : quiet (read_parquet p).
Proof.
  intros w a w' H. unfold read_parquet in H.
  destruct (node w p) as [[|[df|b]]|]; by inversion H.
Qed.

Lemma lib_io_read_parquet p : lib_io (read_parquet p).
Proof.
  intros w r w'. unfold read_parquet.
  destruct (node w p) as [[|[df|b]]|];
    first [ apply lib_io_raise_new | apply (lib_io_ret df) ].
Qed.

Lemma lib_io_logger_info msg : lib_io (logger_info msg).
Proof. by apply lib_io_emit. Qed.

Lemma lib_io_logger_error msg : lib_io (logger_error msg).
Proof. by apply lib_io_emit. Qed.

Lemma lib_io_requests_get u ps hs : lib_io (requests_get u ps hs).
Proof.
  intros w r w' H. unfold requests_get in H.
  destruct (net w _) as [resp|cls msg].
  - inversion H; subst. split; [by apply frame_emit | done].
  - pose proof (lib_io_raise_new (A:=Response) cls [msg] _ _ _ H) as [F R].
    split; [|exact R].
    eapply frame_trans; [|exact F]. by apply frame_emit.
Qed.

#[export] Hint Resolve pure_py_getitem pure_py_iter pure_py_date_fromisoformat
  pure_py_datetime_fromisoformat pure_response_json pure_df_getitem
  pure_Series_min pure_Series_max quiet_os_path_exists lib_io_os_path_exists
  quiet_read_parquet lib_io_read_parquet lib_io_logger_info lib_io_logger_error
  lib_io_requests_get : py.

(** ** The functions of the module *)

Lemma pure_from_json json : pure_py (TickerPrice.from_json json).
Proof. unfold TickerPrice.from_json. py_walk. Qed.

#[export] Hint Resolve pure_from_json : py.

(** [from_json] on a dict that has the thirteen keys: each field of the record
    is the value of its key, the date read from its ISO text. *)
Lemma from_json_dict items s dt o h l c v ao ah al ac av dc sf w :
  assoc "date" items = Some (PStr s) →
  Datetime.datetime_fromisoformat s = Some dt →
  assoc "open" items = Some o →
  assoc "high" items = Some h →
  assoc "low" items = Some l →
  assoc "close" items = Some c →
  assoc "volume" items = Some v →
  assoc "adjOpen" items = Some ao →
  assoc "adjHigh" items = Some ah →
  assoc "adjLow" items = Some al →
  assoc "adjClose" items = Some ac →
  assoc "adjVolume" items = Some av →
  assoc "divCash" items = Some dc →
  assoc "splitFactor" items = Some sf →
  TickerPrice.from_json (PDict items) w
  = (Return (TickerPrice.mk (Datetime.dt_date dt) o h l c v ao ah al ac av dc sf), w).
Proof.
  intros Hd Hdt Ho Hh Hl Hc Hv Hao Hah Hal Hac Hav Hdc Hsf.
  unfold TickerPrice.from_json, py_getitem, py_datetime_fromisoformat.
  unfold mbind, Py_bind.
  rewrite Hd. simpl. rewrite Hdt. simpl.
  by rewrite Ho, Hh, Hl, Hc, Hv, Hao, Hah, Hal, Hac, Hav, Hdc, Hsf.
Qed.

(** What [from_json] has read when it returns a record. *)
Lemma from_json_inv items p w w' :
  TickerPrice.from_json (PDict items) w = (Return p, w') →
  w' = w
  ∧ (∃ s dt, assoc "date" items = Some (PStr s)
             ∧ Datetime.datetime_fromisoformat s = Some dt
             ∧ TickerPrice.date p = Datetime.dt_date dt)
  ∧ assoc "open" items = Some (TickerPrice.open p)
  ∧ assoc "high" items = Some (TickerPrice.high p)
  ∧ assoc "low" items = Some (TickerPrice.low p)
  ∧ assoc "close" items = Some (TickerPrice.close p)
  ∧ assoc "volume" items = Some (TickerPrice.volume p)
  ∧ assoc "adjOpen" items = Some (TickerPrice.adjusted_open p)
  ∧ assoc "adjHigh" items = Some (TickerPrice.adjusted_high p)
  ∧ assoc "adjLow" items = Some (TickerPrice.adjusted_low p)
  ∧ assoc "adjClose" items = Some (TickerPrice.adjusted_close p)
  ∧ assoc "adjVolume" items = Some (TickerPrice.adjusted_volume p)
  ∧ assoc "divCash" items = Some (TickerPrice.dividend_cash p)
  ∧ assoc "splitFactor" items = Some (TickerPrice.split_factor p).
Proof.
  unfold TickerPrice.from_json, py_getitem, py_datetime_fromisoformat.
  unfold mbind, Py_bind, or_raise. intros H.
  destruct (assoc "date" items) as [d|] eqn:Hd; simpl in H; [|done].
  destruct d as [| | | |s| | |]; simpl in H; try done.
  destruct (Datetime.datetime_fromisoformat s) as [dt|] eqn:Hdt; simpl in H; [|done].
  destruct (assoc "open" items) eqn:Ho; simpl in H; [|done].
  destruct (assoc "high" items) eqn:Hh; simpl in H; [|done].
  destruct (assoc "low" items) eqn:Hl; simpl in H; [|done].
  destruct (assoc "close" items) eqn:Hc; simpl in H; [|done].
  destruct (assoc "volume" items) eqn:Hv; simpl in H; [|done].
  destruct (assoc "adjOpen" items) eqn:Hao; simpl in H; [|done].
  destruct (assoc "adjHigh" items) eqn:Hah; simpl in H; [|done].
  destruct (assoc "adjLow" items) eqn:Hal; simpl in H; [|done].
  destruct (assoc "adjClose" items) eqn:Hac; simpl in H; [|done].
  destruct (assoc "adjVolume" items) eqn:Hav; simpl in H; [|done].
  destruct (assoc "divCash" items) eqn:Hdc; simpl in H; [|done].
  destruct (assoc "splitFactor" items) eqn:Hsf; simpl in H; [|done].
  inversion H; subst. simpl. split; [done|]. split; [by exists s, dt|].
  by repeat split.
Qed.

Lemma pure_prices_of r : pure_py (TiingoClient.prices_of r).
Proof. unfold TiingoClient.prices_of. py_walk. Qed.

Lemma pure_ticker_info_of r : pure_py (TiingoClient.ticker_info_of r).
Proof. unfold TiingoClient.ticker_info_of. py_walk. Qed.

#[export] Hint Resolve pure_prices_of pure_ticker_info_of : py.

Lemma lib_io_get_ticker_prices c ticker d1 d2 :
  lib_io (TiingoClient.get_ticker_prices c ticker d1 d2).
Proof. unfold TiingoClient.get_ticker_prices. py_walk. Qed.

Lemma io_only_get_ticker_info c ticker :
  io_only (TiingoClient.get_ticker_info c ticker).
Proof. unfold TiingoClient.get_ticker_info. py_walk. Qed.

Lemma quiet_cached_table p info : quiet (TickerPriceStorage.cached_table p info).
Proof. unfold TickerPriceStorage.cached_table. py_walk. Qed.

Lemma lib_io_cached_table p info : lib_io (TickerPriceStorage.cached_table p info).
Proof. unfold TickerPriceStorage.cached_table. py_walk. Qed.

(** [get_ticker_info], case by case on what the provider answers. *)
Lemma get_ticker_info_eq c ticker w :
  TiingoClient.get_ticker_info c ticker w =
  match net w (info_request c ticker) with
  | NetFailure cls msg => raise_new cls [msg] (happened (info_events c ticker) w)
  | Answer r =>
      if negb (status_code r =? 200)
      then (Raise ErrorTickerNotFound,
            happened (info_events c ticker ++ [info_error_log ticker r]) w)
      else TiingoClient.ticker_info_of r (happened (info_events c ticker) w)
  end.
Proof.
  unfold TiingoClient.get_ticker_info, logger_info, logger_error.
  unfold mbind, Py_bind, emit, requests_get, raise.
  rewrite happened_app. change (net (happened _ w)) with (net w).
  fold (info_request c ticker).
  destruct (net w (info_request c ticker)) as [r|cls msg]; [|done].
  destruct (negb (status_code r =? 200)); [|done].
  by rewrite happened_app.
Qed.

(** [get_ticker_prices]: the status code of the answer is not looked at. *)
Lemma get_ticker_prices_eq c ticker d1 d2 w :
  TiingoClient.get_ticker_prices c ticker d1 d2 w =
  match net w (prices_request c ticker d1 d2) with
  | NetFailure cls msg => raise_new cls [msg] (happened (prices_events c ticker d1 d2) w)
  | Answer r => TiingoClient.prices_of r (happened (prices_events c ticker d1 d2) w)
  end.
Proof.
  unfold TiingoClient.get_ticker_prices, logger_info.
  unfold mbind at 1 2, Py_bind at 1 2, emit, requests_get.
  rewrite happened_app. change (net (happened _ w)) with (net w).
  fold (prices_request c ticker d1 d2).
  destruct (net w (prices_request c ticker d1 d2)) as [r|cls msg]; done.
Qed.

(** ** The file tree *)

Lemma frame_node w w' p : frame w w' → node w' p = node w p.
Proof. intros [Hfs _ _ _]. unfold node. by rewrite Hfs. Qed.

Lemma happened_node evs w p : node (happened evs w) p = node w p.
Proof. done. Qed.

(** A path where there is no directory is an entry of the file map. *)
Lemma node_lookup w p : node w p ≠ Some Dir → ∀ v, node v p = fs v !! p.
Proof.
  intros H v. unfold node in *. by case_decide.
Qed.

Lemma parent_ne (p : Path) : p ≠ [] → parent p ≠ p.
Proof.
  intros Hp Heq. apply (f_equal length) in Heq. revert Heq. unfold parent.
  induction p as [|a [|b q] IH]; [done | simpl; lia |].
  change (removelast (a :: b :: q)) with (a :: removelast (b :: q)).
  simpl length. intros [= H]. by apply IH.
Qed.

Lemma py_eq_date_true v d : py_eq_date v d = true ↔ v = PDate d.
Proof.
  destruct v; simpl; try (split; [done | congruence]).
  rewrite bool_decide_eq_true. split; congruence.
Qed.

Lemma py_eq_date_false v d : py_eq_date v d = false ↔ v ≠ PDate d.
Proof.
  rewrite <- py_eq_date_true. destruct (py_eq_date v d); split; congruence.
Qed.

(** ** The freshness test *)

(** The test on a parquet file whose date bounds can be taken. *)
Lemma cached_table_bounds p info w df lo hi :
  node w p = Some (File (Parquet df)) →
  date_bounds df = Some (lo, hi) →
  TickerPriceStorage.cached_table p info w =
  (Return (if py_eq_date lo (TickerInfo.startDate info)
              && py_eq_date hi (TickerInfo.endDate info)
           then Some df else None), w).
Proof.
  intros Hnode Hb. unfold date_bounds in Hb.
  apply bind_Some in Hb as (col & Hcol & Hb).
  apply bind_Some in Hb as (lo' & Hlo & Hb).
  apply bind_Some in Hb as (hi' & Hhi & [= -> ->]).
  unfold TickerPriceStorage.cached_table, os_path_exists, read_parquet,
    df_getitem, Series_min, Series_max.
  unfold mbind, Py_bind.
  do 4 (rewrite ?Hnode, ?Hcol, ?Hlo; simpl).
  destruct (py_eq_date lo _); [|done].
  do 2 (rewrite ?Hcol, ?Hhi; simpl).
  by destruct (py_eq_date hi _).
Qed.

Lemma cached_table_absent p info w :
  node w p = None → TickerPriceStorage.cached_table p info w = (Return None, w).
Proof.
  intros Hnode. unfold TickerPriceStorage.cached_table, os_path_exists.
  unfold mbind, Py_bind. by rewrite Hnode.
Qed.

(** A table without a date column stops the test with a KeyError. *)
Lemma cached_table_no_column p info w df :
  node w p = Some (File (Parquet df)) →
  column df "date" = None →
  TickerPriceStorage.cached_table p info w = raise_new "KeyError" ["date"] w.
Proof.
  intros Hnode Hcol.
  unfold TickerPriceStorage.cached_table, os_path_exists, read_parquet, df_getitem.
  unfold mbind, Py_bind.
  by do 3 (rewrite ?Hnode, ?Hcol; simpl).
Qed.

(** What the test has seen when it hands a table back. *)
Lemma cached_table_Some p info w df w' :
  TickerPriceStorage.cached_table p info w = (Return (Some df), w') →
  node w p = Some (File (Parquet df))
  ∧ date_bounds df = Some (PDate (TickerInfo.startDate info),
                           PDate (TickerInfo.endDate info)).
Proof.
  unfold TickerPriceStorage.cached_table, os_path_exists, read_parquet,
    df_getitem, Series_min, Series_max, date_bounds, or_raise.
  unfold mbind, Py_bind, option_bind. simpl.
  destruct (node w p) as [[|[df'|b]]|] eqn:Hnode; simpl;
    rewrite ?Hnode; simpl; try done.
  destruct (column df' "date") as [col|] eqn:Hcol; simpl; [|done].
  destruct (col_min col) as [lo|] eqn:Hmin; simpl; [|done].
  destruct (py_eq_date lo _) eqn:Hlo; simpl; [|done].
  destruct (col_max col) as [hi|] eqn:Hmax; simpl; [|done].
  destruct (py_eq_date hi _) eqn:Hhi; simpl; [|done].
  intros [= <- <-]. rewrite Hcol, Hmin, Hmax.
  apply py_eq_date_true in Hlo as ->.
  by apply py_eq_date_true in Hhi as ->.
Qed.

(** ** [read], path by path *)

Section Read.
Context {library : Arrow}.
Variables (self : TickerPriceStorage.t) (ticker : string).
Local Abbreviation c := (TickerPriceStorage.tiingo self).
Local Abbreviation p := (TickerPriceStorage.filepath self ticker).

Lemma read_info_raises w e w1 :
  TiingoClient.get_ticker_info c ticker w = (Raise e, w1) →
  TickerPriceStorage.read self ticker w = (Raise e, w1).
Proof. intros H. unfold TickerPriceStorage.read. by apply bind_Raise. Qed.

Lemma read_hit w info w1 df :
  TiingoClient.get_ticker_info c ticker w = (Return info, w1) →
  TickerPriceStorage.cached_table p info w1 = (Return (Some df), w1) →
  TickerPriceStorage.read self ticker w = (Return df, w1).
Proof.
  intros Hinfo Hc. unfold TickerPriceStorage.read.
  rewrite (bind_Return _ _ _ _ _ Hinfo).
  by rewrite (bind_Return _ _ _ _ _ Hc).
Qed.

Lemma read_check_raises w info w1 e w2 :
  TiingoClient.get_ticker_info c ticker w = (Return info, w1) →
  TickerPriceStorage.cached_table p info w1 = (Raise e, w2) →
  TickerPriceStorage.read self ticker w = (Raise e, w2).
Proof.
  intros Hinfo Hc. unfold TickerPriceStorage.read.
  rewrite (bind_Return _ _ _ _ _ Hinfo).
  by rewrite (bind_Raise _ _ _ _ _ Hc).
Qed.

Lemma read_fetch_raises w info w1 e w2 :
  TiingoClient.get_ticker_info c ticker w = (Return info, w1) →
  TickerPriceStorage.cached_table p info w1 = (Return None, w1) →
  TiingoClient.get_ticker_prices c ticker (TickerInfo.startDate info)
    (TickerInfo.endDate info) w1 = (Raise e, w2) →
  TickerPriceStorage.read self ticker w = (Raise e, w2).
Proof.
  intros Hinfo Hc Hp. unfold TickerPriceStorage.read.
  rewrite (bind_Return _ _ _ _ _ Hinfo).
  rewrite (bind_Return _ _ _ _ _ Hc).
  by rewrite (bind_Raise _ _ _ _ _ Hp).
Qed.

(** The miss path, when the table can be converted and the file can be
    written: the parent directory is there and the path is not itself a
    directory. *)
Lemma read_miss w info w1 prices w2 table :
  TiingoClient.get_ticker_info c ticker w = (Return info, w1) →
  TickerPriceStorage.cached_table p info w1 = (Return None, w1) →
  TiingoClient.get_ticker_prices c ticker (TickerInfo.startDate info)
    (TickerInfo.endDate info) w1 = (Return prices, w2) →
  to_arrow (pd_DataFrame prices) = inl table →
  node w2 p ≠ Some Dir →
  node w2 (parent p) = Some Dir →
  TickerPriceStorage.read self ticker w =
  (Return table,
   happened [EvWrite p] (set_fs (insert p (File (Parquet table))) w2)).
Proof.
  intros Hinfo Hc Hp Hconv Hnd Hpar. unfold TickerPriceStorage.read.
  rewrite (bind_Return _ _ _ _ _ Hinfo).
  rewrite (bind_Return _ _ _ _ _ Hc).
  rewrite (bind_Return _ _ _ _ _ Hp).
  set (df := pd_DataFrame prices) in *.
  set (w3 := happened [EvWrite p] (set_fs (insert p (File (Parquet table))) w2)).
  assert (Hw : to_parquet df p w2 = (Return (), w3)).
  { unfold to_parquet. rewrite Hconv, Hpar.
    destruct (node w2 p) as [[|d]|]; done. }
  rewrite (bind_Return _ _ _ _ _ Hw).
  unfold read_parquet. rewrite (node_lookup w2 p Hnd w3).
  unfold w3. simpl. by rewrite lookup_insert_eq.
Qed.

(** The miss path, when the table cannot be converted. *)
Lemma read_convert_raises w info w1 prices w2 cls args :
  TiingoClient.get_ticker_info c ticker w = (Return info, w1) →
  TickerPriceStorage.cached_table p info w1 = (Return None, w1) →
  TiingoClient.get_ticker_prices c ticker (TickerInfo.startDate info)
    (TickerInfo.endDate info) w1 = (Return prices, w2) →
  to_arrow (pd_DataFrame prices) = inr (cls, args) →
  TickerPriceStorage.read self ticker w = raise_new cls args w2.
Proof.
  intros Hinfo Hc Hp Hconv. unfold TickerPriceStorage.read.
  rewrite (bind_Return _ _ _ _ _ Hinfo).
  rewrite (bind_Return _ _ _ _ _ Hc).
  rewrite (bind_Return _ _ _ _ _ Hp).
  apply bind_Raise. unfold to_parquet. by rewrite Hconv.
Qed.
End Read.

(** What a returning call of the client has met and done. *)
Lemma get_ticker_info_Return c ticker w info w1 :
  TiingoClient.get_ticker_info c ticker w = (Return info, w1) →
  w1 = happened (info_events c ticker) w
  ∧ ∃ r, net w (info_request c ticker) = Answer r
         ∧ status_code r = 200
         ∧ ∀ v, TiingoClient.ticker_info_of r v = (Return info, v).
Proof.
  rewrite get_ticker_info_eq. intros H.
  destruct (net w _) as [r|cls msg]; [|done].
  destruct (status_code r =? 200) eqn:Hs; [|done]. simpl in H.
  split; [by apply (pure_quiet _ (pure_ticker_info_of r)) in H|].
  exists r. split; [done|]. split; [by apply Z.eqb_eq|].
  by eapply pure_Return; [apply pure_ticker_info_of|].
Qed.

Lemma get_ticker_prices_Return c ticker d1 d2 w prices w2 :
  TiingoClient.get_ticker_prices c ticker d1 d2 w = (Return prices, w2) →
  w2 = happened (prices_events c ticker d1 d2) w
  ∧ ∃ r, net w (prices_request c ticker d1 d2) = Answer r
         ∧ ∀ v, TiingoClient.prices_of r v = (Return prices, v).
Proof.
  rewrite get_ticker_prices_eq. intros H.
  destruct (net w _) as [r|cls msg]; [|done].
  split; [by apply (pure_quiet _ (pure_prices_of r)) in H|].
  exists r. split; [done|].
  by eapply pure_Return; [apply pure_prices_of|].
Qed.

(** The freshness test sends [read] to the provider when there is nothing at
    the path, or a table whose bounds are not the metadata's. *)
Lemma cached_table_miss p info w :
  (node w p = None
   ∨ ∃ df lo hi,
       node w p = Some (File (Parquet df))
       ∧ date_bounds df = Some (lo, hi)
       ∧ (lo ≠ PDate (TickerInfo.startDate info)
          ∨ hi ≠ PDate (TickerInfo.endDate info))) →
  TickerPriceStorage.cached_table p info w = (Return None, w)
  ∧ node w p ≠ Some Dir.
Proof.
  intros [Hnone | (df & lo & hi & Hnode & Hb & Hne)].
  - split; [by apply cached_table_absent | by rewrite Hnone].
  - split; [|by rewrite Hnode].
    rewrite (cached_table_bounds p info w df lo hi Hnode Hb).
    destruct Hne as [Hne|Hne]; apply py_eq_date_false in Hne; rewrite Hne;
      [done | by rewrite andb_false_r].
Qed.

(** ** Every run of [read] *)

Lemma to_parquet_inv {library : Arrow} df p w r w' :
  to_parquet df p w = (r, w') →
  (∃ table,
     to_arrow df = inl table
     ∧ r = Return ()
     ∧ node w p ≠ Some Dir
     ∧ node w (parent p) = Some Dir
     ∧ w' = happened [EvWrite p] (set_fs (insert p (File (Parquet table))) w))
  ∨ (∃ e, r = Raise e ∧ frame w w').
Proof.
  unfold to_parquet. intros H.
  assert (Hraise : ∀ cls args, @raise_new unit cls args w = (r, w') →
                               ∃ e, r = Raise e ∧ frame w w').
  { intros cls args [= <- <-]. eexists. split; [done|]. apply frame_alloc. lia. }
  destruct (to_arrow df) as [table|[cls args]]; [|right; by eapply Hraise].
  destruct (node w p) as [[|d]|] eqn:Hp; [right; by eapply Hraise | |];
    (destruct (node w (parent p)) as [[|d']|] eqn:Hpar;
     [ left; exists table; by inversion H
     | right; by eapply Hraise | right; by eapply Hraise ]).
Qed.

Section ReadRuns.
Context {library : Arrow}.
Variables (self : TickerPriceStorage.t) (ticker : string).
Local Abbreviation c := (TickerPriceStorage.tiingo self).
Local Abbreviation p := (TickerPriceStorage.filepath self ticker).

(** A run that returns took the hit path or the miss path. *)
Lemma read_Return_inv w df w' :
  TickerPriceStorage.read self ticker w = (Return df, w') →
  ∃ info,
    TiingoClient.get_ticker_info c ticker w
      = (Return info, happened (info_events c ticker) w)
    ∧ ((TickerPriceStorage.cached_table p info (happened (info_events c ticker) w)
          = (Return (Some df), happened (info_events c ticker) w)
        ∧ w' = happened (info_events c ticker) w)
       ∨ (∃ prices w2,
            TickerPriceStorage.cached_table p info (happened (info_events c ticker) w)
              = (Return None, happened (info_events c ticker) w)
            ∧ TiingoClient.get_ticker_prices c ticker (TickerInfo.startDate info)
                (TickerInfo.endDate info) (happened (info_events c ticker) w)
              = (Return prices, w2)
            ∧ to_arrow (pd_DataFrame prices) = inl df
            ∧ node w2 p ≠ Some Dir
            ∧ node w2 (parent p) = Some Dir
            ∧ w' = happened [EvWrite p] (set_fs (insert p (File (Parquet df))) w2))).
Proof.
  unfold TickerPriceStorage.read. intros H.
  apply bind_inv in H as [(info & w1 & Hinfo & H) | (e & _ & ?)]; [|done].
  destruct (get_ticker_info_Return _ _ _ _ _ Hinfo) as [-> _].
  exists info. split; [done|].
  apply bind_inv in H as [(cached & w1' & Hc & H) | (e & _ & ?)]; [|done].
  pose proof (quiet_cached_table _ _ _ _ _ Hc) as ->.
  destruct cached as [df'|].
  - left. by inversion H; subst.
  - right.
    apply bind_inv in H as [(prices & w2 & Hp & H) | (e & _ & ?)]; [|done].
    apply bind_inv in H as [([] & w3 & Hw & H) | (e & _ & ?)]; [|done].
    apply to_parquet_inv in Hw
      as [(table & Hconv & _ & Hnd & Hpar & ->) | (e & ? & _)]; [|done].
    unfold read_parquet in H. rewrite happened_node in H.
    rewrite (node_lookup w2 _ Hnd) in H. simpl in H.
    rewrite lookup_insert_eq in H. inversion H; subst.
    by exists prices, w2.
Qed.

(** A run that raises has written nothing. *)
Lemma read_Raise_frame w e w' :
  TickerPriceStorage.read self ticker w = (Raise e, w') → frame w w'.
Proof.
  unfold TickerPriceStorage.read. intros H.
  apply bind_inv in H as [(info & w1 & Hinfo & H) | (e' & Hinfo & _)];
    [|by eapply io_only_get_ticker_info].
  eapply frame_trans; [by eapply io_only_get_ticker_info|].
  apply bind_inv in H as [(cached & w1' & Hc & H) | (e' & Hc & _)];
    [|by eapply lib_io_cached_table].
  pose proof (quiet_cached_table _ _ _ _ _ Hc) as ->.
  destruct cached as [df'|]; [done|].
  apply bind_inv in H as [(prices & w2 & Hp & H) | (e' & Hp & _)];
    [|by eapply lib_io_get_ticker_prices].
  eapply frame_trans; [by eapply lib_io_get_ticker_prices|].
  apply bind_inv in H as [([] & w3 & Hw & H) | (e' & Hw & _)].
  - apply to_parquet_inv in Hw
      as [(table & _ & _ & Hnd & Hpar & ->) | (e' & ? & _)]; [|done].
    unfold read_parquet in H. rewrite happened_node in H.
    rewrite (node_lookup w2 _ Hnd) in H. simpl in H.
    by rewrite lookup_insert_eq in H.
  - by apply to_parquet_inv in Hw as [(? & _ & ? & _) | (_ & _ & ?)].
Qed.
End ReadRuns.

(** ** The second [read] *)

Lemma node_insert_ne w p q x :
  q ≠ p → node (set_fs (insert p x) w) q = node w q.
Proof.
  intros Hne. unfold node. case_decide; [done|].
  simpl. by rewrite lookup_insert_ne.
Qed.

Lemma node_insert_eq w p x :
  node w p ≠ Some Dir → node (set_fs (insert p x) w) p = Some x.
Proof.
  intros Hnd. rewrite (node_lookup w p Hnd). simpl. by rewrite lookup_insert_eq.
Qed.

Lemma node_not_dir_nonempty w p : node w p ≠ Some Dir → p ≠ [].
Proof. intros Hnd ->. by apply Hnd. Qed.

Lemma node_fs_eq w v p : fs v = fs w → node v p = node w p.
Proof. intros H. unfold node. by rewrite H. Qed.

(** ** Tables *)

Lemma index_of_lt c cols j : index_of c cols = Some j → (j < length cols)%nat.
Proof.
  revert j. induction cols as [|c' cols IH]; intros j; simpl; [done|].
  case_decide; [intros [= <-]; lia|].
  destruct (index_of c cols) as [k|]; simpl; [|done].
  intros [= <-]. specialize (IH k eq_refl). lia.
Qed.

Lemma column_map_cells f df c :
  column (map_cells f df) c = (λ col, imap (f col) col) <$> column df c.
Proof.
  unfold column, map_cells. simpl.
  destruct (index_of c (columns df)) as [j|] eqn:Hj; simpl; [|done].
  apply index_of_lt in Hj. f_equal.
  apply list_eq. intros i.
  rewrite list_lookup_fmap, !list_lookup_imap, list_lookup_fmap.
  destruct (rows df !! i) as [r|]; simpl; [|done]. f_equal.
  rewrite nth_lookup, list_lookup_imap.
  destruct (lookup_lt_is_Some_2 (columns df) j Hj) as [x ->]. done.
Qed.

Lemma column_at_map_cells f df j :
  (j < length (columns df))%nat →
  column_at (map_cells f df) j = imap (f (column_at df j)) (column_at df j).
Proof.
  intros Hj. unfold column_at, map_cells. simpl.
  apply list_eq. intros i.
  rewrite list_lookup_fmap, !list_lookup_imap, list_lookup_fmap.
  destruct (rows df !! i) as [r|]; simpl; [|done]. f_equal.
  rewrite nth_lookup, list_lookup_imap.
  destruct (lookup_lt_is_Some_2 (columns df) j Hj) as [x ->]. done.
Qed.

Lemma map_cells_rows_length f df :
  Forall (λ r, length r = length (columns df)) (rows (map_cells f df)).
Proof.
  apply Forall_lookup. intros i r. unfold map_cells. simpl.
  rewrite list_lookup_imap. destruct (rows df !! i); simpl; [|done].
  intros [= <-]. apply length_imap.
Qed.

(** A table of full rows is left as it is by a change that changes no cell. *)
Lemma map_cells_id f df :
  Forall (λ r, length r = length (columns df)) (rows df) →
  (∀ j i v, (j < length (columns df))%nat → f (column_at df j) i v = v) →
  map_cells f df = df.
Proof.
  intros Hrows Hf. destruct df as [cols rs]. unfold map_cells.
  cbn [columns rows] in *. f_equal.
  apply list_eq. intros i. rewrite list_lookup_imap.
  destruct (rs !! i) as [r|] eqn:Hr; simpl; [|done]. f_equal.
  pose proof (Forall_lookup_1 _ _ _ _ Hrows Hr) as Hlen. simpl in Hlen.
  apply list_eq. intros j. rewrite list_lookup_imap.
  destruct (cols !! j) as [c|] eqn:Hc; simpl.
  - apply lookup_lt_Some in Hc. rewrite Hf by done.
    rewrite nth_lookup. destruct (r !! j) eqn:Hrj; [done|].
    apply lookup_ge_None in Hrj. lia.
  - symmetry. apply lookup_ge_None. apply lookup_ge_None in Hc. lia.
Qed.

Lemma omap_nil {A B} (f : A → option B) (l : list A) :
  Forall (λ x, f x = None) l → omap f l = [].
Proof. induction 1 as [|x l Hx _ IH]; simpl; [done|]. by rewrite Hx. Qed.

Lemma length_rows_map_cells f df :
  length (rows (map_cells f df)) = length (rows df).
Proof. unfold map_cells. simpl. by rewrite length_imap. Qed.

Lemma imap_id {A} (l : list A) : imap (λ _ v, v) l = l.
Proof.
  apply list_eq. intros i. rewrite list_lookup_imap. by destruct (l !! i).
Qed.

Lemma imap_map {A B} (f : A → B) (l : list A) : imap (λ _, f) l = map f l.
Proof.
  apply list_eq. intros i. by rewrite list_lookup_imap, list_lookup_fmap.
Qed.

Lemma as_float64_floats col : forallb is_float col = true → map as_float64 col = col.
Proof.
  induction col as [|v col IH]; simpl; [done|].
  intros [Hv Hcol]%andb_true_iff. rewrite IH by done. by destruct v.
Qed.

Lemma is_float_as_float64 col :
  forallb (λ v, is_number v || is_missing v) col = true →
  forallb is_float (map as_float64 col) = true.
Proof.
  induction col as [|v col IH]; simpl; [done|].
  intros [Hv Hcol]%andb_true_iff. rewrite IH by done. by destruct v.
Qed.

(** A column of dates is not one of numbers. *)
Lemma dates_not_float64 col :
  forallb is_date col = true → float64_column col = false.
Proof.
  unfold float64_column. destruct col as [|v col]; [done|]. simpl.
  intros [Hv _]%andb_true_iff. by destruct v.
Qed.

(** pandas leaves a uniform column as it is. *)
Lemma infer_dtype_uniform col :
  uniform col = true → imap (infer_dtype col) col = col.
Proof.
  unfold uniform, infer_dtype. intros H.
  destruct (float64_column col) eqn:Hf; [|apply imap_id].
  rewrite imap_map.
  apply orb_true_iff in H as [H|H]; [|by rewrite (dates_not_float64 col H) in Hf].
  apply orb_true_iff in H as [H|H]; [by apply as_float64_floats|].
  unfold float64_column in Hf. by rewrite H, andb_false_r in Hf.
Qed.

Lemma infer_dtype_float64 col :
  float64_column col = true →
  imap (infer_dtype col) col = map as_float64 col
  ∧ uniform (map as_float64 col) = true.
Proof.
  intros Hf. unfold infer_dtype. rewrite Hf, imap_map. split; [done|].
  unfold float64_column in Hf. apply andb_true_iff in Hf as [Hf _].
  apply andb_true_iff in Hf as [Hf _].
  unfold uniform. by rewrite (is_float_as_float64 col Hf).
Qed.

(** Typing does not change a column that is uniform after it. *)
Lemma uniform_infer_dtype col :
  uniform col = true → uniform (imap (infer_dtype col) col) = true.
Proof. intros H. by rewrite infer_dtype_uniform. Qed.

Section Conversion.
Context {library : Arrow}.

Lemma to_arrow_inl df table :
  to_arrow df = inl table →
  table = map_cells (λ col i v, if uniform col then v else arrow_cell col i) df.
Proof.
  unfold to_arrow. destruct (omap _ _) as [|e l]; [|done]. by intros [= <-].
Qed.

(** What a parquet file holds for a column of the frame it was written from. *)
Lemma to_arrow_column df table c col :
  to_arrow df = inl table →
  column df c = Some col →
  ∃ col', column table c = Some col'
          ∧ length col' = length col
          ∧ (uniform col = true → col' = col).
Proof.
  intros ->%to_arrow_inl Hcol. rewrite column_map_cells, Hcol. simpl.
  eexists. split; [done|]. split; [by rewrite length_imap|].
  intros ->. apply imap_id.
Qed.

Lemma to_arrow_rows df table :
  to_arrow df = inl table →
  columns table = columns df ∧ length (rows table) = length (rows df).
Proof.
  intros ->%to_arrow_inl. split; [done | apply length_rows_map_cells].
Qed.

Lemma to_arrow_empty : to_arrow (pd_DataFrame []) = inl (mkDataFrame [] []).
Proof. done. Qed.

(** The table that the cache file holds after the records have been written:
    the labels are the fields, there is one row per record, and every column
    has one cell per record.  A uniform column of the records is there as it
    is; a column that pandas types float64 is there as floats. *)
Lemma stored_records prices table :
  prices ≠ [] →
  to_arrow (pd_DataFrame prices) = inl table →
  columns table = TickerPrice.fields
  ∧ length (rows table) = length prices
  ∧ ∀ name col,
      column (records prices) name = Some col →
      ∃ col', column table name = Some col'
              ∧ length col' = length col
              ∧ (uniform col = true → col' = col)
              ∧ (float64_column col = true → col' = map as_float64 col).
Proof.
  intros Hne Hconv.
  assert (Hpd : pd_DataFrame prices = map_cells infer_dtype (records prices)).
  { by destruct prices. }
  rewrite Hpd in Hconv.
  destruct (to_arrow_rows _ _ Hconv) as [Hcols Hrows].
  split; [done|]. split.
  { rewrite Hrows, length_rows_map_cells. unfold records. simpl.
    by rewrite length_map. }
  intros name col Hcol.
  assert (Hcol' : column (map_cells infer_dtype (records prices)) name
                  = Some (imap (infer_dtype col) col)).
  { by rewrite column_map_cells, Hcol. }
  destruct (to_arrow_column _ _ _ _ Hconv Hcol') as (col' & Hc & Hlen & Hu).
  exists col'. split; [done|]. split; [by rewrite Hlen, length_imap|]. split.
  - intros Hun. rewrite Hu by (by apply uniform_infer_dtype).
    by apply infer_dtype_uniform.
  - intros Hf. destruct (infer_dtype_float64 col Hf) as [Heq Hun].
    rewrite Hu by (by rewrite Heq). done.
Qed.
End Conversion.

(** What pandas makes of a column of the records. *)
Lemma column_pd_DataFrame prices name col :
  prices ≠ [] →
  column (records prices) name = Some col →
  column (pd_DataFrame prices) name
  = Some (if float64_column col then map as_float64 col else col).
Proof.
  intros Hne Hcol. destruct prices as [|x l]; [done|].
  change (pd_DataFrame (x :: l)) with (map_cells infer_dtype (records (x :: l))).
  rewrite column_map_cells, Hcol. simpl. f_equal. unfold infer_dtype.
  destruct (float64_column col); [apply imap_map | apply imap_id].
Qed.

(** The frame of tidy prices is stored as it is, whatever the library does
    with the columns that are not uniform. *)
Lemma to_arrow_tidy {library : Arrow} prices :
  tidy prices = true → to_arrow (pd_DataFrame prices) = inl (pd_DataFrame prices).
Proof.
  intros Ht. destruct prices as [|x l]; [done|].
  set (prices := x :: l) in *.
  assert (Hpd : pd_DataFrame prices = map_cells infer_dtype (records prices)) by done.
  assert (Hu : ∀ j, (j < length (columns (pd_DataFrame prices)))%nat →
               uniform (column_at (pd_DataFrame prices) j) = true).
  { intros j Hj. rewrite Hpd, column_at_map_cells by done.
    unfold tidy in Ht. rewrite forallb_forall in Ht.
    specialize (Ht j ltac:(apply in_seq; simpl in *; lia)). simpl in Ht.
    apply orb_true_iff in Ht as [H|H]; [by apply uniform_infer_dtype|].
    by destruct (infer_dtype_float64 _ H) as [-> ?]. }
  unfold to_arrow. rewrite omap_nil.
  - f_equal. apply map_cells_id.
    + rewrite Hpd. exact (map_cells_rows_length infer_dtype (records prices)).
    + intros j i v Hj. by rewrite (Hu j Hj).
  - apply Forall_fmap, Forall_forall. intros j Hj%elem_of_seq. simpl.
    rewrite Hu; [done | simpl in *; lia].
Qed.

(** The date column of the records. *)
Lemma column_date_records prices :
  column (records prices) "date"
  = Some (map (λ q, PDate (TickerPrice.date q)) prices).
Proof.
  unfold column, records. simpl. f_equal.
  induction prices as [|y l IH]; [done|]. simpl. by rewrite IH.
Qed.

Lemma uniform_dates (l : list TickerPrice.t) :
  uniform (map (λ q, PDate (TickerPrice.date q)) l) = true.
Proof.
  unfold uniform. apply orb_true_iff. right.
  induction l as [|y l IH]; [done|]. done.
Qed.

(** The date column of the table that the cache file holds. *)
Lemma column_date_stored {library : Arrow} prices table :
  prices ≠ [] →
  to_arrow (pd_DataFrame prices) = inl table →
  column table "date" = Some (map (λ q, PDate (TickerPrice.date q)) prices).
Proof.
  intros Hne Hconv.
  destruct (stored_records prices table Hne Hconv) as (_ & _ & Hcol).
  destruct (Hcol "date" _ (column_date_records prices)) as (col' & Hc & _ & Hu & _).
  by rewrite Hc, (Hu (uniform_dates prices)).
Qed.

Lemma reduce_min_dates d (l : list TickerPrice.t) :
  ∃ lo, reduce_min (PDate d) (map (λ q, PDate (TickerPrice.date q)) l) = Some (PDate lo).
Proof.
  revert d. induction l as [|y l IH]; intros d; simpl; [by eexists|].
  destruct (Datetime.ltb _ _); apply IH.
Qed.

Lemma reduce_max_dates d (l : list TickerPrice.t) :
  ∃ hi, reduce_max (PDate d) (map (λ q, PDate (TickerPrice.date q)) l) = Some (PDate hi).
Proof.
  revert d. induction l as [|y l IH]; intros d; simpl; [by eexists|].
  destruct (Datetime.ltb _ _); apply IH.
Qed.

(** A stored table of at least one row has date bounds, and they are dates. *)
Lemma date_bounds_stored {library : Arrow} prices table :
  to_arrow (pd_DataFrame prices) = inl table →
  rows table ≠ [] →
  ∃ lo hi, date_bounds table = Some (PDate lo, PDate hi).
Proof.
  intros Hconv Hrows.
  destruct prices as [|x l].
  { rewrite to_arrow_empty in Hconv. by injection Hconv as <-. }
  destruct (reduce_min_dates (TickerPrice.date x) l) as [lo Hlo].
  destruct (reduce_max_dates (TickerPrice.date x) l) as [hi Hhi].
  exists lo, hi. unfold date_bounds.
  rewrite (column_date_stored (x :: l) table) by done.
  simpl. rewrite Hlo. simpl. by rewrite Hhi.
Qed.

(** The miss path from the state of the disk before the call. *)
Lemma read_refetch {library : Arrow} (self : TickerPriceStorage.t) (ticker : string)
    (w w1 w2 : World) (info : TickerInfo.t) (prices : list TickerPrice.t)
    (table : DataFrame) :
  TiingoClient.get_ticker_info (TickerPriceStorage.tiingo self) ticker w
    = (Return info, w1) →
  (node w (TickerPriceStorage.filepath self ticker) = None
   ∨ ∃ df lo hi,
       node w (TickerPriceStorage.filepath self ticker) = Some (File (Parquet df))
       ∧ date_bounds df = Some (lo, hi)
       ∧ (lo ≠ PDate (TickerInfo.startDate info)
          ∨ hi ≠ PDate (TickerInfo.endDate info))) →
  TiingoClient.get_ticker_prices (TickerPriceStorage.tiingo self) ticker
    (TickerInfo.startDate info) (TickerInfo.endDate info) w1 = (Return prices, w2) →
  to_arrow (pd_DataFrame prices) = inl table →
  node w (parent (TickerPriceStorage.filepath self ticker)) = Some Dir →
  ∃ w3,
    TickerPriceStorage.read self ticker w = (Return table, w3)
    ∧ fs w3 = <[TickerPriceStorage.filepath self ticker := File (Parquet table)]> (fs w)
    ∧ trace w3 = trace w
        ++ info_events (TickerPriceStorage.tiingo self) ticker
        ++ prices_events (TickerPriceStorage.tiingo self) ticker
             (TickerInfo.startDate info) (TickerInfo.endDate info)
        ++ [EvWrite (TickerPriceStorage.filepath self ticker)]
    ∧ read_parquet (TickerPriceStorage.filepath self ticker) w3 = (Return table, w3).
Proof.
  intros Hinfo Hmiss Hprices Hconv Hparent.
  destruct (get_ticker_info_Return _ _ _ _ _ Hinfo) as [Hw1 _].
  destruct (get_ticker_prices_Return _ _ _ _ _ _ _ Hprices) as [Hw2 _].
  assert (Hn1 : ∀ q, node w1 q = node w q) by (intros q; by rewrite Hw1).
  assert (Hn2 : ∀ q, node w2 q = node w q) by (intros q; by rewrite Hw2, Hw1).
  destruct (cached_table_miss (TickerPriceStorage.filepath self ticker) info w1)
    as [Hc Hnd]; [by rewrite Hn1|].
  rewrite Hn1, <- Hn2 in Hnd. rewrite <- Hn2 in Hparent.
  eexists. split; [by apply (read_miss self ticker w info w1 prices w2 table)|].
  split; [by rewrite Hw2, Hw1|].
  split.
  - rewrite Hw2, Hw1. simpl. by rewrite <- !app_assoc.
  - unfold read_parquet. rewrite happened_node.
    by rewrite (node_insert_eq w2 _ _ Hnd).
Qed.

(** * The claims *)

(** C1. When a cache file is at the ticker's location and the minimum and
    the maximum of its date column are the startDate and the endDate of the
    provider's metadata, [read] returns the table of that file at once: the
    world it leaves is the world of the metadata call, so the disk is as it
    was and the events of the whole call are the log line and the GET of the
    metadata call, with no price request and no write. *)
Theorem read_cache_hit {library : Arrow} (self : TickerPriceStorage.t) (ticker : string)
    (w w1 : World) (info : TickerInfo.t) (df : DataFrame) (col : list pyval) :
  TiingoClient.get_ticker_info (TickerPriceStorage.tiingo self) ticker w
    = (Return info, w1) →
  node w (TickerPriceStorage.filepath self ticker) = Some (File (Parquet df)) →
  column df "date" = Some col →
  col_min col = Some (PDate (TickerInfo.startDate info)) →
  col_max col = Some (PDate (TickerInfo.endDate info)) →
  TickerPriceStorage.read self ticker w = (Return df, w1)
  ∧ fs w1 = fs w
  ∧ trace w1 = trace w ++ [info_log ticker;
                            EvGet (info_request (TickerPriceStorage.tiingo self) ticker)].
Proof.
  intros Hinfo Hnode Hcol Hlo Hhi.
  pose proof (io_only_get_ticker_info _ _ _ _ _ Hinfo) as Hframe.
  destruct (get_ticker_info_Return _ _ _ _ _ Hinfo) as [Hw1 _].
  split; [|split].
  - apply (read_hit self ticker w info w1 df Hinfo).
    rewrite (cached_table_bounds _ info w1 df
               (PDate (TickerInfo.startDate info)) (PDate (TickerInfo.endDate info))).
    + simpl. by rewrite !bool_decide_eq_true_2.
    + by rewrite (frame_node w w1).
    + unfold date_bounds. rewrite Hcol. simpl. rewrite Hlo. simpl. by rewrite Hhi.
  - by destruct Hframe.
  - by rewrite Hw1.
Qed.

Lemma read_cache_hit_witness :
  TickerPriceStorage.read storage "SPY"
    (stored_world
       (provider "SPY" (ok "(metadata)" (info_body "SPY" "2020-01-02" "2020-01-03"))
          not_found)
       [("SPY.parquet", Parquet (pd_DataFrame [price_on (jan 2); price_on (jan 3)]))])
  = (Return (pd_DataFrame [price_on (jan 2); price_on (jan 3)]),
     happened (info_events client "SPY")
       (stored_world
          (provider "SPY" (ok "(metadata)" (info_body "SPY" "2020-01-02" "2020-01-03"))
             not_found)
          [("SPY.parquet", Parquet (pd_DataFrame [price_on (jan 2); price_on (jan 3)]))])).
Proof.
  refine (proj1 (read_cache_hit storage "SPY" _ _
                   (TickerInfo.mk (PStr "SPY") (PStr "Invesco QQQ Trust")
                      (PStr "NASDAQ") (PStr "An index fund") (jan 2) (jan 3))
                   _ [PDate (jan 2); PDate (jan 3)] _ _ _ _ _));
    reflexivity.
Defined.

(** C2. When the metadata call has returned and there is no cache file, or
    there is one whose date bounds are not the metadata's startDate and
    endDate, [read] calls [get_ticker_prices] with the ticker and those two
    dates.  When that call returns, the frame of the whole returned list can
    be converted and the storage directory is there, [read] puts the table at
    the cache path, whatever was there before, and returns what loading that
    path gives afterwards: the table that the file holds, not the frame it was
    written from.  The events of the call are those of the metadata call,
    those of the price call and one write.  The table has one row per record
    of the list and, when there is a record, one column per field with one
    cell per record; a column of the records that holds floats only, 64-bit
    integers only or dates only is in it cell by cell as it is. *)
Theorem read_cache_miss {library : Arrow} (self : TickerPriceStorage.t)
    (ticker : string) (w w1 w2 : World) (info : TickerInfo.t)
    (prices : list TickerPrice.t) (table : DataFrame) :
  TiingoClient.get_ticker_info (TickerPriceStorage.tiingo self) ticker w
    = (Return info, w1) →
  (node w (TickerPriceStorage.filepath self ticker) = None
   ∨ ∃ df lo hi,
       node w (TickerPriceStorage.filepath self ticker) = Some (File (Parquet df))
       ∧ date_bounds df = Some (lo, hi)
       ∧ (lo ≠ PDate (TickerInfo.startDate info)
          ∨ hi ≠ PDate (TickerInfo.endDate info))) →
  TiingoClient.get_ticker_prices (TickerPriceStorage.tiingo self) ticker
    (TickerInfo.startDate info) (TickerInfo.endDate info) w1 = (Return prices, w2) →
  to_arrow (pd_DataFrame prices) = inl table →
  node w (parent (TickerPriceStorage.filepath self ticker)) = Some Dir →
  ∃ w3,
    TickerPriceStorage.read self ticker w = (Return table, w3)
    ∧ fs w3 = <[TickerPriceStorage.filepath self ticker := File (Parquet table)]> (fs w)
    ∧ trace w3 = trace w
        ++ info_events (TickerPriceStorage.tiingo self) ticker
        ++ prices_events (TickerPriceStorage.tiingo self) ticker
             (TickerInfo.startDate info) (TickerInfo.endDate info)
        ++ [EvWrite (TickerPriceStorage.filepath self ticker)]
    ∧ read_parquet (TickerPriceStorage.filepath self ticker) w3 = (Return table, w3)
    ∧ length (rows table) = length prices
    ∧ (prices ≠ [] →
       columns table = TickerPrice.fields
       ∧ ∀ name col,
           column (records prices) name = Some col →
           ∃ col', column table name = Some col'
                   ∧ length col' = length col
                   ∧ (uniform col = true → col' = col)).
Proof.
  intros Hinfo Hmiss Hprices Hconv Hparent.
  destruct (read_refetch self ticker w w1 w2 info prices table
              Hinfo Hmiss Hprices Hconv Hparent) as (w3 & Hread & Hfs & Htrace & Hload).
  exists w3. do 4 (split; [done|]). split.
  - destruct prices as [|x l].
    + rewrite to_arrow_empty in Hconv. by injection Hconv as <-.
    + by destruct (stored_records (x :: l) table) as (_ & Hrows & _).
  - intros Hne. destruct (stored_records prices table Hne Hconv) as (Hcols & _ & Hcol).
    split; [done|]. intros name col Hname.
    destruct (Hcol name col Hname) as (col' & Hc & Hlen & Hu & _).
    by exists col'.
Qed.

Lemma read_cache_miss_witness :
  ∃ w3,
    TickerPriceStorage.read storage "QQQ" (stored_world qqq_provider [])
    = (Return qqq_table, w3)
    ∧ fs w3 = <[ [".prices"; "QQQ.parquet"] := File (Parquet qqq_table) ]>
               (fs (stored_world qqq_provider []))
    ∧ trace w3 = [] ++ info_events client "QQQ"
                 ++ prices_events client "QQQ" (jan 1) (jan 3)
                 ++ [EvWrite [".prices"; "QQQ.parquet"]]
    ∧ read_parquet [".prices"; "QQQ.parquet"] w3 = (Return qqq_table, w3)
    ∧ length (rows qqq_table) = 2%nat
    ∧ column qqq_table "date" = Some [PDate (jan 2); PDate (jan 3)]
    ∧ column qqq_table "volume" = Some [PInt 1000; PInt 1000].
Proof.
  destruct (read_cache_miss storage "QQQ" (stored_world qqq_provider [])
              (happened (info_events client "QQQ") (stored_world qqq_provider []))
              (happened (prices_events client "QQQ" (jan 1) (jan 3))
                 (happened (info_events client "QQQ") (stored_world qqq_provider [])))
              (TickerInfo.mk (PStr "QQQ") (PStr "Invesco QQQ Trust")
                 (PStr "NASDAQ") (PStr "An index fund") (jan 1) (jan 3))
              [price_on (jan 2); price_on (jan 3)] qqq_table
              eq_refl (or_introl eq_refl) ltac:(vm_compute; reflexivity)
              ltac:(vm_compute; reflexivity) eq_refl)
    as (w3 & Hread & Hfs & Htrace & Hload & Hrows & Hcols).
  exists w3. do 5 (split; [done|]).
  destruct (Hcols ltac:(discriminate)) as [_ Hcol].
  destruct (Hcol "date" [PDate (jan 2); PDate (jan 3)] eq_refl)
    as (dates & Hdates & _ & Hd).
  destruct (Hcol "volume" [PInt 1000; PInt 1000] eq_refl)
    as (volumes & Hvolumes & _ & Hv).
  split; [by rewrite Hdates, (Hd eq_refl) | by rewrite Hvolumes, (Hv eq_refl)].
Defined.

(** C3 as stated fails.  In the scenario of C8 the provider says that the
    history starts on 2020-01-01 and the first price row is dated 2020-01-02.
    The provider answers the second [read] as it answered the first, and the
    second [read] is not a cache hit: it requests the prices again and writes
    the file again. *)
Lemma read_twice_refetches :
  TickerPriceStorage.read storage "QQQ" (stored_world qqq_provider [])
    = (Return qqq_table, qqq_once)
  ∧ net qqq_once = net (stored_world qqq_provider [])
  ∧ ∃ w2,
      TickerPriceStorage.read storage "QQQ" qqq_once = (Return qqq_table, w2)
      ∧ trace w2 = trace qqq_once
          ++ [info_log "QQQ"; EvGet (info_request client "QQQ");
              prices_log "QQQ" (jan 1) (jan 3);
              EvGet (prices_request client "QQQ" (jan 1) (jan 3));
              EvWrite [".prices"; "QQQ.parquet"]]
      ∧ trace w2 ≠ trace qqq_once ++ info_events client "QQQ".
Proof.
  split; [vm_compute; reflexivity|].
  split; [reflexivity|].
  eexists. split; [vm_compute; reflexivity|].
  split; [vm_compute; reflexivity|].
  vm_compute. discriminate.
Qed.

(** C3, as the code has it.  Let a first [read] return a table with at least
    one row, and let a second [read] for the same ticker start from the disk
    the first one left, with the provider answering as before.  Then the
    second call returns the same table and leaves the disk, hence the cache
    file, as it found it.  It is a cache hit, with the events of the metadata
    call and nothing else, exactly when the least and the greatest date of the
    table are the metadata's startDate and endDate; otherwise the second call
    fetches the prices again and writes the same table again. *)
Theorem read_twice {library : Arrow} (self : TickerPriceStorage.t) (ticker : string)
    (w w1 v : World) (df1 : DataFrame) :
  TickerPriceStorage.read self ticker w = (Return df1, w1) →
  rows df1 ≠ [] →
  fs v = fs w1 →
  net v = net w →
  ∃ info v2,
    TiingoClient.get_ticker_info (TickerPriceStorage.tiingo self) ticker v
      = (Return info, happened (info_events (TickerPriceStorage.tiingo self) ticker) v)
    ∧ node w1 (TickerPriceStorage.filepath self ticker) = Some (File (Parquet df1))
    ∧ TickerPriceStorage.read self ticker v = (Return df1, v2)
    ∧ fs v2 = fs v
    ∧ (date_bounds df1 = Some (PDate (TickerInfo.startDate info),
                               PDate (TickerInfo.endDate info)) →
       v2 = happened (info_events (TickerPriceStorage.tiingo self) ticker) v)
    ∧ (date_bounds df1 ≠ Some (PDate (TickerInfo.startDate info),
                               PDate (TickerInfo.endDate info)) →
       trace v2 = trace v
         ++ info_events (TickerPriceStorage.tiingo self) ticker
         ++ prices_events (TickerPriceStorage.tiingo self) ticker
              (TickerInfo.startDate info) (TickerInfo.endDate info)
         ++ [EvWrite (TickerPriceStorage.filepath self ticker)]).
Proof.
  intros Hread Hrows Hfs Hnet.
  destruct (read_Return_inv self ticker w df1 w1 Hread) as (info & Hinfo & Hpath).
  destruct (get_ticker_info_Return _ _ _ _ _ Hinfo) as (_ & r & Hr & Hs & Hpure).
  set (va := happened (info_events (TickerPriceStorage.tiingo self) ticker) v).
  assert (Hinfo_v : TiingoClient.get_ticker_info (TickerPriceStorage.tiingo self)
                      ticker v = (Return info, va)).
  { rewrite get_ticker_info_eq, Hnet, Hr, Hs. simpl. apply Hpure. }
  assert (Hva : ∀ q, node va q = node w1 q).
  { intros q. unfold va. rewrite happened_node. by apply node_fs_eq. }
  exists info.
  destruct Hpath as [[Hc ->] | (prices & w2 & Hc & Hp & Hconv & Hnd & Hpar & ->)].
  - (* the first call was a hit *)
    apply cached_table_Some in Hc as [Hnode Hb]. rewrite happened_node in Hnode.
    exists va. split; [done|]. split; [done|].
    split.
    { apply (read_hit self ticker v info va df1 Hinfo_v).
      rewrite (cached_table_bounds (TickerPriceStorage.filepath self ticker)
                 info va df1 (PDate (TickerInfo.startDate info))
                 (PDate (TickerInfo.endDate info)));
        [|by rewrite Hva | exact Hb].
      simpl. by rewrite !bool_decide_eq_true_2. }
    split; [done|]. split; [done|]. by intros [].
  - (* the first call was a miss *)
    set (w1 := happened [EvWrite (TickerPriceStorage.filepath self ticker)]
                 (set_fs (insert (TickerPriceStorage.filepath self ticker)
                            (File (Parquet df1))) w2)) in *.
    assert (Hnode : node w1 (TickerPriceStorage.filepath self ticker)
                    = Some (File (Parquet df1))).
    { unfold w1. rewrite happened_node. by apply node_insert_eq. }
    assert (Hparent : node w1 (parent (TickerPriceStorage.filepath self ticker))
                      = Some Dir).
    { unfold w1. rewrite happened_node, node_insert_ne; [done|].
      apply parent_ne. by eapply node_not_dir_nonempty. }
    destruct (date_bounds_stored prices df1 Hconv Hrows) as (lo & hi & Hb).
    pose proof (cached_table_bounds (TickerPriceStorage.filepath self ticker)
                  info va df1 _ _
                  (eq_trans (Hva (TickerPriceStorage.filepath self ticker)) Hnode) Hb)
      as Hcv.
    destruct (py_eq_date (PDate lo) (TickerInfo.startDate info)
              && py_eq_date (PDate hi) (TickerInfo.endDate info)) eqn:Hfresh.
    + (* the table spans the metadata's range: a hit *)
      apply andb_true_iff in Hfresh as [Hlo Hhi].
      apply py_eq_date_true in Hlo, Hhi.
      exists va. split; [done|]. split; [done|].
      split; [by apply (read_hit self ticker v info va df1 Hinfo_v)|].
      split; [done|]. split; [done|].
      intros Hne. destruct Hne. by rewrite Hb, Hlo, Hhi.
    + (* it does not: the second call fetches and writes again *)
      destruct (get_ticker_prices_Return _ _ _ _ _ _ _ Hp) as (_ & r' & Hr' & Hpure').
      set (vb := happened (prices_events (TickerPriceStorage.tiingo self) ticker (TickerInfo.startDate info)
                             (TickerInfo.endDate info)) va).
      assert (Hp_v : TiingoClient.get_ticker_prices (TickerPriceStorage.tiingo self) ticker
                       (TickerInfo.startDate info) (TickerInfo.endDate info) va
                     = (Return prices, vb)).
      { rewrite get_ticker_prices_eq.
        change (net va) with (net v). rewrite Hnet.
        change (net (happened (info_events (TickerPriceStorage.tiingo self) ticker) w)) with (net w) in Hr'.
        rewrite Hr'. apply Hpure'. }
      assert (Hvb : ∀ q, node vb q = node w1 q) by (intros q; apply Hva).
      eexists. split; [done|]. split; [done|].
      split.
      { apply (read_miss self ticker v info va prices vb df1 Hinfo_v Hcv Hp_v Hconv).
        - rewrite Hvb, Hnode. done.
        - by rewrite Hvb. }
      split.
      { simpl. apply insert_id. rewrite Hfs.
        rewrite <- (node_lookup w1 (TickerPriceStorage.filepath self ticker)); [done | by rewrite Hnode]. }
      split.
      { intros Hbounds. rewrite Hb in Hbounds. injection Hbounds as -> ->.
        simpl in Hfresh. by rewrite !bool_decide_eq_true_2 in Hfresh. }
      intros _. simpl. by rewrite <- !app_assoc.
Qed.

Lemma read_twice_witness :
  ∃ info v2,
    TiingoClient.get_ticker_info client "QQQ" qqq_once
      = (Return info, happened (info_events client "QQQ") qqq_once)
    ∧ node qqq_once [".prices"; "QQQ.parquet"] = Some (File (Parquet qqq_table))
    ∧ TickerPriceStorage.read storage "QQQ" qqq_once = (Return qqq_table, v2)
    ∧ fs v2 = fs qqq_once
    ∧ (date_bounds qqq_table = Some (PDate (TickerInfo.startDate info),
                                     PDate (TickerInfo.endDate info)) →
       v2 = happened (info_events client "QQQ") qqq_once)
    ∧ (date_bounds qqq_table ≠ Some (PDate (TickerInfo.startDate info),
                                     PDate (TickerInfo.endDate info)) →
       trace v2 = trace qqq_once
         ++ info_events client "QQQ"
         ++ prices_events client "QQQ"
              (TickerInfo.startDate info) (TickerInfo.endDate info)
         ++ [EvWrite [".prices"; "QQQ.parquet"]]).
Proof.
  apply (read_twice storage "QQQ" (stored_world qqq_provider []) qqq_once qqq_once
           qqq_table).
  - vm_compute. reflexivity.
  - discriminate.
  - reflexivity.
  - reflexivity.
Defined.

(** C4. When the metadata endpoint answers with a status other than 200 (404
    in particular), [get_ticker_info] logs the failure, status code and body
    included, and then raises [ErrorTickerNotFound], nothing else.  When the
    status is 200 it returns the [TickerInfo] made of the six fields of the
    JSON body, startDate and endDate converted from their ISO-8601 calendar
    form.  Status 200 is the one status the code takes for success. *)
Theorem get_ticker_info_by_status (c : TiingoClient.t) (ticker : string)
    (w : World) (r : Response) :
  net w (info_request c ticker) = Answer r →
  (status_code r ≠ 200 →
     TiingoClient.get_ticker_info c ticker w =
     (Raise ErrorTickerNotFound,
      happened [info_log ticker; EvGet (info_request c ticker);
                EvLog "ERROR" ("Failed to get ticker info for " +:+ ticker +:+ ": "
                               +:+ pretty (status_code r) +:+ " " +:+ text r)] w))
  ∧ (status_code r = 200 →
     ∀ items tk nm ex de s1 s2 d1 d2,
       json_body r = Some (PDict items) →
       assoc "ticker" items = Some tk →
       assoc "name" items = Some nm →
       assoc "exchangeCode" items = Some ex →
       assoc "description" items = Some de →
       assoc "startDate" items = Some (PStr s1) →
       assoc "endDate" items = Some (PStr s2) →
       Datetime.date_fromisoformat s1 = Some d1 →
       Datetime.date_fromisoformat s2 = Some d2 →
       TiingoClient.get_ticker_info c ticker w =
       (Return (TickerInfo.mk tk nm ex de d1 d2),
        happened [info_log ticker; EvGet (info_request c ticker)] w)).
Proof.
  intros Hnet. rewrite get_ticker_info_eq, Hnet. split.
  - intros Hs. apply Z.eqb_neq in Hs. by rewrite Hs.
  - intros Hs items tk nm ex de s1 s2 d1 d2 Hbody Htk Hnm Hex Hde Hs1 Hs2 Hd1 Hd2.
    rewrite Hs. simpl.
    unfold TiingoClient.ticker_info_of, response_json, py_getitem,
      py_date_fromisoformat, mbind, Py_bind.
    rewrite Hbody. simpl.
    rewrite Htk, Hnm, Hex, Hde, Hs1, Hs2. simpl.
    by rewrite Hd1, Hd2.
Qed.

Lemma get_ticker_info_by_status_witness :
  TiingoClient.get_ticker_info client "ZZZ" (fresh_world qqq_provider) =
    (Raise ErrorTickerNotFound,
     happened [info_log "ZZZ"; EvGet (info_request client "ZZZ");
               EvLog "ERROR" "Failed to get ticker info for ZZZ: 404 Not found."]
       (fresh_world qqq_provider))
  ∧ TiingoClient.get_ticker_info client "QQQ" (fresh_world qqq_provider) =
    (Return (TickerInfo.mk (PStr "QQQ") (PStr "Invesco QQQ Trust") (PStr "NASDAQ")
               (PStr "An index fund") (jan 1) (jan 3)),
     happened [info_log "QQQ"; EvGet (info_request client "QQQ")]
       (fresh_world qqq_provider)).
Proof.
  split.
  - refine (proj1 (get_ticker_info_by_status client "ZZZ" (fresh_world qqq_provider)
                     (mkResponse 404 "Not found."
                        (Some (PDict [("detail", PStr "Not found.")]))) _) _);
      [reflexivity | discriminate].
  - refine (proj2 (get_ticker_info_by_status client "QQQ" (fresh_world qqq_provider)
                     (mkResponse 200 "(metadata)"
                        (Some (info_body "QQQ" "2020-01-01" "2020-01-03"))) _) _
              _ _ _ _ _ "2020-01-01" "2020-01-03" _ _ _ _ _ _ _ _ _ _ _);
      reflexivity.
Defined.

(** C5. [get_ticker_prices] never looks at the status code.  Two answers
    with the same body give the same outcome whatever their status codes; a
    body that is a JSON array is mapped, element by element and in order, by
    [TickerPrice.from_json]; an empty array gives the empty list; a body that
    is not JSON raises the decoder's error; and no outcome is the raise of
    [ErrorTickerNotFound]. *)
Theorem get_ticker_prices_ignores_status (c : TiingoClient.t) (ticker : string)
    (d1 d2 : Datetime.date) :
  (∀ w1 w2 r1 r2,
     net w1 (prices_request c ticker d1 d2) = Answer r1 →
     net w2 (prices_request c ticker d1 d2) = Answer r2 →
     json_body r1 = json_body r2 →
     last_obj w1 = last_obj w2 →
     fst (TiingoClient.get_ticker_prices c ticker d1 d2 w1)
     = fst (TiingoClient.get_ticker_prices c ticker d1 d2 w2))
  ∧ (∀ w r l,
     net w (prices_request c ticker d1 d2) = Answer r →
     json_body r = Some (PList l) →
     TiingoClient.get_ticker_prices c ticker d1 d2 w
     = mapM TickerPrice.from_json l (happened (prices_events c ticker d1 d2) w))
  ∧ (∀ w r,
     net w (prices_request c ticker d1 d2) = Answer r →
     json_body r = Some (PList []) →
     TiingoClient.get_ticker_prices c ticker d1 d2 w
     = (Return [], happened (prices_events c ticker d1 d2) w))
  ∧ (∀ w r,
     net w (prices_request c ticker d1 d2) = Answer r →
     json_body r = None →
     fst (TiingoClient.get_ticker_prices c ticker d1 d2 w)
     = Raise (mkException (S (last_obj w)) "JSONDecodeError" ["Expecting value"]))
  ∧ (∀ w, fst (TiingoClient.get_ticker_prices c ticker d1 d2 w)
          ≠ Raise ErrorTickerNotFound).
Proof.
  repeat split.
  - intros w1 w2 r1 r2 H1 H2 Hbody Hobj.
    rewrite !get_ticker_prices_eq, H1, H2.
    replace (TiingoClient.prices_of r2) with (TiingoClient.prices_of r1).
    + apply pure_outcome; [apply pure_prices_of | done].
    + unfold TiingoClient.prices_of, response_json. by rewrite Hbody.
  - intros w r l Hnet Hbody. rewrite get_ticker_prices_eq, Hnet.
    unfold TiingoClient.prices_of, response_json. rewrite Hbody.
    rewrite (bind_Return _ _ _ (PList l) (happened (prices_events c ticker d1 d2) w));
      [|done].
    by rewrite (bind_Return _ _ _ l (happened (prices_events c ticker d1 d2) w)).
  - intros w r Hnet Hbody. rewrite get_ticker_prices_eq, Hnet.
    unfold TiingoClient.prices_of, response_json. by rewrite Hbody.
  - intros w r Hnet Hbody. rewrite get_ticker_prices_eq, Hnet.
    unfold TiingoClient.prices_of, response_json. by rewrite Hbody.
  - intros w Heq.
    destruct (TiingoClient.get_ticker_prices c ticker d1 d2 w) as [o w'] eqn:Hrun.
    simpl in Heq. subst o.
    destruct (lib_io_get_ticker_prices c ticker d1 d2 _ _ _ Hrun) as [_ Hfresh].
    specialize (Hfresh _ eq_refl). simpl in Hfresh. lia.
Qed.

Lemma get_ticker_prices_ignores_status_witness :
  fst (TiingoClient.get_ticker_prices client "ZZZ" (jan 1) (jan 3)
         (fresh_world qqq_provider))
  = fst (TiingoClient.get_ticker_prices client "ZZZ" (jan 1) (jan 3)
           (fresh_world (provider "ZZZ" not_found
                           (ok "Not found." (PDict [("detail", PStr "Not found.")])))))
  ∧ TiingoClient.get_ticker_prices client "ZZZ" (jan 1) (jan 3)
      (fresh_world (provider "ZZZ" not_found
                      (Answer (mkResponse 500 "[]" (Some (PList []))))))
    = (Return [],
       happened (prices_events client "ZZZ" (jan 1) (jan 3))
         (fresh_world (provider "ZZZ" not_found
                         (Answer (mkResponse 500 "[]" (Some (PList []))))))).
Proof.
  pose proof (get_ticker_prices_ignores_status client "ZZZ" (jan 1) (jan 3))
    as (Hsame & _ & Hempty & _).
  split.
  - apply (Hsame _ _
             (mkResponse 404 "Not found." (Some (PDict [("detail", PStr "Not found.")])))
             (mkResponse 200 "Not found." (Some (PDict [("detail", PStr "Not found.")]))));
      reflexivity.
  - apply (Hempty _ (mkResponse 500 "[]" (Some (PList [])))); reflexivity.
Defined.

(** C6. [TickerPrice.from_json] maps a JSON object to a record by renaming.
    It returns a record exactly when the object has the thirteen keys and its
    date is an ISO text; the record then has the calendar date of that text as
    its date, the values of open, high, low, close and volume unchanged under
    the same names, and the values of adjOpen, adjHigh, adjLow, adjClose,
    adjVolume, divCash and splitFactor under the names adjusted_open,
    adjusted_high, adjusted_low, adjusted_close, adjusted_volume,
    dividend_cash and split_factor; the world is left as it was.  On the
    literal object of the specification the record is the one the
    specification gives. *)
Theorem from_json_field_mapping (w : World) :
  (∀ items p w',
     TickerPrice.from_json (PDict items) w = (Return p, w')
     ↔ w' = w
       ∧ (∃ s dt, assoc "date" items = Some (PStr s)
                  ∧ Datetime.datetime_fromisoformat s = Some dt
                  ∧ TickerPrice.date p = Datetime.dt_date dt)
       ∧ assoc "open" items = Some (TickerPrice.open p)
       ∧ assoc "high" items = Some (TickerPrice.high p)
       ∧ assoc "low" items = Some (TickerPrice.low p)
       ∧ assoc "close" items = Some (TickerPrice.close p)
       ∧ assoc "volume" items = Some (TickerPrice.volume p)
       ∧ assoc "adjOpen" items = Some (TickerPrice.adjusted_open p)
       ∧ assoc "adjHigh" items = Some (TickerPrice.adjusted_high p)
       ∧ assoc "adjLow" items = Some (TickerPrice.adjusted_low p)
       ∧ assoc "adjClose" items = Some (TickerPrice.adjusted_close p)
       ∧ assoc "adjVolume" items = Some (TickerPrice.adjusted_volume p)
       ∧ assoc "divCash" items = Some (TickerPrice.dividend_cash p)
       ∧ assoc "splitFactor" items = Some (TickerPrice.split_factor p))
  ∧ TickerPrice.from_json
      (PDict [("date", PStr "2024-01-02"); ("open", PFloat 100.0);
              ("high", PFloat 101.5); ("low", PFloat 99.0);
              ("close", PFloat 100.5); ("volume", PInt 1000);
              ("adjOpen", PFloat 100.0); ("adjHigh", PFloat 101.5);
              ("adjLow", PFloat 99.0); ("adjClose", PFloat 100.5);
              ("adjVolume", PInt 1000); ("divCash", PFloat 0.0);
              ("splitFactor", PFloat 1.0)]) w
    = (Return {| TickerPrice.date := Datetime.mkdate 2024 1 2;
                 TickerPrice.open := PFloat 100.0;
                 TickerPrice.high := PFloat 101.5;
                 TickerPrice.low := PFloat 99.0;
                 TickerPrice.close := PFloat 100.5;
                 TickerPrice.volume := PInt 1000;
                 TickerPrice.adjusted_open := PFloat 100.0;
                 TickerPrice.adjusted_high := PFloat 101.5;
                 TickerPrice.adjusted_low := PFloat 99.0;
                 TickerPrice.adjusted_close := PFloat 100.5;
                 TickerPrice.adjusted_volume := PInt 1000;
                 TickerPrice.dividend_cash := PFloat 0.0;
                 TickerPrice.split_factor := PFloat 1.0 |}, w).
Proof.
  split.
  - intros items p w'. split.
    + intros H. destruct (from_json_inv _ _ _ _ H) as (-> & Hdate & Hfields).
      split; [done|]. split; [done|]. exact Hfields.
    + intros (-> & (s & dt & Hs & Hdt & Hd) & Ho & Hh & Hl & Hc & Hv
              & Hao & Hah & Hal & Hac & Hav & Hdc & Hsf).
      rewrite (from_json_dict items s dt _ _ _ _ _ _ _ _ _ _ _ _ w
                 Hs Hdt Ho Hh Hl Hc Hv Hao Hah Hal Hac Hav Hdc Hsf).
      destruct p. simpl in *. by subst.
  - apply (from_json_dict _ "2024-01-02"
             (Datetime.mkdatetime (Datetime.mkdate 2024 1 2) 0 0 0 0 None));
      reflexivity.
Qed.

(** C7. A failure of the metadata call, or of the price call that [read]
    makes on a miss, is the failure of [read]: it raises the same exception
    from the same world, the disk is as it was before the call and no write is
    among the events.  More generally no run of [read] that raises has changed
    the disk or written: the one write of [read] comes after the price list
    has been obtained. *)
Theorem read_failure_leaves_cache {library : Arrow} (self : TickerPriceStorage.t)
    (ticker : string) (w : World) :
  (∀ e w1,
     TiingoClient.get_ticker_info (TickerPriceStorage.tiingo self) ticker w
       = (Raise e, w1) →
     TickerPriceStorage.read self ticker w = (Raise e, w1))
  ∧ (∀ info w1 e w2,
     TiingoClient.get_ticker_info (TickerPriceStorage.tiingo self) ticker w
       = (Return info, w1) →
     TickerPriceStorage.cached_table (TickerPriceStorage.filepath self ticker) info w1
       = (Return None, w1) →
     TiingoClient.get_ticker_prices (TickerPriceStorage.tiingo self) ticker
       (TickerInfo.startDate info) (TickerInfo.endDate info) w1 = (Raise e, w2) →
     TickerPriceStorage.read self ticker w = (Raise e, w2))
  ∧ (∀ e w',
     TickerPriceStorage.read self ticker w = (Raise e, w') →
     fs w' = fs w
     ∧ ∃ evs, trace w' = trace w ++ evs ∧ Forall (λ ev, is_write ev = false) evs).
Proof.
  split; [|split].
  - intros e w1. apply read_info_raises.
  - intros info w1 e w2. apply read_fetch_raises.
  - intros e w' H. by destruct (read_Raise_frame _ _ _ _ _ H).
Qed.

Lemma read_failure_leaves_cache_witness :
  TickerPriceStorage.read storage "ZZZ" stale_world
    = (Raise ErrorTickerNotFound,
       happened (info_events client "ZZZ"
                 ++ [EvLog "ERROR" "Failed to get ticker info for ZZZ: 404 Not found."])
         stale_world)
  ∧ TickerPriceStorage.read storage "QQQ" stale_world
    = (Raise (mkException 1 "ConnectionError" ["Connection aborted."]),
       set_last_obj 1
         (happened (info_events client "QQQ"
                    ++ prices_events client "QQQ" (jan 1) (jan 3)) stale_world))
  ∧ fs (set_last_obj 1
          (happened (info_events client "QQQ"
                     ++ prices_events client "QQQ" (jan 1) (jan 3)) stale_world))
    = fs stale_world.
Proof.
  split; [|split].
  - apply (proj1 (read_failure_leaves_cache storage "ZZZ" stale_world)).
    reflexivity.
  - apply (proj1 (proj2 (read_failure_leaves_cache storage "QQQ" stale_world))
             (TickerInfo.mk (PStr "QQQ") (PStr "Invesco QQQ Trust")
                (PStr "NASDAQ") (PStr "An index fund") (jan 1) (jan 3))
             (happened (info_events client "QQQ") stale_world));
      reflexivity.
  - apply (proj2 (proj2 (read_failure_leaves_cache storage "QQQ" stale_world))
             (mkException 1 "ConnectionError" ["Connection aborted."])).
    reflexivity.
Defined.

(** C8. The QQQ scenario.  The disk is empty; the provider reports history
    from 2020-01-01 to 2020-01-03 and returns two price rows, for 2020-01-02
    and 2020-01-03.  Making the storage object and calling [read] for "QQQ"
    leaves a disk that holds the directory [.prices] and one file in it, has
    written exactly once, and returns the table of exactly those two rows,
    the earlier date first.  (The directory is made when the storage object
    is constructed; [read] finds it there.) *)
Theorem read_qqq_scenario {library : Arrow} :
  ∃ s w1 df w2,
    fs (fresh_world qqq_provider) = ∅
    ∧ TickerPriceStorage.__init__ client ".prices" (fresh_world qqq_provider)
      = (Return s, w1)
    ∧ TickerPriceStorage.read s "QQQ" w1 = (Return df, w2)
    ∧ fs w2 = {[ [".prices"] := Dir;
                 [".prices"; "QQQ.parquet"] := File (Parquet df) ]}
    ∧ List.filter is_write (trace w2) = [EvWrite [".prices"; "QQQ.parquet"]]
    ∧ df = pd_DataFrame [price_on (jan 2); price_on (jan 3)]
    ∧ length (rows df) = 2%nat
    ∧ column df "date" = Some [PDate (jan 2); PDate (jan 3)]
    ∧ Datetime.ltb (jan 2) (jan 3) = true.
Proof.
  eexists _, _, _, _.
  split; [reflexivity|].
  split; [reflexivity|].
  split; [vm_compute; reflexivity|].
  repeat split; vm_compute; reflexivity.
Qed.

(** [read] itself makes no directory: on a disk without the storage directory
    the write fails.  The directory of C8 is the constructor's. *)
Example read_needs_directory :
  TickerPriceStorage.read storage "QQQ" (fresh_world qqq_provider)
  = (Raise (mkException 1 "OSError"
              ["Cannot save file into a non-existent directory: '.prices'"]),
     set_last_obj 1
       (happened (info_events client "QQQ"
                  ++ prices_events client "QQQ" (jan 1) (jan 3))
          (fresh_world qqq_provider))).
Proof. vm_compute. reflexivity. Qed.

(** C9. [ErrorTickerNotFound] is one exception object, made when the module
    is imported: for any two clients, tickers, worlds and answers whose status
    is not 200, the two calls of [get_ticker_info] raise the same object, the
    module's [ErrorTickerNotFound] with the single argument "Ticker not found",
    and neither call allocates anything.  An exception made at its raise is
    never that object. *)
Theorem ticker_not_found_is_one_object (c1 c2 : TiingoClient.t)
    (t1 t2 : string) (w1 w2 : World) (r1 r2 : Response) :
  net w1 (info_request c1 t1) = Answer r1 → status_code r1 ≠ 200 →
  net w2 (info_request c2 t2) = Answer r2 → status_code r2 ≠ 200 →
  ∃ e1 e2 w1' w2',
    TiingoClient.get_ticker_info c1 t1 w1 = (Raise e1, w1')
    ∧ TiingoClient.get_ticker_info c2 t2 w2 = (Raise e2, w2')
    ∧ e1 = e2
    ∧ exc_id e1 = exc_id ErrorTickerNotFound
    ∧ exc_id e2 = exc_id ErrorTickerNotFound
    ∧ exc_class e1 = "Exception"
    ∧ exc_args e1 = ["Ticker not found"]
    ∧ last_obj w1' = last_obj w1
    ∧ last_obj w2' = last_obj w2
    ∧ (∀ A cls args w e w',
         @raise_new A cls args w = (Raise e, w') →
         exc_id e ≠ exc_id ErrorTickerNotFound).
Proof.
  intros Hn1 Hs1 Hn2 Hs2.
  apply Z.eqb_neq in Hs1, Hs2.
  exists ErrorTickerNotFound, ErrorTickerNotFound.
  eexists _, _.
  rewrite !get_ticker_info_eq, Hn1, Hn2, Hs1, Hs2. simpl.
  repeat split; try reflexivity.
  intros A cls args w e w' [= <- _]. done.
Qed.

Lemma ticker_not_found_is_one_object_witness :
  ∃ e1 e2 w1' w2',
    TiingoClient.get_ticker_info client "ZZZ" (fresh_world qqq_provider) = (Raise e1, w1')
    ∧ TiingoClient.get_ticker_info (TiingoClient.__init__ "OTHER") "QQQ"
        (fresh_world (provider "QQQ" (Answer (mkResponse 503 "busy" None)) not_found))
      = (Raise e2, w2')
    ∧ e1 = e2
    ∧ exc_id e1 = exc_id ErrorTickerNotFound
    ∧ exc_id e2 = exc_id ErrorTickerNotFound
    ∧ exc_class e1 = "Exception"
    ∧ exc_args e1 = ["Ticker not found"]
    ∧ last_obj w1' = 0%nat
    ∧ last_obj w2' = 0%nat
    ∧ (∀ A cls args w e w',
         @raise_new A cls args w = (Raise e, w') →
         exc_id e ≠ exc_id ErrorTickerNotFound).
Proof.
  apply (ticker_not_found_is_one_object client (TiingoClient.__init__ "OTHER")
           "ZZZ" "QQQ" (fresh_world qqq_provider)
           (fresh_world (provider "QQQ" (Answer (mkResponse 503 "busy" None)) not_found))
           (mkResponse 404 "Not found." (Some (PDict [("detail", PStr "Not found.")])))
           (mkResponse 503 "busy" None));
    first [reflexivity | discriminate].
Defined.

(** C10. When, on a miss, [get_ticker_prices] returns the empty list, [read]
    writes the table with no column and no row to the cache path and returns
    it.  From then on, as long as that file is there, every [read] for the
    ticker raises and leaves the file as it is: with the metadata call's own
    exception when that call fails, and otherwise with the KeyError of the
    missing date column, raised by the freshness test, after the events of
    the metadata call alone: no price request and no write. *)
Theorem read_empty_prices {library : Arrow} (self : TickerPriceStorage.t)
    (ticker : string) :
  (∀ w w1 w2 info,
     TiingoClient.get_ticker_info (TickerPriceStorage.tiingo self) ticker w
       = (Return info, w1) →
     (node w (TickerPriceStorage.filepath self ticker) = None
      ∨ ∃ df lo hi,
          node w (TickerPriceStorage.filepath self ticker) = Some (File (Parquet df))
          ∧ date_bounds df = Some (lo, hi)
          ∧ (lo ≠ PDate (TickerInfo.startDate info)
             ∨ hi ≠ PDate (TickerInfo.endDate info))) →
     TiingoClient.get_ticker_prices (TickerPriceStorage.tiingo self) ticker
       (TickerInfo.startDate info) (TickerInfo.endDate info) w1 = (Return [], w2) →
     node w (parent (TickerPriceStorage.filepath self ticker)) = Some Dir →
     ∃ w3,
       TickerPriceStorage.read self ticker w = (Return (mkDataFrame [] []), w3)
       ∧ node w3 (TickerPriceStorage.filepath self ticker)
         = Some (File (Parquet (mkDataFrame [] []))))
  ∧ (∀ v,
     node v (TickerPriceStorage.filepath self ticker)
       = Some (File (Parquet (mkDataFrame [] []))) →
     ∃ e v',
       TickerPriceStorage.read self ticker v = (Raise e, v')
       ∧ fs v' = fs v
       ∧ node v' (TickerPriceStorage.filepath self ticker)
         = Some (File (Parquet (mkDataFrame [] [])))
       ∧ (∃ evs, trace v' = trace v ++ evs ∧ Forall (λ ev, is_write ev = false) evs)
       ∧ (∀ info v1,
            TiingoClient.get_ticker_info (TickerPriceStorage.tiingo self) ticker v
              = (Return info, v1) →
            e = mkException (S (last_obj v)) "KeyError" ["date"]
            ∧ trace v' = trace v ++ info_events (TickerPriceStorage.tiingo self) ticker)).
Proof.
  split.
  - intros w w1 w2 info Hinfo Hmiss Hprices Hparent.
    destruct (read_refetch self ticker w w1 w2 info [] (mkDataFrame [] [])
                Hinfo Hmiss Hprices to_arrow_empty Hparent)
      as (w3 & Hread & _ & _ & Hload).
    exists w3. split; [done|].
    unfold read_parquet in Hload.
    destruct (node w3 _) as [[|[df|b]]|]; inversion Hload. by subst.
  - intros v Hnode.
    destruct (TiingoClient.get_ticker_info (TickerPriceStorage.tiingo self) ticker v)
      as [[info|e] v1] eqn:Hinfo.
    + destruct (get_ticker_info_Return _ _ _ _ _ Hinfo) as [-> _].
      pose proof (cached_table_no_column (TickerPriceStorage.filepath self ticker)
                    info (happened (info_events (TickerPriceStorage.tiingo self) ticker) v)
                    (mkDataFrame [] []) Hnode eq_refl) as Hc.
      eexists _, _. split; [by eapply read_check_raises|].
      repeat split; try done.
      exists (info_events (TickerPriceStorage.tiingo self) ticker).
      split; [done|]. by repeat constructor.
    + pose proof (io_only_get_ticker_info _ _ _ _ _ Hinfo) as Hframe.
      exists e, v1. split; [by apply read_info_raises|].
      split; [by destruct Hframe|].
      split; [by rewrite (frame_node v v1)|].
      split; [by destruct Hframe|].
      intros info' v1'. done.
Qed.

Lemma read_empty_prices_witness :
  (∃ w3,
     TickerPriceStorage.read storage "QQQ" (stored_world empty_provider [])
       = (Return (mkDataFrame [] []), w3)
     ∧ node w3 [".prices"; "QQQ.parquet"] = Some (File (Parquet (mkDataFrame [] []))))
  ∧ (∃ e v',
     TickerPriceStorage.read storage "QQQ"
       (stored_world empty_provider [("QQQ.parquet", Parquet (mkDataFrame [] []))])
       = (Raise e, v')
     ∧ fs v' = fs (stored_world empty_provider
                     [("QQQ.parquet", Parquet (mkDataFrame [] []))])
     ∧ node v' [".prices"; "QQQ.parquet"] = Some (File (Parquet (mkDataFrame [] [])))
     ∧ (∃ evs, trace v' = [] ++ evs ∧ Forall (λ ev, is_write ev = false) evs)
     ∧ (∀ info v1,
          TiingoClient.get_ticker_info client "QQQ"
            (stored_world empty_provider [("QQQ.parquet", Parquet (mkDataFrame [] []))])
            = (Return info, v1) →
          e = mkException 1 "KeyError" ["date"]
          ∧ trace v' = [] ++ info_events client "QQQ")).
Proof.
  split.
  - refine (proj1 (read_empty_prices storage "QQQ")
              (stored_world empty_provider [])
              (happened (info_events client "QQQ") (stored_world empty_provider []))
              (happened (prices_events client "QQQ" (jan 1) (jan 3))
                 (happened (info_events client "QQQ") (stored_world empty_provider [])))
              (TickerInfo.mk (PStr "QQQ") (PStr "Invesco QQQ Trust")
                 (PStr "NASDAQ") (PStr "An index fund") (jan 1) (jan 3))
              _ _ _ _).
    + reflexivity.
    + left. reflexivity.
    + reflexivity.
    + reflexivity.
  - apply (proj2 (read_empty_prices storage "QQQ")
             (stored_world empty_provider
                [("QQQ.parquet", Parquet (mkDataFrame [] []))])).
    reflexivity.
Defined.

(** * Further properties of the module *)

(** ** [TickerPrice.from_json] *)

Lemma missing_keys_cons_None k keys items :
  assoc k items = None → missing_keys (k :: keys) items = k :: missing_keys keys items.
Proof. intros H. unfold missing_keys. by rewrite filter_cons_True. Qed.

Lemma missing_keys_cons_Some k keys items v :
  assoc k items = Some v → missing_keys (k :: keys) items = missing_keys keys items.
Proof.
  intros H. unfold missing_keys. rewrite filter_cons_False; [done|]. by rewrite H.
Qed.

(** One step of a chain of lookups: the key is there and the chain goes on, or
    it is the first missing key and the chain stops with its KeyError. *)
Ltac key_step k items Hm :=
  let v := fresh "v" in
  let Hk := fresh "Hk" in
  destruct (assoc k items) as [v|] eqn:Hk;
  [ rewrite (missing_keys_cons_Some k _ items _ Hk) in Hm; simpl
  | rewrite (missing_keys_cons_None k _ items Hk) in Hm; by injection Hm as <- _ ].

(** X1. [from_json] on a JSON object that lacks some of the thirteen keys
    raises the KeyError of the first key, in the order the fields are written,
    that the object does not have; the date, when it is not that key, being an
    ISO text. *)
Theorem from_json_first_missing_key (items : list (string * pyval))
    (k : string) (rest : list string) (w : World) :
  missing_keys price_keys items = k :: rest →
  (k ≠ "date" → ∃ s dt, assoc "date" items = Some (PStr s)
                        ∧ Datetime.datetime_fromisoformat s = Some dt) →
  TickerPrice.from_json (PDict items) w = raise_new "KeyError" [k] w.
Proof.
  intros Hm Hdate. unfold price_keys in Hm.
  unfold TickerPrice.from_json, py_getitem, mbind, Py_bind.
  destruct (assoc "date" items) as [d|] eqn:Hd.
  2:{ rewrite (missing_keys_cons_None "date" _ items Hd) in Hm.
      by injection Hm as <- _. }
  rewrite (missing_keys_cons_Some "date" _ items _ Hd) in Hm.
  assert (Hk : k ≠ "date").
  { intros ->. assert (Hin : "date" ∈ "date" :: rest) by left. rewrite <- Hm in Hin.
    apply list_elem_of_filter in Hin as [Hn _]. congruence. }
  destruct (Hdate Hk) as (s & dt & [= ->] & Hdt).
  simpl. rewrite Hdt. simpl.
  key_step "open" items Hm. key_step "high" items Hm. key_step "low" items Hm.
  key_step "close" items Hm. key_step "volume" items Hm.
  key_step "adjOpen" items Hm. key_step "adjHigh" items Hm.
  key_step "adjLow" items Hm. key_step "adjClose" items Hm.
  key_step "adjVolume" items Hm. key_step "divCash" items Hm.
  key_step "splitFactor" items Hm.
  done.
Qed.

Lemma from_json_first_missing_key_witness :
  TickerPrice.from_json
    (PDict [("date", PStr "2024-01-02"); ("open", PFloat 100.0);
            ("high", PFloat 101.5); ("close", PFloat 100.5)])
    (fresh_world qqq_provider)
  = (Raise (mkException 1 "KeyError" ["low"]),
     set_last_obj 1 (fresh_world qqq_provider)).
Proof.
  apply (from_json_first_missing_key _ "low"
           ["volume"; "adjOpen"; "adjHigh"; "adjLow"; "adjClose"; "adjVolume";
            "divCash"; "splitFactor"]).
  - reflexivity.
  - intros _. by exists "2024-01-02",
      (Datetime.mkdatetime (Datetime.mkdate 2024 1 2) 0 0 0 0 None).
Defined.

(** X2. A date that is not an ISO text stops [from_json] before any other
    key is read: whatever else the object holds or lacks, the call raises a
    TypeError when the value of "date" is not a string and a ValueError when it
    is a string that [datetime.fromisoformat] does not accept. *)
Theorem from_json_bad_date (items : list (string * pyval)) (v : pyval) (w : World) :
  assoc "date" items = Some v →
  (∀ s, v = PStr s → Datetime.datetime_fromisoformat s = None) →
  ∃ cls msg,
    TickerPrice.from_json (PDict items) w = raise_new cls [msg] w
    ∧ ((∃ s, v = PStr s) ∧ cls = "ValueError"
       ∨ (∀ s, v ≠ PStr s) ∧ cls = "TypeError").
Proof.
  intros Hd Hbad.
  unfold TickerPrice.from_json, py_getitem, py_datetime_fromisoformat, mbind, Py_bind.
  rewrite Hd. simpl.
  destruct v as [| | | |s| | |];
    try (eexists "TypeError", _; split; [reflexivity | right; by split]).
  rewrite (Hbad s eq_refl). simpl.
  eexists "ValueError", _. split; [reflexivity|]. left. split; [by exists s | done].
Qed.

Lemma from_json_bad_date_witness :
  ∃ cls msg,
    TickerPrice.from_json (PDict [("date", PStr "2024-02-30")]) (fresh_world qqq_provider)
    = raise_new cls [msg] (fresh_world qqq_provider)
    ∧ ((∃ s, PStr "2024-02-30" = PStr s) ∧ cls = "ValueError"
       ∨ (∀ s, PStr "2024-02-30" ≠ PStr s) ∧ cls = "TypeError").
Proof.
  apply (from_json_bad_date [("date", PStr "2024-02-30")] (PStr "2024-02-30")).
  - reflexivity.
  - by intros s [= <-].
Defined.

(** X3. [from_json] on any JSON object that has the thirteen keys and an ISO
    date or date-time text returns the record whose date is the calendar date
    of that text, the time of day dropped, and whose other fields are the
    values of their keys, unchanged and unchecked; keys beyond the thirteen
    are ignored and the world is left as it was. *)
Theorem from_json_renames_fields (items : list (string * pyval)) (s : string)
    (dt : Datetime.datetime) (o h l c v ao ah al ac av dc sf : pyval) (w : World) :
  assoc "date" items = Some (PStr s) →
  Datetime.datetime_fromisoformat s = Some dt →
  assoc "open" items = Some o →
  assoc "high" items = Some h →
  assoc "low" items = Some l →
  assoc "close" items = Some c →
  assoc "volume" items = Some v →
  assoc "adjOpen" items = Some ao →
  assoc "adjHigh" items = Some ah →
  assoc "adjLow" items = Some al →
  assoc "adjClose" items = Some ac →
  assoc "adjVolume" items = Some av →
  assoc "divCash" items = Some dc →
  assoc "splitFactor" items = Some sf →
  TickerPrice.from_json (PDict items) w
  = (Return {| TickerPrice.date := Datetime.dt_date dt;
               TickerPrice.open := o; TickerPrice.high := h;
               TickerPrice.low := l; TickerPrice.close := c;
               TickerPrice.volume := v;
               TickerPrice.adjusted_open := ao; TickerPrice.adjusted_high := ah;
               TickerPrice.adjusted_low := al; TickerPrice.adjusted_close := ac;
               TickerPrice.adjusted_volume := av;
               TickerPrice.dividend_cash := dc; TickerPrice.split_factor := sf |}, w).
Proof. apply from_json_dict. Qed.

Lemma from_json_renames_fields_witness :
  TickerPrice.from_json
    (PDict (("symbol", PStr "QQQ")
            :: ("date", PStr "2020-01-02T00:00:00.000Z")
            :: match price_row "2020-01-02" with PDict l => l | _ => [] end))
    (fresh_world qqq_provider)
  = (Return (price_on (jan 2)), fresh_world qqq_provider).
Proof.
  apply (from_json_renames_fields _ "2020-01-02T00:00:00.000Z"
           (Datetime.mkdatetime (jan 2) 0 0 0 0 (Some 0)));
    reflexivity.
Defined.

(** ** [TiingoClient.get_ticker_prices] *)

(** A list that [mapM] returns is made of the results of the elements, one by
    one. *)
Lemma mapM_Return_Forall2 {A B} (f : A → Py B) l ys w w' :
  (∀ a, pure_py (f a)) →
  mapM f l w = (Return ys, w') →
  Forall2 (λ x y, ∀ v, f x v = (Return y, v)) l ys.
Proof.
  intros Hf. revert ys w w'. induction l as [|x l IH]; intros ys w w' H.
  - inversion H. constructor.
  - simpl in H.
    apply bind_inv in H as [(y & w1 & Hx & H) | (e & _ & ?)]; [|done].
    apply bind_inv in H as [(k & w2 & Hl & H) | (e & _ & ?)]; [|done].
    inversion H; subst. constructor.
    + by eapply pure_Return.
    + by eapply IH.
Qed.

(** [mapM] stops at the first element that raises. *)
Lemma mapM_first_failure {A B} (f : A → Py B) good bad rest cls args w :
  Forall (λ x, ∃ y, ∀ v, f x v = (Return y, v)) good →
  (∀ v, f bad v = raise_new cls args v) →
  mapM f (good ++ bad :: rest) w = raise_new cls args w.
Proof.
  intros Hgood Hbad. induction Hgood as [|x good [y Hx] _ IH]; simpl.
  - unfold mbind, Py_bind. by rewrite Hbad.
  - rewrite (bind_Return _ _ w y w (Hx w)).
    unfold mbind at 1, Py_bind at 1. by rewrite IH.
Qed.

(** X4. When [get_ticker_prices] returns for a body that is a JSON array,
    the list has as many records as the array has elements, and the record at
    each position is what [from_json] makes of the element at that position:
    nothing is dropped, added, reordered or sorted. *)
Theorem get_ticker_prices_elementwise (c : TiingoClient.t) (ticker : string)
    (d1 d2 : Datetime.date) (w w' : World) (r : Response)
    (l : list pyval) (prices : list TickerPrice.t) :
  net w (prices_request c ticker d1 d2) = Answer r →
  json_body r = Some (PList l) →
  TiingoClient.get_ticker_prices c ticker d1 d2 w = (Return prices, w') →
  length prices = length l
  ∧ ∀ i j, l !! i = Some j →
      ∃ p, prices !! i = Some p ∧ ∀ v, TickerPrice.from_json j v = (Return p, v).
Proof.
  intros Hnet Hbody H. rewrite get_ticker_prices_eq, Hnet in H.
  unfold TiingoClient.prices_of, response_json in H. rewrite Hbody in H.
  rewrite (bind_Return _ _ _ (PList l) (happened (prices_events c ticker d1 d2) w))
    in H; [|done].
  rewrite (bind_Return _ _ _ l (happened (prices_events c ticker d1 d2) w))
    in H; [|done].
  apply mapM_Return_Forall2 in H; [|apply pure_from_json].
  split; [symmetry; by eapply Forall2_length|].
  intros i j Hi. destruct (Forall2_lookup_l _ _ _ _ _ H Hi) as (p & Hp & Hj).
  by exists p.
Qed.

Lemma get_ticker_prices_elementwise_witness :
  length [price_on (jan 2); price_on (jan 3)]
  = length [price_row "2020-01-02"; price_row "2020-01-03"]
  ∧ ∀ i j, [price_row "2020-01-02"; price_row "2020-01-03"] !! i = Some j →
      ∃ p, [price_on (jan 2); price_on (jan 3)] !! i = Some p
           ∧ ∀ v, TickerPrice.from_json j v = (Return p, v).
Proof.
  apply (get_ticker_prices_elementwise client "QQQ" (jan 1) (jan 3)
           (fresh_world qqq_provider)
           (happened (prices_events client "QQQ" (jan 1) (jan 3))
              (fresh_world qqq_provider))
           (mkResponse 200 "(prices)"
              (Some (PList [price_row "2020-01-02"; price_row "2020-01-03"]))));
    reflexivity.
Defined.

(** X5. [get_ticker_prices] gives all the records or none: when the elements
    of the array before some element are all accepted by [from_json] and that
    element is not, the call raises the exception of that element, whatever
    comes after it, and no partial list is returned. *)
Theorem get_ticker_prices_all_or_nothing (c : TiingoClient.t) (ticker : string)
    (d1 d2 : Datetime.date) (w : World) (r : Response)
    (good : list pyval) (bad : pyval) (rest : list pyval)
    (cls : string) (args : list string) :
  net w (prices_request c ticker d1 d2) = Answer r →
  json_body r = Some (PList (good ++ bad :: rest)) →
  Forall (λ j, ∃ p, ∀ v, TickerPrice.from_json j v = (Return p, v)) good →
  (∀ v, TickerPrice.from_json bad v = raise_new cls args v) →
  TiingoClient.get_ticker_prices c ticker d1 d2 w
  = (Raise (mkException (S (last_obj w)) cls args),
     set_last_obj (S (last_obj w)) (happened (prices_events c ticker d1 d2) w)).
Proof.
  intros Hnet Hbody Hgood Hbad. rewrite get_ticker_prices_eq, Hnet.
  unfold TiingoClient.prices_of, response_json. rewrite Hbody.
  rewrite (bind_Return _ _ _ (PList (good ++ bad :: rest))
             (happened (prices_events c ticker d1 d2) w)); [|done].
  rewrite (bind_Return _ _ _ (good ++ bad :: rest)
             (happened (prices_events c ticker d1 d2) w)); [|done].
  by rewrite (mapM_first_failure _ good bad rest cls args).
Qed.

Lemma get_ticker_prices_all_or_nothing_witness :
  TiingoClient.get_ticker_prices client "QQQ" (jan 1) (jan 3)
    (fresh_world
       (provider "QQQ" not_found
          (ok "(prices)" (PList [price_row "2020-01-02"; PDict [];
                                 price_row "2020-01-03"]))))
  = (Raise (mkException 1 "KeyError" ["date"]),
     set_last_obj 1
       (happened (prices_events client "QQQ" (jan 1) (jan 3))
          (fresh_world
             (provider "QQQ" not_found
                (ok "(prices)" (PList [price_row "2020-01-02"; PDict [];
                                       price_row "2020-01-03"])))))).
Proof.
  apply (get_ticker_prices_all_or_nothing client "QQQ" (jan 1) (jan 3)
           (fresh_world
              (provider "QQQ" not_found
                 (ok "(prices)" (PList [price_row "2020-01-02"; PDict [];
                                        price_row "2020-01-03"]))))
           (mkResponse 200 "(prices)"
              (Some (PList [price_row "2020-01-02"; PDict [];
                            price_row "2020-01-03"])))
           [price_row "2020-01-02"] (PDict []) [price_row "2020-01-03"]
           "KeyError" ["date"]).
  - reflexivity.
  - reflexivity.
  - constructor; [|constructor]. by exists (price_on (jan 2)).
  - reflexivity.
Defined.

(** X6. Whatever its outcome, one call of [get_ticker_prices] records the
    log line and then exactly one GET, to the price endpoint of the ticker,
    with the two dates in ISO form, the daily resampling and the client's
    headers; it leaves the disk and the provider as they were.  When the HTTP
    stack fails, the call raises the stack's exception and nothing else
    happens. *)
Theorem get_ticker_prices_one_request (c : TiingoClient.t) (ticker : string)
    (d1 d2 : Datetime.date) (w w' : World) (r : outcome (list TickerPrice.t)) :
  TiingoClient.get_ticker_prices c ticker d1 d2 w = (r, w') →
  trace w' = trace w
    ++ [EvLog "INFO" ("Getting ticker prices for " +:+ ticker +:+ " from "
                      +:+ Datetime.isoformat d1 +:+ " to " +:+ Datetime.isoformat d2);
        EvGet (mkRequest
                 ("https://api.tiingo.com/tiingo/daily/" +:+ ticker +:+ "/prices")
                 [("startDate", Datetime.isoformat d1);
                  ("endDate", Datetime.isoformat d2);
                  ("resampleFreq", "daily")]
                 (TiingoClient.headers c))]
  ∧ fs w' = fs w
  ∧ net w' = net w
  ∧ (∀ cls msg,
       net w (prices_request c ticker d1 d2) = NetFailure cls msg →
       r = Raise (mkException (S (last_obj w)) cls [msg])).
Proof.
  rewrite get_ticker_prices_eq. intros H.
  destruct (net w (prices_request c ticker d1 d2)) as [resp|cls msg].
  - destruct (pure_prices_of resp) as [[ps|[cls args]] Hp]; rewrite Hp in H;
      inversion H; subst; by repeat split.
  - inversion H; subst. repeat split; try done. by intros cls' msg' [= <- <-].
Qed.

Lemma get_ticker_prices_one_request_witness :
  trace (set_last_obj 1
           (happened (prices_events client "QQQ" (jan 1) (jan 3))
              (fresh_world down_provider)))
  = trace (fresh_world down_provider)
    ++ [EvLog "INFO" "Getting ticker prices for QQQ from 2020-01-01 to 2020-01-03";
        EvGet (mkRequest "https://api.tiingo.com/tiingo/daily/QQQ/prices"
                 [("startDate", "2020-01-01"); ("endDate", "2020-01-03");
                  ("resampleFreq", "daily")]
                 [("Content-Type", "application/json");
                  ("Authorization", "Token KEY")])]
  ∧ Raise (mkException 1 "ConnectionError" ["Connection aborted."])
    = Raise (mkException (S (last_obj (fresh_world down_provider)))
               "ConnectionError" ["Connection aborted."])
      :> outcome (list TickerPrice.t).
Proof.
  pose proof (get_ticker_prices_one_request client "QQQ" (jan 1) (jan 3)
                (fresh_world down_provider)
                (set_last_obj 1
                   (happened (prices_events client "QQQ" (jan 1) (jan 3))
                      (fresh_world down_provider)))
                (Raise (mkException 1 "ConnectionError" ["Connection aborted."]))
                eq_refl) as (Htrace & _ & _ & Hfail).
  split; [exact Htrace|].
  exact (Hfail "ConnectionError" "Connection aborted." eq_refl).
Defined.

(** X7. A body that is a JSON object, as the provider's error payloads are,
    is iterated over its keys: the empty object gives the empty list without
    any error, and an object with at least one key raises the TypeError of
    indexing a string with a string.  A null body raises the TypeError of
    iterating over None. *)
Theorem get_ticker_prices_object_body (c : TiingoClient.t) (ticker : string)
    (d1 d2 : Datetime.date) (w : World) (r : Response) :
  net w (prices_request c ticker d1 d2) = Answer r →
  (json_body r = Some (PDict []) →
     TiingoClient.get_ticker_prices c ticker d1 d2 w
     = (Return [], happened (prices_events c ticker d1 d2) w))
  ∧ (∀ k v items,
       json_body r = Some (PDict ((k, v) :: items)) →
       TiingoClient.get_ticker_prices c ticker d1 d2 w
       = raise_new "TypeError" ["string indices must be integers, not 'str'"]
           (happened (prices_events c ticker d1 d2) w))
  ∧ (json_body r = Some PNone →
     TiingoClient.get_ticker_prices c ticker d1 d2 w
     = raise_new "TypeError" ["'NoneType' object is not iterable"]
         (happened (prices_events c ticker d1 d2) w)).
Proof.
  intros Hnet. rewrite get_ticker_prices_eq, Hnet.
  unfold TiingoClient.prices_of, response_json.
  split; [|split].
  - by intros ->.
  - by intros k v items ->.
  - by intros ->.
Qed.

Lemma get_ticker_prices_object_body_witness :
  TiingoClient.get_ticker_prices client "ZZZ" (jan 1) (jan 3) (fresh_world qqq_provider)
  = raise_new "TypeError" ["string indices must be integers, not 'str'"]
      (happened (prices_events client "ZZZ" (jan 1) (jan 3)) (fresh_world qqq_provider)).
Proof.
  apply (proj1 (proj2 (get_ticker_prices_object_body client "ZZZ" (jan 1) (jan 3)
                         (fresh_world qqq_provider)
                         (mkResponse 404 "Not found."
                            (Some (PDict [("detail", PStr "Not found.")])))
                         eq_refl))
           "detail" (PStr "Not found.") []).
  reflexivity.
Defined.

(** ** [TiingoClient.get_ticker_info] *)

(** X8. [get_ticker_info] raises [ErrorTickerNotFound] exactly when the
    provider has answered with a status other than 200: a failure of the HTTP
    stack, a body that is not JSON, a missing key or a malformed date under
    status 200 all raise something else. *)
Theorem get_ticker_info_not_found_iff (c : TiingoClient.t) (ticker : string)
    (w : World) :
  fst (TiingoClient.get_ticker_info c ticker w) = Raise ErrorTickerNotFound
  ↔ ∃ r, net w (info_request c ticker) = Answer r ∧ status_code r ≠ 200.
Proof.
  rewrite get_ticker_info_eq.
  destruct (net w (info_request c ticker)) as [r|cls msg].
  - destruct (status_code r =? 200) eqn:Hs; simpl.
    + apply Z.eqb_eq in Hs. split.
      * destruct (pure_ticker_info_of r) as [[info|[cls args]] Hp]; rewrite Hp;
          simpl; done.
      * intros (r' & [= <-] & Hne). done.
    + apply Z.eqb_neq in Hs. split; [|done]. intros _. by exists r.
  - split; [done|]. intros (r & ? & _). done.
Qed.

(** X9. Whatever its outcome, one call of [get_ticker_info] records the log
    line and then exactly one GET, to the metadata endpoint of the ticker with
    no parameter and the client's headers, and leaves the disk and the
    provider as they were.  The error line, with status code and body, is
    logged after the GET exactly when the provider answers with a status other
    than 200: a failure of the HTTP stack or a body that cannot be decoded is
    not logged. *)
Theorem get_ticker_info_one_request (c : TiingoClient.t) (ticker : string)
    (w w' : World) (r : outcome TickerInfo.t) :
  TiingoClient.get_ticker_info c ticker w = (r, w') →
  trace w' = trace w
    ++ [EvLog "INFO" ("Getting ticker info for " +:+ ticker);
        EvGet (mkRequest ("https://api.tiingo.com/tiingo/daily/" +:+ ticker) []
                 (TiingoClient.headers c))]
    ++ match net w (info_request c ticker) with
       | Answer resp =>
           if status_code resp =? 200 then []
           else [EvLog "ERROR" ("Failed to get ticker info for " +:+ ticker +:+ ": "
                                +:+ pretty (status_code resp) +:+ " " +:+ text resp)]
       | NetFailure _ _ => []
       end
  ∧ fs w' = fs w
  ∧ net w' = net w.
Proof.
  rewrite get_ticker_info_eq. intros H.
  destruct (net w (info_request c ticker)) as [resp|cls msg].
  - destruct (status_code resp =? 200); simpl in H.
    + destruct (pure_ticker_info_of resp) as [[info|[cls args]] Hp];
        rewrite Hp in H; inversion H; subst; by repeat split.
    + inversion H; subst. by repeat split.
  - inversion H; subst. by repeat split.
Qed.

Lemma get_ticker_info_one_request_witness :
  trace (set_last_obj 1 (happened (info_events client "QQQ") (fresh_world
           (provider "QQQ" (NetFailure "Timeout" "timed out") not_found))))
  = [] ++ [EvLog "INFO" "Getting ticker info for QQQ";
           EvGet (mkRequest "https://api.tiingo.com/tiingo/daily/QQQ" []
                    [("Content-Type", "application/json");
                     ("Authorization", "Token KEY")])] ++ [].
Proof.
  exact (proj1 (get_ticker_info_one_request client "QQQ"
                  (fresh_world (provider "QQQ" (NetFailure "Timeout" "timed out")
                                  not_found))
                  (set_last_obj 1 (happened (info_events client "QQQ") (fresh_world
                     (provider "QQQ" (NetFailure "Timeout" "timed out") not_found))))
                  (Raise (mkException 1 "Timeout" ["timed out"]))
                  eq_refl)).
Defined.

(** One step of the chain of [get_ticker_info]: the body is decoded again and
    the key looked up. *)
Ltac info_key_step k items Hm :=
  let v := fresh "v" in
  let Hk := fresh "Hk" in
  destruct (assoc k items) as [v|] eqn:Hk;
  [ rewrite (missing_keys_cons_Some k _ items _ Hk) in Hm; simpl
  | rewrite (missing_keys_cons_None k _ items Hk) in Hm; by injection Hm as <- _ ].

(** X10. Under status 200 a malformed body is not reported as a ticker that
    was not found: a body that is not JSON raises the decoder's error, and a
    JSON object that lacks some of the six keys raises the KeyError of the
    first of them, in the order ticker, name, exchangeCode, description,
    startDate, endDate, that it does not have (the startDate, when it is
    there, being an ISO date). *)
Theorem get_ticker_info_malformed_body (c : TiingoClient.t) (ticker : string)
    (w : World) (r : Response) :
  net w (info_request c ticker) = Answer r →
  status_code r = 200 →
  (json_body r = None →
     TiingoClient.get_ticker_info c ticker w
     = raise_new "JSONDecodeError" ["Expecting value"]
         (happened (info_events c ticker) w))
  ∧ (∀ items k rest,
       json_body r = Some (PDict items) →
       missing_keys info_keys items = k :: rest →
       (k = "endDate" → ∃ s d, assoc "startDate" items = Some (PStr s)
                               ∧ Datetime.date_fromisoformat s = Some d) →
       TiingoClient.get_ticker_info c ticker w
       = raise_new "KeyError" [k] (happened (info_events c ticker) w)).
Proof.
  intros Hnet Hs. rewrite get_ticker_info_eq, Hnet, Hs. simpl.
  unfold TiingoClient.ticker_info_of, response_json, py_getitem,
    py_date_fromisoformat, mbind, Py_bind.
  split.
  - by intros ->.
  - intros items k rest -> Hm Hstart. unfold info_keys in Hm. simpl.
    info_key_step "ticker" items Hm. info_key_step "name" items Hm.
    info_key_step "exchangeCode" items Hm. info_key_step "description" items Hm.
    info_key_step "startDate" items Hm.
    destruct (assoc "endDate" items) as [v4|] eqn:He.
    { by rewrite (missing_keys_cons_Some "endDate" _ items _ He) in Hm. }
    rewrite (missing_keys_cons_None "endDate" _ items He) in Hm.
    injection Hm as <- _.
    destruct (Hstart eq_refl) as (s & d & [= ->] & Hd). by rewrite Hd.
Qed.

Lemma get_ticker_info_malformed_body_witness :
  TiingoClient.get_ticker_info client "QQQ"
    (fresh_world (provider "QQQ"
                    (ok "(metadata)" (PDict [("ticker", PStr "QQQ");
                                             ("name", PStr "Invesco QQQ Trust")]))
                    not_found))
  = raise_new "KeyError" ["exchangeCode"]
      (happened (info_events client "QQQ")
         (fresh_world (provider "QQQ"
                         (ok "(metadata)" (PDict [("ticker", PStr "QQQ");
                                                  ("name", PStr "Invesco QQQ Trust")]))
                         not_found))).
Proof.
  refine (proj2 (get_ticker_info_malformed_body client "QQQ"
                   (fresh_world (provider "QQQ"
                      (ok "(metadata)" (PDict [("ticker", PStr "QQQ");
                                               ("name", PStr "Invesco QQQ Trust")]))
                      not_found))
                   (mkResponse 200 "(metadata)"
                      (Some (PDict [("ticker", PStr "QQQ");
                                    ("name", PStr "Invesco QQQ Trust")])))
                   eq_refl eq_refl)
            _ "exchangeCode" ["description"; "startDate"; "endDate"] eq_refl eq_refl _).
  discriminate.
Defined.

(** ** [TickerPriceStorage.__init__] *)

Lemma grows_refl w : grows w w.
Proof. split; [done | done |]. exists []. by rewrite app_nil_r. Qed.

Lemma grows_trans w1 w2 w3 : grows w1 w2 → grows w2 w3 → grows w1 w3.
Proof.
  intros [Hf1 Hn1 (e1 & Ht1 & He1)] [Hf2 Hn2 (e2 & Ht2 & He2)].
  split; [auto | congruence |].
  exists (e1 ++ e2). split; [by rewrite Ht2, Ht1, app_assoc | by apply Forall_app].
Qed.

Lemma grows_alloc w n : grows w (set_last_obj n w).
Proof. split; [done | done |]. exists []. by rewrite app_nil_r. Qed.

Lemma grows_node w w' q n : grows w w' → node w q = Some n → node w' q = Some n.
Proof.
  intros [Hf _ _]. unfold node. case_decide; [done|]. apply Hf.
Qed.

Lemma mkdir_one_grows p last w r w' : mkdir_one p last w = (r, w') → grows w w'.
Proof.
  unfold mkdir_one. destruct (node w p) as [[|d]|] eqn:Hp; intros H.
  - inversion H. apply grows_refl.
  - inversion H. apply grows_alloc.
  - inversion H. split; [|done|].
    + intros q n Hq. simpl. rewrite lookup_insert_ne; [done|].
      intros <-. rewrite (node_lookup w p) in Hp; [congruence | by rewrite Hp].
    + exists [EvMkdir p]. split; [done|]. by repeat constructor.
Qed.

Lemma mkdir_one_Return p last w w' :
  mkdir_one p last w = (Return (), w') → node w' p = Some Dir.
Proof.
  unfold mkdir_one. destruct (node w p) as [[|d]|] eqn:Hp; intros H.
  - by inversion H; subst.
  - inversion H.
  - inversion H. rewrite happened_node. apply node_insert_eq. by rewrite Hp.
Qed.

Lemma mkdir_from_grows todo : ∀ made w r w',
  mkdir_from made todo w = (r, w') → grows w w'.
Proof.
  induction todo as [|part rest IH]; intros made w r w' H; simpl in H.
  - inversion H. apply grows_refl.
  - apply bind_inv in H as [([] & w1 & H1 & H2) | (e & H1 & _)].
    + eapply grows_trans; [by eapply mkdir_one_grows | by eapply IH].
    + by eapply mkdir_one_grows.
Qed.

(** After a successful [mkdir], every prefix of the path is a directory. *)
Lemma mkdir_from_Return todo : ∀ made w w',
  mkdir_from made todo w = (Return (), w') →
  ∀ k, (1 ≤ k ≤ length todo)%nat → node w' (made ++ take k todo) = Some Dir.
Proof.
  induction todo as [|part rest IH]; intros made w w' H k Hk; simpl in *; [lia|].
  apply bind_inv in H as [([] & w1 & H1 & H2) | (e & _ & ?)]; [|done].
  destruct k as [|k]; [lia|]. simpl.
  destruct k as [|k].
  - rewrite take_0. apply (grows_node w1); [by eapply mkdir_from_grows|].
    by eapply mkdir_one_Return.
  - rewrite (cons_middle part), app_assoc. eapply IH; [done|]. simpl. lia.
Qed.

(** [mkdir] on a path whose prefixes are all directories does nothing. *)
Lemma mkdir_from_noop todo : ∀ made w,
  (∀ k, (1 ≤ k ≤ length todo)%nat → node w (made ++ take k todo) = Some Dir) →
  mkdir_from made todo w = (Return (), w).
Proof.
  induction todo as [|part rest IH]; intros made w Hdirs; simpl; [done|].
  assert (H1 : mkdir_one (made ++ [part]) (bool_decide (rest = [])) w = (Return (), w)).
  { pose proof (Hdirs 1%nat ltac:(simpl; lia)) as Hd. simpl in Hd. rewrite take_0 in Hd.
    unfold mkdir_one. by rewrite Hd. }
  rewrite (bind_Return _ _ _ _ _ H1). apply IH.
  intros k Hk. rewrite <- app_assoc. apply (Hdirs (S k)). simpl. lia.
Qed.

(** [mkdir] on a path that is a file under directories raises. *)
Lemma mkdir_from_file pre : ∀ made last w d,
  (∀ k, (1 ≤ k ≤ length pre)%nat → node w (made ++ take k pre) = Some Dir) →
  node w (made ++ pre ++ [last]) = Some (File d) →
  mkdir_from made (pre ++ [last]) w = raise_new "FileExistsError" ["File exists"] w.
Proof.
  induction pre as [|part rest IH]; intros made last w d Hdirs Hfile; simpl.
  - unfold mbind, Py_bind, mkdir_one. simpl in Hfile. by rewrite Hfile.
  - assert (H1 : mkdir_one (made ++ [part]) (bool_decide (rest ++ [last] = [])) w
                 = (Return (), w)).
    { pose proof (Hdirs 1%nat ltac:(simpl; lia)) as Hd. simpl in Hd. rewrite take_0 in Hd.
      unfold mkdir_one. by rewrite Hd. }
    rewrite (bind_Return _ _ _ _ _ H1). apply (IH _ _ _ d).
    + intros k Hk. rewrite <- app_assoc. apply (Hdirs (S k)). simpl. lia.
    + by rewrite <- app_assoc.
Qed.

Lemma storage_init_inv c path w r w' :
  TickerPriceStorage.__init__ c path w = (r, w') →
  (r = Return (TickerPriceStorage.mk c (pathlib_Path path))
   ∧ mkdir_from [] (pathlib_Path path) w = (Return (), w'))
  ∨ (∃ e, r = Raise e ∧ mkdir_from [] (pathlib_Path path) w = (Raise e, w')).
Proof.
  unfold TickerPriceStorage.__init__, mkdir_parents_exist_ok. intros H.
  apply bind_inv in H as [([] & w1 & H1 & H2) | (e & H1 & ->)].
  - left. by inversion H2; subst.
  - right. by exists e.
Qed.

(** X11. When the constructor of [TickerPriceStorage] returns, the storage
    object holds the client and the parsed path, and that path and every
    ancestor of it are directories of the disk. *)
Theorem storage_init_makes_directory (c : TiingoClient.t) (path : string)
    (w w' : World) (s : TickerPriceStorage.t) :
  TickerPriceStorage.__init__ c path w = (Return s, w') →
  TickerPriceStorage.tiingo s = c
  ∧ TickerPriceStorage.path s = pathlib_Path path
  ∧ node w' (TickerPriceStorage.path s) = Some Dir
  ∧ ∀ k, node w' (take k (TickerPriceStorage.path s)) = Some Dir.
Proof.
  intros H. apply storage_init_inv in H as [[[= ->] H] | (e & ? & _)]; [|done].
  simpl. split; [done|]. split; [done|].
  assert (Hall : ∀ k, node w' (take k (pathlib_Path path)) = Some Dir).
  { intros k. destruct k as [|k]; [by rewrite take_0|].
    destruct (decide (S k ≤ length (pathlib_Path path))%nat) as [Hle|Hgt].
    - apply (mkdir_from_Return _ [] w w' H (S k)). lia.
    - rewrite take_ge by lia.
      destruct (pathlib_Path path) as [|x l] eqn:Hp; [done|].
      rewrite <- (take_ge (x :: l) (length (x :: l))) by lia.
      apply (mkdir_from_Return _ [] w w' H (length (x :: l))). simpl. lia. }
  split; [|done].
  rewrite <- (take_ge (pathlib_Path path) (length (pathlib_Path path))) by lia.
  apply Hall.
Qed.

Lemma storage_init_makes_directory_witness :
  ∃ s w',
    TickerPriceStorage.__init__ client "data//cache/./prices/"
      (fresh_world qqq_provider) = (Return s, w')
    ∧ TickerPriceStorage.path s = ["data"; "cache"; "prices"]
    ∧ node w' ["data"; "cache"; "prices"] = Some Dir
    ∧ node w' ["data"; "cache"] = Some Dir
    ∧ node w' ["data"] = Some Dir.
Proof.
  eexists _, _. split; [vm_compute; reflexivity|].
  pose proof (storage_init_makes_directory client "data//cache/./prices/"
                (fresh_world qqq_provider) _ _ eq_refl) as (_ & Hp & Hd & Hall).
  split; [exact Hp|]. split; [exact Hd|].
  split; [exact (Hall 2%nat) | exact (Hall 1%nat)].
Defined.

(** X12. Whatever its outcome, the constructor removes and changes nothing
    that is on the disk: every file and every directory that was there is
    there afterwards, as it was.  It sends no request and writes no file: the
    only events are directory creations. *)
Theorem storage_init_keeps_disk (c : TiingoClient.t) (path : string)
    (w w' : World) (r : outcome TickerPriceStorage.t) :
  TickerPriceStorage.__init__ c path w = (r, w') →
  (∀ q n, fs w !! q = Some n → fs w' !! q = Some n)
  ∧ net w' = net w
  ∧ ∃ evs, trace w' = trace w ++ evs ∧ Forall (λ ev, is_mkdir ev = true) evs.
Proof.
  intros H.
  assert (Hg : grows w w').
  { apply storage_init_inv in H as [[_ H] | (e & _ & H)];
      by eapply mkdir_from_grows. }
  by destruct Hg.
Qed.

Lemma storage_init_keeps_disk_witness :
  ∃ w',
    (∀ q n, fs stale_world !! q = Some n → fs w' !! q = Some n)
    ∧ net w' = net stale_world
    ∧ ∃ evs, trace w' = trace stale_world ++ evs
             ∧ Forall (λ ev, is_mkdir ev = true) evs.
Proof.
  exists (snd (TickerPriceStorage.__init__ client ".prices/QQQ.parquet/x" stale_world)).
  apply (storage_init_keeps_disk client ".prices/QQQ.parquet/x" stale_world _
           (fst (TickerPriceStorage.__init__ client ".prices/QQQ.parquet/x" stale_world))).
  by destruct (TickerPriceStorage.__init__ client ".prices/QQQ.parquet/x" stale_world).
Defined.

(** X13. Constructing the storage object a second time changes nothing: when
    the constructor has returned, running it again on the same path returns
    the same object and leaves the world, disk and events, as it is
    (exist_ok). *)
Theorem storage_init_idempotent (c : TiingoClient.t) (path : string)
    (w w1 : World) (s : TickerPriceStorage.t) :
  TickerPriceStorage.__init__ c path w = (Return s, w1) →
  TickerPriceStorage.__init__ c path w1 = (Return s, w1).
Proof.
  intros H. apply storage_init_inv in H as [[[= ->] H] | (e & ? & _)]; [|done].
  unfold TickerPriceStorage.__init__, mkdir_parents_exist_ok.
  rewrite (bind_Return _ _ w1 () w1); [done|].
  apply mkdir_from_noop. intros k Hk.
  by apply (mkdir_from_Return _ [] w w1 H k).
Qed.

Lemma storage_init_idempotent_witness :
  TickerPriceStorage.__init__ client ".prices"
    (happened [EvMkdir [".prices"]]
       (set_fs (insert [".prices"] Dir) (fresh_world qqq_provider)))
  = (Return storage,
     happened [EvMkdir [".prices"]]
       (set_fs (insert [".prices"] Dir) (fresh_world qqq_provider))).
Proof.
  apply (storage_init_idempotent client ".prices" (fresh_world qqq_provider)).
  reflexivity.
Defined.

(** X14. exist_ok covers directories only: when the storage path is a file
    of the disk (its ancestors being directories), the constructor raises
    FileExistsError and makes nothing. *)
Theorem storage_init_on_a_file (c : TiingoClient.t) (path : string) (w : World)
    (d : FileData) :
  node w (pathlib_Path path) = Some (File d) →
  (∀ k, (k < length (pathlib_Path path))%nat →
        node w (take k (pathlib_Path path)) = Some Dir) →
  TickerPriceStorage.__init__ c path w
  = raise_new "FileExistsError" ["File exists"] w.
Proof.
  intros Hfile Hdirs.
  unfold TickerPriceStorage.__init__, mkdir_parents_exist_ok.
  destruct (pathlib_Path path) as [|x l] using rev_ind; [done|].
  clear IHl.
  apply bind_Raise. apply (mkdir_from_file _ [] _ _ d); [|done].
  intros k Hk. simpl.
  rewrite <- (take_app_le l [x] k) by lia. apply Hdirs. rewrite length_app. simpl. lia.
Qed.

Lemma storage_init_on_a_file_witness :
  TickerPriceStorage.__init__ client ".prices/QQQ.parquet" stale_world
  = raise_new "FileExistsError" ["File exists"] stale_world.
Proof.
  apply (storage_init_on_a_file client ".prices/QQQ.parquet" stale_world
           (Parquet (pd_DataFrame [price_on (jan 2)]))).
  - reflexivity.
  - intros k Hk. destruct k as [|[|k]]; [reflexivity | reflexivity |].
    vm_compute in Hk. lia.
Defined.

(** ** [TickerPriceStorage.read] *)

Section NoEffect.
Context {A B : Type}.

Lemma no_effect_ret (a : A) : no_effect (mret a).
Proof. intros w r w' [= <- <-]. left. by exists a. Qed.

Lemma no_effect_raise_new cls args : no_effect (@raise_new A cls args).
Proof. intros w r w' H. right. by exists cls, args. Qed.

Lemma no_effect_or_raise (o : option A) cls args : no_effect (or_raise o cls args).
Proof. destruct o; [apply no_effect_ret | apply no_effect_raise_new]. Qed.

Lemma no_effect_bind (m : Py A) (f : A → Py B) :
  no_effect m → (∀ a, no_effect (f a)) → no_effect (m ≫= f).
Proof.
  intros Hm Hf w r w' H.
  apply bind_inv in H as [(a & w1 & H1 & H2) | (e & H1 & ->)].
  - destruct (Hm _ _ _ H1) as [(a' & _ & ->) | (cls & args & Hr)];
      [by eapply Hf | inversion Hr].
  - destruct (Hm _ _ _ H1) as [(a' & ? & _) | (cls & args & Hr)]; [done|].
    inversion Hr; subst. right. by exists cls, args.
Qed.

Lemma pure_no_effect (m : Py A) : pure_py m → no_effect m.
Proof.
  intros [[a|[cls args]] Hm] w r w' H; rewrite Hm in H.
  - by apply (no_effect_ret a w).
  - by apply (no_effect_raise_new cls args w).
Qed.
End NoEffect.

Lemma no_effect_os_path_exists p : no_effect (os_path_exists p).
Proof. intros w r w' [= <- <-]. left. by eexists. Qed.

Lemma no_effect_read_parquet p : no_effect (read_parquet p).
Proof.
  intros w r w'. unfold read_parquet.
  destruct (node w p) as [[|[df|b]]|];
    first [ apply no_effect_raise_new | apply (no_effect_ret df) ].
Qed.

Lemma no_effect_cached_table p info :
  no_effect (TickerPriceStorage.cached_table p info).
Proof.
  unfold TickerPriceStorage.cached_table.
  repeat first
    [ progress intros
    | apply no_effect_bind
    | apply no_effect_os_path_exists | apply no_effect_read_parquet
    | apply no_effect_ret
    | apply pure_no_effect; solve [auto with py]
    | match goal with
      | |- context [match ?x with _ => _ end] => destruct x
      end ].
Qed.

(** What a run of a computation without effect leaves. *)
Lemma no_effect_same {A} (m : Py A) w r w' :
  no_effect m → m w = (r, w') → trace w' = trace w ∧ fs w' = fs w ∧ net w' = net w.
Proof.
  intros Hm H. by destruct (Hm _ _ _ H) as [(a & _ & ->) | (cls & args & [= _ ->])].
Qed.

Lemma to_parquet_Raise {library : Arrow} df p w e w' :
  to_parquet df p w = (Raise e, w') →
  trace w' = trace w ∧ fs w' = fs w ∧ net w' = net w.
Proof.
  unfold to_parquet. intros H.
  destruct (to_arrow df) as [table|[cls args]]; [|by inversion H].
  destruct (node w p) as [[|d]|]; [by inversion H | |];
    (destruct (node w (parent p)) as [[|d']|]; by inversion H).
Qed.

Lemma get_ticker_info_run c ticker w r w' :
  TiingoClient.get_ticker_info c ticker w = (r, w') →
  fs w' = fs w ∧ net w' = net w
  ∧ (trace w' = trace w ++ info_events c ticker
     ∨ ∃ resp, trace w' = trace w ++ info_events c ticker ++ [info_error_log ticker resp]
               ∧ r = Raise ErrorTickerNotFound).
Proof.
  rewrite get_ticker_info_eq. intros H.
  destruct (net w (info_request c ticker)) as [resp|cls msg].
  - destruct (negb (status_code resp =? 200)).
    + inversion H; subst. split; [done|]. split; [done|]. right. by exists resp.
    + destruct (pure_ticker_info_of resp) as [[info|[cls args]] Hp];
        rewrite Hp in H; inversion H; subst; split; try done; split; try done; by left.
  - inversion H; subst. split; [done|]. split; [done|]. by left.
Qed.

Lemma get_ticker_prices_run c ticker d1 d2 w r w' :
  TiingoClient.get_ticker_prices c ticker d1 d2 w = (r, w') →
  fs w' = fs w ∧ net w' = net w
  ∧ trace w' = trace w ++ prices_events c ticker d1 d2.
Proof.
  rewrite get_ticker_prices_eq. intros H.
  destruct (net w (prices_request c ticker d1 d2)) as [resp|cls msg].
  - destruct (pure_prices_of resp) as [[ps|[cls args]] Hp]; rewrite Hp in H;
      by inversion H; subst.
  - by inversion H; subst.
Qed.

(** The events of one [read], case by case. *)
Lemma read_trace_cases {library : Arrow} (self : TickerPriceStorage.t)
    (ticker : string) (w w' : World) (r : outcome DataFrame) :
  TickerPriceStorage.read self ticker w = (r, w') →
  ∃ rest,
    trace w' = trace w
      ++ [info_log ticker; EvGet (info_request (TickerPriceStorage.tiingo self) ticker)]
      ++ rest
    ∧ (rest = []
       ∨ (∃ resp, rest = [info_error_log ticker resp] ∧ r = Raise ErrorTickerNotFound)
       ∨ (∃ d1 d2 e,
            rest = [prices_log ticker d1 d2;
                    EvGet (prices_request (TickerPriceStorage.tiingo self) ticker d1 d2)]
            ∧ r = Raise e)
       ∨ (∃ d1 d2 prices table,
            rest = [prices_log ticker d1 d2;
                    EvGet (prices_request (TickerPriceStorage.tiingo self) ticker d1 d2);
                    EvWrite (TickerPriceStorage.filepath self ticker)]
            ∧ to_arrow (pd_DataFrame prices) = inl table
            ∧ r = Return table)).
Proof.
  unfold TickerPriceStorage.read. intros H.
  apply bind_inv in H as [(info & w1 & Hinfo & H) | (e & Hinfo & ->)].
  2:{ destruct (get_ticker_info_run _ _ _ _ _ Hinfo) as (_ & _ & [Ht | (resp & Ht & [= ->])]).
      - exists []. split; [by rewrite app_nil_r | by left].
      - exists [info_error_log ticker resp]. split; [done|]. right. left. by exists resp. }
  destruct (get_ticker_info_Return _ _ _ _ _ Hinfo) as [-> _].
  apply bind_inv in H as [(cached & w2 & Hc & H) | (e & Hc & ->)].
  2:{ destruct (no_effect_same _ _ _ _ (no_effect_cached_table _ _) Hc) as (Ht & _).
      exists []. split; [by rewrite Ht, app_nil_r | by left]. }
  pose proof (quiet_cached_table _ _ _ _ _ Hc) as ->.
  destruct cached as [df|].
  { inversion H; subst. exists []. split; [by rewrite app_nil_r | by left]. }
  apply bind_inv in H as [(prices & w3 & Hp & H) | (e & Hp & ->)].
  2:{ destruct (get_ticker_prices_run _ _ _ _ _ _ _ Hp) as (_ & _ & Ht).
      eexists. split; [rewrite Ht; simpl; by rewrite <- app_assoc|].
      right. right. left. by eexists _, _, e. }
  destruct (get_ticker_prices_run _ _ _ _ _ _ _ Hp) as (_ & _ & Ht).
  apply bind_inv in H as [([] & w4 & Hw & H) | (e & Hw & ->)].
  2:{ destruct (to_parquet_Raise _ _ _ _ _ Hw) as (Ht' & _).
      eexists. split; [rewrite Ht', Ht; simpl; by rewrite <- app_assoc|].
      right. right. left. by eexists _, _, e. }
  apply to_parquet_inv in Hw
    as [(table & Hconv & _ & Hnd & Hpar & ->) | (e & ? & _)]; [|done].
  unfold read_parquet in H. rewrite happened_node in H.
  rewrite (node_insert_eq w3 _ _ Hnd) in H. inversion H; subst.
  eexists. split.
  - simpl. rewrite Ht. simpl. by rewrite <- !app_assoc.
  - right. right. right. by eexists _, _, prices, table.
Qed.

(** X15. The events of one [read], whatever its outcome.  The log line and
    the GET of the metadata call always come first, also on a cache hit.
    After them comes nothing; or the error line of a ticker that was not
    found; or the log line and the GET of one price call, and then the call
    raises; or those two and one write, to the ticker's cache path, and then
    the call returns.  So one [read] sends at most two requests, writes at
    most once, writes only after the prices have come, and never writes when
    it raises.  The table it returns after a write is the one that the file
    holds, converted from the frame of the prices. *)
Theorem read_events {library : Arrow} (self : TickerPriceStorage.t) (ticker : string)
    (w w' : World) (r : outcome DataFrame) :
  TickerPriceStorage.read self ticker w = (r, w') →
  ∃ rest,
    trace w' = trace w
      ++ [info_log ticker; EvGet (info_request (TickerPriceStorage.tiingo self) ticker)]
      ++ rest
    ∧ (rest = []
       ∨ (∃ resp, rest = [info_error_log ticker resp] ∧ r = Raise ErrorTickerNotFound)
       ∨ (∃ d1 d2 e,
            rest = [prices_log ticker d1 d2;
                    EvGet (prices_request (TickerPriceStorage.tiingo self) ticker d1 d2)]
            ∧ r = Raise e)
       ∨ (∃ d1 d2 prices table,
            rest = [prices_log ticker d1 d2;
                    EvGet (prices_request (TickerPriceStorage.tiingo self) ticker d1 d2);
                    EvWrite (TickerPriceStorage.filepath self ticker)]
            ∧ to_arrow (pd_DataFrame prices) = inl table
            ∧ r = Return table)).
Proof. apply read_trace_cases. Qed.

Lemma read_events_witness :
  ∃ rest,
    trace qqq_once = trace (stored_world qqq_provider [])
      ++ [info_log "QQQ"; EvGet (info_request client "QQQ")] ++ rest
    ∧ (rest = []
       ∨ (∃ resp, rest = [info_error_log "QQQ" resp]
                  ∧ Return qqq_table = Raise ErrorTickerNotFound)
       ∨ (∃ d1 d2 e,
            rest = [prices_log "QQQ" d1 d2; EvGet (prices_request client "QQQ" d1 d2)]
            ∧ Return qqq_table = Raise e)
       ∨ (∃ d1 d2 prices table,
            rest = [prices_log "QQQ" d1 d2; EvGet (prices_request client "QQQ" d1 d2);
                    EvWrite [".prices"; "QQQ.parquet"]]
            ∧ to_arrow (pd_DataFrame prices) = inl table
            ∧ Return qqq_table = Return table)).
Proof.
  apply (read_events storage "QQQ" (stored_world qqq_provider []) qqq_once
           (Return qqq_table)).
  vm_compute. reflexivity.
Defined.

(** X16. Whatever its outcome, [read] leaves every path other than the
    ticker's cache path as it was: no other file is written, changed or
    removed, and no directory is made.  The provider is not changed either. *)
Theorem read_touches_only_its_file {library : Arrow} (self : TickerPriceStorage.t)
    (ticker : string)
    (w w' : World) (r : outcome DataFrame) :
  TickerPriceStorage.read self ticker w = (r, w') →
  (∀ q, q ≠ TickerPriceStorage.filepath self ticker → fs w' !! q = fs w !! q)
  ∧ net w' = net w.
Proof.
  intros H. destruct r as [df|e].
  - destruct (read_Return_inv self ticker w df w' H)
      as (info & Hinfo & [[_ ->] | (prices & w2 & _ & Hp & _ & _ & _ & ->)]).
    + done.
    + destruct (get_ticker_prices_run _ _ _ _ _ _ _ Hp) as (Hfs & Hnet & _).
      split; [|done]. intros q Hq. simpl. rewrite lookup_insert_ne; [|done].
      by rewrite Hfs.
  - destruct (read_Raise_frame self ticker w e w' H) as [Hfs Hnet _ _].
    split; [|done]. intros q _. by rewrite Hfs.
Qed.

Lemma read_touches_only_its_file_witness :
  (∀ q, q ≠ [".prices"; "QQQ.parquet"] →
        fs qqq_once !! q = fs (stored_world qqq_provider []) !! q)
  ∧ net qqq_once = net (stored_world qqq_provider []).
Proof.
  apply (read_touches_only_its_file storage "QQQ" (stored_world qqq_provider [])
           qqq_once (Return qqq_table)).
  vm_compute. reflexivity.
Defined.

(** X17. When [read] returns a table, the cache file of the ticker holds
    exactly that table, on the hit path and on the miss path alike: what the
    caller gets is what the next call will find on the disk. *)
Theorem read_returns_what_is_stored {library : Arrow} (self : TickerPriceStorage.t)
    (ticker : string)
    (w w' : World) (df : DataFrame) :
  TickerPriceStorage.read self ticker w = (Return df, w') →
  node w' (TickerPriceStorage.filepath self ticker) = Some (File (Parquet df))
  ∧ read_parquet (TickerPriceStorage.filepath self ticker) w' = (Return df, w').
Proof.
  intros H.
  assert (Hnode : node w' (TickerPriceStorage.filepath self ticker)
                  = Some (File (Parquet df))).
  { destruct (read_Return_inv self ticker w df w' H)
      as (info & Hinfo & [[Hc ->] | (prices & w2 & _ & _ & _ & Hnd & _ & ->)]).
    - by apply cached_table_Some in Hc as [Hnode _].
    - rewrite happened_node. by apply node_insert_eq. }
  split; [done|]. unfold read_parquet. by rewrite Hnode.
Qed.

Lemma read_returns_what_is_stored_witness :
  node qqq_once [".prices"; "QQQ.parquet"] = Some (File (Parquet qqq_table))
  ∧ read_parquet [".prices"; "QQQ.parquet"] qqq_once = (Return qqq_table, qqq_once).
Proof.
  apply (read_returns_what_is_stored storage "QQQ" (stored_world qqq_provider [])).
  vm_compute. reflexivity.
Defined.

(** X18. A cache file that is not parquet is never repaired.  When the
    metadata call returns, [read] finds the file, fails to load it and raises
    the loader's error: it does not fall back to the provider, sends no price
    request, and leaves the file as it is, so that every later [read] of the
    ticker meets the same file. *)
Theorem read_corrupt_cache {library : Arrow} (self : TickerPriceStorage.t)
    (ticker : string)
    (w w1 : World) (info : TickerInfo.t) (bytes : string) :
  node w (TickerPriceStorage.filepath self ticker) = Some (File (Garbage bytes)) →
  TiingoClient.get_ticker_info (TickerPriceStorage.tiingo self) ticker w
    = (Return info, w1) →
  TickerPriceStorage.read self ticker w
  = (Raise (mkException (S (last_obj w)) "ArrowInvalid"
              ["Parquet magic bytes not found in footer"]),
     set_last_obj (S (last_obj w))
       (happened [info_log ticker;
                  EvGet (info_request (TickerPriceStorage.tiingo self) ticker)] w))
  ∧ node (set_last_obj (S (last_obj w))
            (happened [info_log ticker;
                       EvGet (info_request (TickerPriceStorage.tiingo self) ticker)] w))
      (TickerPriceStorage.filepath self ticker) = Some (File (Garbage bytes)).
Proof.
  intros Hnode Hinfo.
  destruct (get_ticker_info_Return _ _ _ _ _ Hinfo) as [-> _].
  split; [|done].
  apply (read_check_raises self ticker w info _ _ _ Hinfo).
  unfold TickerPriceStorage.cached_table, os_path_exists, read_parquet.
  unfold mbind, Py_bind. rewrite happened_node, Hnode. simpl.
  by rewrite happened_node, Hnode.
Qed.

Lemma read_corrupt_cache_witness :
  TickerPriceStorage.read storage "QQQ"
    (stored_world qqq_provider [("QQQ.parquet", Garbage "PK")])
  = (Raise (mkException 1 "ArrowInvalid" ["Parquet magic bytes not found in footer"]),
     set_last_obj 1
       (happened [info_log "QQQ"; EvGet (info_request client "QQQ")]
          (stored_world qqq_provider [("QQQ.parquet", Garbage "PK")]))).
Proof.
  refine (proj1 (read_corrupt_cache storage "QQQ"
                   (stored_world qqq_provider [("QQQ.parquet", Garbage "PK")])
                   (happened (info_events client "QQQ")
                      (stored_world qqq_provider [("QQQ.parquet", Garbage "PK")]))
                   (TickerInfo.mk (PStr "QQQ") (PStr "Invesco QQQ Trust")
                      (PStr "NASDAQ") (PStr "An index fund") (jan 1) (jan 3))
                   "PK" _ _));
    reflexivity.
Defined.

(** X19. [read] does not make the storage directory.  When there is no
    cache file and the parent of the cache path is not a directory of the
    disk, a miss still requests the prices, and when they have come and their
    frame has been converted the write fails: pandas does not save into a
    directory that is not there, the call raises OSError with the name of that
    directory, the prices are lost and the disk is as it was. *)
Theorem read_without_directory {library : Arrow} (self : TickerPriceStorage.t)
    (ticker : string) (w w1 w2 : World) (info : TickerInfo.t)
    (prices : list TickerPrice.t) (table : DataFrame) :
  TiingoClient.get_ticker_info (TickerPriceStorage.tiingo self) ticker w
    = (Return info, w1) →
  node w (TickerPriceStorage.filepath self ticker) = None →
  node w (parent (TickerPriceStorage.filepath self ticker)) ≠ Some Dir →
  TiingoClient.get_ticker_prices (TickerPriceStorage.tiingo self) ticker
    (TickerInfo.startDate info) (TickerInfo.endDate info) w1 = (Return prices, w2) →
  to_arrow (pd_DataFrame prices) = inl table →
  TickerPriceStorage.read self ticker w
  = (Raise (mkException (S (last_obj w)) "OSError"
              ["Cannot save file into a non-existent directory: '"
               +:+ path_str (parent (TickerPriceStorage.filepath self ticker))
               +:+ "'"]),
     set_last_obj (S (last_obj w)) w2)
  ∧ fs w2 = fs w
  ∧ trace w2 = trace w
      ++ info_events (TickerPriceStorage.tiingo self) ticker
      ++ prices_events (TickerPriceStorage.tiingo self) ticker
           (TickerInfo.startDate info) (TickerInfo.endDate info).
Proof.
  intros Hinfo Hnode Hparent Hp Hconv.
  destruct (get_ticker_info_Return _ _ _ _ _ Hinfo) as [-> _].
  destruct (get_ticker_prices_Return _ _ _ _ _ _ _ Hp) as [-> _].
  split; [|split; [done | simpl; by rewrite <- app_assoc]].
  unfold TickerPriceStorage.read.
  rewrite (bind_Return _ _ _ _ _ Hinfo).
  rewrite (bind_Return _ _ _ None
             (happened (info_events (TickerPriceStorage.tiingo self) ticker) w));
    [|by apply cached_table_absent].
  rewrite (bind_Return _ _ _ _ _ Hp).
  apply bind_Raise. unfold to_parquet.
  rewrite Hconv, !happened_node, Hnode.
  by destruct (node w (parent (TickerPriceStorage.filepath self ticker))) as [[|d]|].
Qed.

Lemma read_without_directory_witness :
  TickerPriceStorage.read storage "QQQ" (fresh_world qqq_provider)
  = (Raise (mkException 1 "OSError"
              ["Cannot save file into a non-existent directory: '.prices'"]),
     set_last_obj 1
       (happened (prices_events client "QQQ" (jan 1) (jan 3))
          (happened (info_events client "QQQ") (fresh_world qqq_provider)))).
Proof.
  refine (proj1 (read_without_directory storage "QQQ" (fresh_world qqq_provider)
                   (happened (info_events client "QQQ") (fresh_world qqq_provider))
                   (happened (prices_events client "QQQ" (jan 1) (jan 3))
                      (happened (info_events client "QQQ") (fresh_world qqq_provider)))
                   (TickerInfo.mk (PStr "QQQ") (PStr "Invesco QQQ Trust")
                      (PStr "NASDAQ") (PStr "An index fund") (jan 1) (jan 3))
                   [price_on (jan 2); price_on (jan 3)] qqq_table _ _ _ _ _));
    first [reflexivity | discriminate].
Defined.

(** *** The cache path of a ticker *)

Lemma split_on_no_sep sep s :
  sep ∉ list_ascii_of_string s → split_on sep s = [s].
Proof.
  induction s as [|a s IH]; simpl; intros Hs; [done|].
  apply not_elem_of_cons in Hs as [Hne Hs].
  destruct (Ascii.eqb_spec a sep) as [->|_]; [done|]. by rewrite IH.
Qed.

Lemma list_ascii_of_string_app s1 s2 :
  list_ascii_of_string (s1 +:+ s2) = list_ascii_of_string s1 ++ list_ascii_of_string s2.
Proof. induction s1 as [|a s1 IH]; simpl; [done|]. by rewrite IH. Qed.

Lemma string_app_inj_l s1 s2 s : s1 +:+ s = s2 +:+ s → s1 = s2.
Proof.
  intros H. apply (f_equal list_ascii_of_string) in H.
  rewrite !list_ascii_of_string_app in H. apply app_inv_tail in H.
  apply (f_equal string_of_list_ascii) in H.
  by rewrite !string_of_list_ascii_of_string in H.
Qed.

Lemma parquet_name_parts ticker :
  slash_free ticker →
  is_absolute (ticker +:+ ".parquet") = false
  ∧ path_parts (ticker +:+ ".parquet") = [ticker +:+ ".parquet"].
Proof.
  intros Hs. split.
  - destruct ticker as [|a t]; [done|]. simpl.
    apply not_elem_of_cons in Hs as [Hne _].
    by destruct (Ascii.eqb_spec a "/").
  - unfold path_parts. rewrite split_on_no_sep.
    + rewrite filter_cons_True, filter_nil; [done|].
      assert (Hlen : (8 ≤ length (list_ascii_of_string (ticker +:+ ".parquet")))%nat).
      { rewrite list_ascii_of_string_app, length_app. simpl. lia. }
      split; intros Heq; rewrite Heq in Hlen; simpl in Hlen; lia.
    + rewrite list_ascii_of_string_app. intros [H|H]%elem_of_app; [done|].
      simpl in H. by repeat (apply elem_of_cons in H as [H|H]; [done|]);
        apply elem_of_nil in H.
Qed.

Lemma filepath_plain self ticker :
  slash_free ticker →
  TickerPriceStorage.filepath self ticker
  = TickerPriceStorage.path self ++ [ticker +:+ ".parquet"].
Proof.
  intros Hs. destruct (parquet_name_parts ticker Hs) as [Habs Hparts].
  unfold TickerPriceStorage.filepath, path_join. by rewrite Habs, Hparts.
Qed.

(** X20. The cache file of a ticker that has no "/" in it is the file named
    by the ticker followed by ".parquet", directly in the storage directory;
    two such tickers that differ, in case only even, never share a cache
    file. *)
Theorem filepath_slash_free (self : TickerPriceStorage.t) (t1 t2 : string) :
  slash_free t1 →
  slash_free t2 →
  TickerPriceStorage.filepath self t1
    = TickerPriceStorage.path self ++ [t1 +:+ ".parquet"]
  ∧ parent (TickerPriceStorage.filepath self t1) = TickerPriceStorage.path self
  ∧ (TickerPriceStorage.filepath self t1 = TickerPriceStorage.filepath self t2
     → t1 = t2).
Proof.
  intros H1 H2. rewrite !filepath_plain by done.
  split; [done|]. split.
  - unfold parent. apply removelast_last.
  - intros Heq. apply app_inv_head in Heq. injection Heq as Heq.
    by eapply string_app_inj_l.
Qed.

Lemma filepath_slash_free_witness :
  TickerPriceStorage.filepath storage "BRK-B" = [".prices"] ++ ["BRK-B.parquet"]
  ∧ parent (TickerPriceStorage.filepath storage "BRK-B") = [".prices"]
  ∧ (TickerPriceStorage.filepath storage "BRK-B"
       = TickerPriceStorage.filepath storage "brk-b" → "BRK-B" = "brk-b").
Proof.
  apply (filepath_slash_free storage "BRK-B" "brk-b"); unfold slash_free;
    vm_compute; intros H;
    repeat (apply elem_of_cons in H as [H|H]; [discriminate H|]);
    by apply elem_of_nil in H.
Defined.

(** X21. Constructor and [read] together.  After the constructor has
    returned, a [read] of a ticker with no "/" that has no cache file yet
    returns the table of the provider's prices and stores it, whenever the two
    calls to the provider return and the frame of the prices can be converted:
    the directory that the write needs is the one the constructor has made. *)
Theorem init_then_read {library : Arrow} (c : TiingoClient.t) (path ticker : string)
    (w w0 w1 w2 : World) (s : TickerPriceStorage.t) (info : TickerInfo.t)
    (prices : list TickerPrice.t) (table : DataFrame) :
  TickerPriceStorage.__init__ c path w = (Return s, w0) →
  slash_free ticker →
  node w0 (TickerPriceStorage.filepath s ticker) = None →
  TiingoClient.get_ticker_info c ticker w0 = (Return info, w1) →
  TiingoClient.get_ticker_prices c ticker
    (TickerInfo.startDate info) (TickerInfo.endDate info) w1 = (Return prices, w2) →
  to_arrow (pd_DataFrame prices) = inl table →
  ∃ w3,
    TickerPriceStorage.read s ticker w0 = (Return table, w3)
    ∧ fs w3 = <[pathlib_Path path ++ [ticker +:+ ".parquet"] :=
                  File (Parquet table)]> (fs w0).
Proof.
  intros Hinit Hs Hnone Hinfo Hp Hconv.
  apply storage_init_inv in Hinit as [[[= ->] Hmk] | (e & ? & _)]; [|done].
  set (s := TickerPriceStorage.mk c (pathlib_Path path)) in *.
  assert (Hdir : node w0 (parent (TickerPriceStorage.filepath s ticker)) = Some Dir).
  { rewrite (filepath_plain s ticker Hs). unfold parent. rewrite removelast_last.
    simpl. destruct (pathlib_Path path) as [|x l] eqn:Hpath; [done|].
    rewrite <- (take_ge (x :: l) (length (x :: l))) by lia.
    apply (mkdir_from_Return _ [] w w0 Hmk). simpl. lia. }
  destruct (read_refetch s ticker w0 w1 w2 info prices table
              Hinfo (or_introl Hnone) Hp Hconv Hdir)
    as (w3 & Hread & Hfs & _).
  exists w3. split; [done|]. by rewrite Hfs, (filepath_plain s ticker Hs).
Qed.

Lemma init_then_read_witness :
  ∃ w3,
    TickerPriceStorage.read storage "QQQ"
      (happened [EvMkdir [".prices"]]
         (set_fs (insert [".prices"] Dir) (fresh_world qqq_provider)))
    = (Return qqq_table, w3)
    ∧ fs w3 = <[pathlib_Path ".prices" ++ ["QQQ" +:+ ".parquet"] :=
                  File (Parquet qqq_table)]>
               (fs (happened [EvMkdir [".prices"]]
                      (set_fs (insert [".prices"] Dir) (fresh_world qqq_provider)))).
Proof.
  refine (init_then_read client ".prices" "QQQ" (fresh_world qqq_provider)
            (happened [EvMkdir [".prices"]]
               (set_fs (insert [".prices"] Dir) (fresh_world qqq_provider)))
            (happened (info_events client "QQQ")
               (happened [EvMkdir [".prices"]]
                  (set_fs (insert [".prices"] Dir) (fresh_world qqq_provider))))
            (happened (prices_events client "QQQ" (jan 1) (jan 3))
               (happened (info_events client "QQQ")
                  (happened [EvMkdir [".prices"]]
                     (set_fs (insert [".prices"] Dir) (fresh_world qqq_provider)))))
            storage
            (TickerInfo.mk (PStr "QQQ") (PStr "Invesco QQQ Trust")
               (PStr "NASDAQ") (PStr "An index fund") (jan 1) (jan 3))
            [price_on (jan 2); price_on (jan 3)] qqq_table _ _ _ _ _ _).
  - reflexivity.
  - unfold slash_free. vm_compute. intros H.
    repeat (apply elem_of_cons in H as [H|H]; [discriminate H|]).
    by apply elem_of_nil in H.
  - reflexivity.
  - reflexivity.
  - reflexivity.
  - reflexivity.
Defined.

(** ** The script *)

(** X22. The script, run with an environment.  Without TIINGO_API_KEY it
    raises KeyError before anything is done: no directory is made and no
    request is sent.  With a key, every request it sends carries that key as
    its token and goes to one of the two endpoints of QQQ, the only directory
    it can make is [.prices] and the only file it can write is
    [.prices/QQQ.parquet]. *)
Theorem main_effects {library : Arrow} (environ : gmap string string) (w : World) :
  (environ !! "TIINGO_API_KEY" = None →
     main environ w = raise_new "KeyError" ["TIINGO_API_KEY"] w)
  ∧ (∀ key r w',
       environ !! "TIINGO_API_KEY" = Some key →
       main environ w = (r, w') →
       ∃ evs,
         trace w' = trace w ++ evs
         ∧ Forall (λ ev,
             match ev with
             | EvGet req =>
                 headers req = [("Content-Type", "application/json");
                                ("Authorization", "Token " +:+ key)]
                 ∧ (url req = "https://api.tiingo.com/tiingo/daily/QQQ"
                    ∨ url req = "https://api.tiingo.com/tiingo/daily/QQQ/prices")
             | EvWrite q => q = [".prices"; "QQQ.parquet"]
             | EvMkdir q => q = [".prices"]
             | EvLog _ _ => True
             end) evs).
Proof.
  split.
  - intros Hkey. unfold main. by rewrite Hkey.
  - intros key r w' Hkey H. unfold main in H. rewrite Hkey in H.
    rewrite (bind_Return _ _ w key w) in H; [|done].
    apply bind_inv in H as [(s & w0 & Hinit & H) | (e & Hinit & ->)].
    + apply storage_init_inv in Hinit as [[[= ->] Hmk] | (e & ? & _)]; [|done].
      assert (Hmk' : ∃ mk, trace w0 = trace w ++ mk
                           ∧ (mk = [] ∨ mk = [EvMkdir [".prices"]])).
      { change (pathlib_Path ".prices") with [".prices"] in Hmk. simpl in Hmk.
        apply bind_inv in Hmk as [([] & w1 & H1 & H2) | (e & _ & ?)]; [|done].
        inversion H2; subst. unfold mkdir_one in H1.
        destruct (node w [".prices"]) as [[|d]|]; inversion H1; subst.
        - exists []. split; [by rewrite app_nil_r | by left].
        - exists [EvMkdir [".prices"]]. split; [done | by right]. }
      destruct Hmk' as (mk & Ht0 & Hmk').
      apply read_trace_cases in H as (rest & Ht & Hrest).
      exists (mk ++ [info_log "QQQ";
                     EvGet (info_request (TiingoClient.__init__ key) "QQQ")] ++ rest).
      split; [by rewrite Ht, Ht0, <- !app_assoc|].
      apply Forall_app. split.
      { destruct Hmk' as [-> | ->]; by repeat constructor. }
      apply Forall_app. split.
      { by repeat constructor. }
      destruct Hrest as [-> | [(resp & -> & _) | [(d1 & d2 & e & -> & _)
                                                  | (d1 & d2 & prices & table & -> & _)]]];
        repeat (apply Forall_cons; split); try apply Forall_nil; simpl; try done;
        (split; [done | by right]).
    + apply storage_init_inv in Hinit as [[? _] | (e' & _ & Hmk)]; [done|].
      change (pathlib_Path ".prices") with [".prices"] in Hmk. simpl in Hmk.
      apply bind_inv in Hmk as [([] & w1 & H1 & H2) | (e'' & H1 & _)]; [done|].
      unfold mkdir_one in H1.
      destruct (node w [".prices"]) as [[|d]|]; inversion H1; subst.
      exists []. split; [by rewrite app_nil_r | constructor].
Qed.

Lemma main_effects_witness :
  main ∅ (fresh_world qqq_provider)
  = raise_new "KeyError" ["TIINGO_API_KEY"] (fresh_world qqq_provider)
  ∧ ∃ evs,
      trace (snd (main {["TIINGO_API_KEY" := "KEY"]} (fresh_world qqq_provider)))
      = trace (fresh_world qqq_provider) ++ evs
      ∧ Forall (λ ev,
          match ev with
          | EvGet req =>
              headers req = [("Content-Type", "application/json");
                             ("Authorization", "Token " +:+ "KEY")]
              ∧ (url req = "https://api.tiingo.com/tiingo/daily/QQQ"
                 ∨ url req = "https://api.tiingo.com/tiingo/daily/QQQ/prices")
          | EvWrite q => q = [".prices"; "QQQ.parquet"]
          | EvMkdir q => q = [".prices"]
          | EvLog _ _ => True
          end) evs.
Proof.
  split.
  - apply (proj1 (main_effects ∅ (fresh_world qqq_provider))). reflexivity.
  - apply (proj2 (main_effects {["TIINGO_API_KEY" := "KEY"]} (fresh_world qqq_provider))
             "KEY"
             (fst (main {["TIINGO_API_KEY" := "KEY"]} (fresh_world qqq_provider)))).
    + reflexivity.
    + by destruct (main {["TIINGO_API_KEY" := "KEY"]} (fresh_world qqq_provider)).
Defined.

Example main_qqq :
  fst (main {["TIINGO_API_KEY" := "KEY"]} (fresh_world qqq_provider))
  = Return (pd_DataFrame [price_on (jan 2); price_on (jan 3)]).
Proof. vm_compute. reflexivity. Qed.

(** ** Dates between the two endpoints *)

Lemma pads_back_range width n bound :
  forallb (pads_back width) (seqZ 0 bound) = true →
  0 ≤ n < bound →
  ∃ l, list_ascii_of_string (Datetime.zero_pad width n) = l
       ∧ length l = width ∧ Datetime.number l = Some n.
Proof.
  intros Hall Hn. rewrite forallb_forall in Hall.
  assert (Hin : In n (seqZ 0 bound)).
  { apply list_elem_of_In, elem_of_seqZ. lia. }
  apply Hall in Hin. unfold pads_back in Hin.
  apply andb_true_iff in Hin as [Hlen Hnum].
  apply bool_decide_eq_true in Hlen, Hnum. eauto.
Qed.

Lemma pads_back_4 n :
  0 ≤ n < 10000 →
  ∃ a b c d, list_ascii_of_string (Datetime.zero_pad 4 n) = [a; b; c; d]
             ∧ Datetime.number [a; b; c; d] = Some n.
Proof.
  intros Hn.
  destruct (pads_back_range 4 n 10000) as (l & Hl & Hlen & Hnum);
    [vm_compute; reflexivity | done |].
  destruct l as [|a [|b [|c [|d [|]]]]]; try done. by exists a, b, c, d.
Qed.

Lemma pads_back_2 n :
  0 ≤ n < 100 →
  ∃ a b, list_ascii_of_string (Datetime.zero_pad 2 n) = [a; b]
         ∧ Datetime.number [a; b] = Some n.
Proof.
  intros Hn.
  destruct (pads_back_range 2 n 100) as (l & Hl & Hlen & Hnum);
    [vm_compute; reflexivity | done |].
  destruct l as [|a [|b [|]]]; try done. by exists a, b.
Qed.

Lemma days_in_month_le y m : Datetime.days_in_month y m ≤ 31.
Proof. unfold Datetime.days_in_month. repeat case_match; lia. Qed.

Lemma digit_not_W a v : Datetime.digit a = Some v → Datetime.is_char "W" a = false.
Proof.
  intros H. unfold Datetime.is_char. apply bool_decide_eq_false. intros [= ->].
  by vm_compute in H.
Qed.

Lemma number_head a l v :
  Datetime.number (a :: l) = Some v → ∃ d, Datetime.digit a = Some d.
Proof.
  unfold Datetime.number. simpl.
  destruct (Datetime.digit a) as [d|]; [by exists d | done].
Qed.

(** The parser on a text of the form YYYY-MM-DD. *)
Lemma parse_calendar_date a b c e m1 m2 d1 d2 y m d len :
  Datetime.number [a; b; c; e] = Some y →
  Datetime.number [m1; m2] = Some m →
  Datetime.number [d1; d2] = Some d →
  Datetime.parse_isoformat_date [a; b; c; e; "-"%char; m1; m2; "-"%char; d1; d2] len
  = Some (y, m, d).
Proof.
  intros Hy Hm Hd.
  destruct (number_head _ _ _ Hm) as [v Hv].
  pose proof (digit_not_W _ _ Hv) as HW.
  unfold Datetime.parse_isoformat_date, Datetime.parse_digits, Datetime.skip_dash.
  change (map _ (seq 0 4)) with [a; b; c; e].
  change (Datetime.number_from 0 [a; b; c; e]) with (Datetime.number [a; b; c; e]).
  rewrite Hy. cbn [mbind option_bind Nat.add].
  change (Datetime.byte _ 4) with "-"%char.
  change (Datetime.is_char "-" "-") with true. cbv iota.
  change (Datetime.byte _ 5) with m1. rewrite HW.
  change (map _ (seq 5 2)) with [m1; m2].
  change (Datetime.number_from 0 [m1; m2]) with (Datetime.number [m1; m2]).
  rewrite Hm. cbn [mbind option_bind Nat.add].
  change (Datetime.byte _ 7) with "-"%char.
  change (Datetime.is_char "-" "-") with true. cbv iota. cbn [mbind option_bind].
  change (map _ (seq 8 2)) with [d1; d2].
  change (Datetime.number_from 0 [d1; d2]) with (Datetime.number [d1; d2]).
  by rewrite Hd.
Qed.

(** A valid date, written by [isoformat], is read back by [fromisoformat]. *)
Lemma date_iso_round_trip d :
  Datetime.valid (Datetime.year d) (Datetime.month d) (Datetime.day d) = true →
  Datetime.date_fromisoformat (Datetime.isoformat d) = Some d.
Proof.
  destruct d as [y m dd]. simpl. intros Hv.
  assert (Hr : 1 ≤ y ≤ 9999 ∧ 1 ≤ m ≤ 12 ∧ 1 ≤ dd ≤ 31).
  { unfold Datetime.valid in Hv. pose proof (days_in_month_le y m).
    repeat (apply andb_true_iff in Hv as [Hv ?]). lia. }
  destruct (pads_back_4 y) as (a & b & c & e & Hy & Hny); [lia|].
  destruct (pads_back_2 m) as (m1 & m2 & Hm & Hnm); [lia|].
  destruct (pads_back_2 dd) as (d1 & d2 & Hd & Hnd); [lia|].
  unfold Datetime.date_fromisoformat, Datetime.isoformat.
  cbn [Datetime.year Datetime.month Datetime.day].
  rewrite !list_ascii_of_string_app, Hy, Hm, Hd.
  cbn [list_ascii_of_string app length].
  rewrite bool_decide_eq_true_2 by (right; by right).
  rewrite (parse_calendar_date a b c e m1 m2 d1 d2 y m dd) by done.
  cbn [mbind option_bind]. by rewrite Hv.
Qed.

Lemma date_fromisoformat_valid s d :
  Datetime.date_fromisoformat s = Some d →
  Datetime.valid (Datetime.year d) (Datetime.month d) (Datetime.day d) = true.
Proof.
  unfold Datetime.date_fromisoformat. case_bool_decide; [|done].
  destruct (Datetime.parse_isoformat_date _ _) as [[[y m] dd]|]; [|done]. simpl.
  destruct (Datetime.valid y m dd) eqn:Hv; [|done]. by intros [= <-].
Qed.

Lemma py_date_fromisoformat_Return v w d w' :
  py_date_fromisoformat v w = (Return d, w') →
  Datetime.valid (Datetime.year d) (Datetime.month d) (Datetime.day d) = true.
Proof.
  unfold py_date_fromisoformat. destruct v; try done.
  unfold or_raise.
  destruct (Datetime.date_fromisoformat s) as [d'|] eqn:Hp; [|done].
  intros [= <- _]. by eapply date_fromisoformat_valid.
Qed.

(** The dates of a [TickerInfo] that [get_ticker_info] returns are dates of
    the calendar. *)
Lemma ticker_info_of_dates r w info w' :
  TiingoClient.ticker_info_of r w = (Return info, w') →
  Datetime.valid (Datetime.year (TickerInfo.startDate info))
    (Datetime.month (TickerInfo.startDate info))
    (Datetime.day (TickerInfo.startDate info)) = true
  ∧ Datetime.valid (Datetime.year (TickerInfo.endDate info))
      (Datetime.month (TickerInfo.endDate info))
      (Datetime.day (TickerInfo.endDate info)) = true.
Proof.
  unfold TiingoClient.ticker_info_of. intros H.
  do 4 (apply bind_inv in H as [(? & ? & _ & H) | (? & _ & ?)]; [|done]).
  apply bind_inv in H as [(d1 & ? & H1 & H) | (? & _ & ?)]; [|done].
  apply bind_inv in H as [(d2 & ? & H2 & H) | (? & _ & ?)]; [|done].
  inversion H; subst. simpl.
  apply bind_inv in H1 as [(? & ? & _ & H1) | (? & _ & ?)]; [|done].
  apply bind_inv in H2 as [(? & ? & _ & H2) | (? & _ & ?)]; [|done].
  split; by eapply py_date_fromisoformat_Return.
Qed.

(** X23. The two endpoints agree on dates.  For the [TickerInfo] that
    [get_ticker_info] returns, the startDate and endDate parameters that
    [get_ticker_prices] puts in its request are texts that
    [date.fromisoformat] reads back as the startDate and the endDate of that
    [TickerInfo]: the range asked of the price endpoint is the range the
    metadata endpoint reported. *)
Theorem price_request_dates_round_trip (c : TiingoClient.t) (ticker : string)
    (w w1 : World) (info : TickerInfo.t) :
  TiingoClient.get_ticker_info c ticker w = (Return info, w1) →
  ∃ s1 s2,
    params (prices_request c ticker (TickerInfo.startDate info)
              (TickerInfo.endDate info))
    = [("startDate", s1); ("endDate", s2); ("resampleFreq", "daily")]
    ∧ Datetime.date_fromisoformat s1 = Some (TickerInfo.startDate info)
    ∧ Datetime.date_fromisoformat s2 = Some (TickerInfo.endDate info).
Proof.
  intros H.
  destruct (get_ticker_info_Return _ _ _ _ _ H) as (_ & r & _ & _ & Hr).
  destruct (ticker_info_of_dates r w info w (Hr w)) as [Hs He].
  exists (Datetime.isoformat (TickerInfo.startDate info)),
         (Datetime.isoformat (TickerInfo.endDate info)).
  split; [done|]. split; by apply date_iso_round_trip.
Qed.

Lemma price_request_dates_round_trip_witness :
  ∃ s1 s2,
    params (prices_request client "QQQ" (jan 1) (jan 3))
    = [("startDate", s1); ("endDate", s2); ("resampleFreq", "daily")]
    ∧ Datetime.date_fromisoformat s1 = Some (jan 1)
    ∧ Datetime.date_fromisoformat s2 = Some (jan 3).
Proof.
  apply (price_request_dates_round_trip client "QQQ" (fresh_world qqq_provider)
           (happened (info_events client "QQQ") (fresh_world qqq_provider))
           (TickerInfo.mk (PStr "QQQ") (PStr "Invesco QQQ Trust")
              (PStr "NASDAQ") (PStr "An index fund") (jan 1) (jan 3))).
  reflexivity.
Defined.

(** ** The rows of the table that [read] returns *)

Lemma date_ltb_spec a b :
  Datetime.ltb a b = true
  ↔ Datetime.year a < Datetime.year b
    ∨ Datetime.year a = Datetime.year b
      ∧ (Datetime.month a < Datetime.month b
         ∨ Datetime.month a = Datetime.month b ∧ Datetime.day a < Datetime.day b).
Proof.
  unfold Datetime.ltb.
  rewrite orb_true_iff, andb_true_iff, orb_true_iff, andb_true_iff.
  rewrite !Z.ltb_lt, !Z.eqb_eq. tauto.
Qed.

Lemma date_ltb_false a b :
  Datetime.ltb a b = false
  ↔ ¬ (Datetime.year a < Datetime.year b
       ∨ Datetime.year a = Datetime.year b
         ∧ (Datetime.month a < Datetime.month b
            ∨ Datetime.month a = Datetime.month b ∧ Datetime.day a < Datetime.day b)).
Proof.
  rewrite <- date_ltb_spec. destruct (Datetime.ltb a b); split; congruence.
Qed.

(** A minimum that is a date: every cell is a date, none earlier than it. *)
Lemma reduce_min_date l : ∀ best lo,
  reduce_min best l = Some (PDate lo) →
  Forall (λ cell, ∃ d, cell = PDate d ∧ Datetime.ltb d lo = false) (best :: l).
Proof.
  induction l as [|x l IH]; intros best lo H; simpl in H.
  - injection H as ->. constructor; [|constructor].
    exists lo. split; [done|]. apply date_ltb_false. lia.
  - apply bind_Some in H as (b & Hlt & H).
    apply IH in H. apply Forall_cons in H as [(d & Hd & Hlo) Hl].
    assert (Hboth : ∃ dx db, x = PDate dx ∧ best = PDate db
                             ∧ b = Datetime.ltb dx db).
    { destruct x, best; simpl in Hlt; try done;
        try (injection Hlt as <-; by destruct (_ <? _)%Z);
        try (injection Hlt as <-; by destruct (String.ltb _ _)).
      injection Hlt as <-. by eexists _, _. }
    destruct Hboth as (dx & db & -> & -> & ->).
    destruct (Datetime.ltb dx db) eqn:Hcmp; injection Hd as <-.
    + constructor; [|constructor; [|done]].
      * exists db. split; [done|]. apply date_ltb_false.
        apply date_ltb_spec in Hcmp. apply date_ltb_false in Hlo. lia.
      * by exists dx.
    + constructor; [|constructor; [|done]].
      * by exists db.
      * exists dx. split; [done|]. apply date_ltb_false.
        apply date_ltb_false in Hcmp, Hlo. lia.
Qed.

(** A maximum that is a date: every cell is a date, none later than it. *)
Lemma reduce_max_date l : ∀ best hi,
  reduce_max best l = Some (PDate hi) →
  Forall (λ cell, ∃ d, cell = PDate d ∧ Datetime.ltb hi d = false) (best :: l).
Proof.
  induction l as [|x l IH]; intros best hi H; simpl in H.
  - injection H as ->. constructor; [|constructor].
    exists hi. split; [done|]. apply date_ltb_false. lia.
  - apply bind_Some in H as (b & Hlt & H).
    apply IH in H. apply Forall_cons in H as [(d & Hd & Hhi) Hl].
    assert (Hboth : ∃ dx db, x = PDate dx ∧ best = PDate db
                             ∧ b = Datetime.ltb db dx).
    { destruct x, best; simpl in Hlt; try done;
        try (injection Hlt as <-; by destruct (_ <? _)%Z);
        try (injection Hlt as <-; by destruct (String.ltb _ _)).
      injection Hlt as <-. by eexists _, _. }
    destruct Hboth as (dx & db & -> & -> & ->).
    destruct (Datetime.ltb db dx) eqn:Hcmp; injection Hd as <-.
    + constructor; [|constructor; [|done]].
      * exists db. split; [done|]. apply date_ltb_false.
        apply date_ltb_spec in Hcmp. apply date_ltb_false in Hhi. lia.
      * by exists dx.
    + constructor; [|constructor; [|done]].
      * by exists db.
      * exists dx. split; [done|]. apply date_ltb_false.
        apply date_ltb_false in Hcmp, Hhi. lia.
Qed.

(** X24. A table served from the cache lies within the provider's range.
    When [read] returns without having requested prices, the table has a date
    column with at least one row, every cell of it is a date, and none is
    earlier than the startDate or later than the endDate of the metadata that
    the same call has fetched. *)
Theorem read_hit_rows_in_range {library : Arrow} (self : TickerPriceStorage.t)
    (ticker : string)
    (w w' : World) (df : DataFrame) :
  TickerPriceStorage.read self ticker w = (Return df, w') →
  trace w' = trace w ++ info_events (TickerPriceStorage.tiingo self) ticker →
  ∃ info col,
    TiingoClient.get_ticker_info (TickerPriceStorage.tiingo self) ticker w
      = (Return info, w')
    ∧ column df "date" = Some col
    ∧ col ≠ []
    ∧ Forall (λ cell, ∃ d, cell = PDate d
                ∧ Datetime.ltb d (TickerInfo.startDate info) = false
                ∧ Datetime.ltb (TickerInfo.endDate info) d = false) col.
Proof.
  intros H Htrace.
  destruct (read_Return_inv self ticker w df w' H)
    as (info & Hinfo & [[Hc ->] | (prices & w2 & _ & Hp & _ & _ & _ & ->)]).
  - exists info. apply cached_table_Some in Hc as [_ Hb].
    unfold date_bounds in Hb.
    apply bind_Some in Hb as (col & Hcol & Hb).
    apply bind_Some in Hb as (lo & Hlo & Hb).
    apply bind_Some in Hb as (hi & Hhi & [= -> ->]).
    exists col. split; [done|]. split; [done|].
    destruct col as [|x l]; [done|]. split; [done|].
    apply reduce_min_date in Hlo. apply reduce_max_date in Hhi.
    rewrite Forall_forall in Hlo, Hhi. apply Forall_forall. intros cell Hin.
    destruct (Hlo cell Hin) as (d & -> & Hd1).
    destruct (Hhi (PDate d) Hin) as (d' & [= <-] & Hd2).
    by exists d.
  - destruct (get_ticker_prices_run _ _ _ _ _ _ _ Hp) as (_ & _ & Ht).
    simpl in Htrace. rewrite Ht in Htrace. simpl in Htrace.
    rewrite <- !app_assoc in Htrace. apply app_inv_head in Htrace.
    apply (f_equal length) in Htrace. simpl in Htrace. lia.
Qed.

Lemma read_hit_rows_in_range_witness :
  ∃ info col,
    TiingoClient.get_ticker_info client "SPY"
      (stored_world
         (provider "SPY" (ok "(metadata)" (info_body "SPY" "2020-01-02" "2020-01-03"))
            not_found)
         [("SPY.parquet", Parquet qqq_table)])
    = (Return info,
       happened (info_events client "SPY")
         (stored_world
            (provider "SPY" (ok "(metadata)" (info_body "SPY" "2020-01-02" "2020-01-03"))
               not_found)
            [("SPY.parquet", Parquet qqq_table)]))
    ∧ column qqq_table "date" = Some col
    ∧ col ≠ []
    ∧ Forall (λ cell, ∃ d, cell = PDate d
                ∧ Datetime.ltb d (TickerInfo.startDate info) = false
                ∧ Datetime.ltb (TickerInfo.endDate info) d = false) col.
Proof.
  apply (read_hit_rows_in_range storage "SPY"
           (stored_world
              (provider "SPY" (ok "(metadata)" (info_body "SPY" "2020-01-02" "2020-01-03"))
                 not_found)
              [("SPY.parquet", Parquet qqq_table)])); reflexivity.
Defined.

(** X25. [read] does not sort, filter or complete what the provider sends.
    On a miss, when the body of the price answer is a JSON array, the table
    that [read] returns has one row per element of the array, in the order of
    the array: the date in the row at each position is the date of the record
    that [from_json] makes of the element at that position.  The other cells
    of a row are what pandas and Arrow make of the values of the record. *)
Theorem read_keeps_provider_order {library : Arrow} (self : TickerPriceStorage.t)
    (ticker : string) (w w1 w' : World) (info : TickerInfo.t) (r : Response)
    (l : list pyval) (df : DataFrame) :
  TiingoClient.get_ticker_info (TickerPriceStorage.tiingo self) ticker w
    = (Return info, w1) →
  (node w (TickerPriceStorage.filepath self ticker) = None
   ∨ ∃ df0 lo hi,
       node w (TickerPriceStorage.filepath self ticker) = Some (File (Parquet df0))
       ∧ date_bounds df0 = Some (lo, hi)
       ∧ (lo ≠ PDate (TickerInfo.startDate info)
          ∨ hi ≠ PDate (TickerInfo.endDate info))) →
  net w (prices_request (TickerPriceStorage.tiingo self) ticker
           (TickerInfo.startDate info) (TickerInfo.endDate info)) = Answer r →
  json_body r = Some (PList l) →
  TickerPriceStorage.read self ticker w = (Return df, w') →
  length (rows df) = length l
  ∧ ∀ i j, l !! i = Some j →
      ∃ p col, (∀ v, TickerPrice.from_json j v = (Return p, v))
               ∧ column df "date" = Some col
               ∧ col !! i = Some (PDate (TickerPrice.date p)).
Proof.
  intros Hinfo Hmiss Hnet Hbody H.
  destruct (get_ticker_info_Return _ _ _ _ _ Hinfo) as [-> _].
  destruct (cached_table_miss (TickerPriceStorage.filepath self ticker) info
              (happened (info_events (TickerPriceStorage.tiingo self) ticker) w))
    as [Hc _]; [done|].
  destruct (read_Return_inv self ticker w df w' H)
    as (info' & Hinfo' & Hpath).
  rewrite Hinfo in Hinfo'. injection Hinfo' as <-.
  destruct Hpath as [[Hc' _] | (prices & w2 & _ & Hp & Hconv & _)]; [congruence|].
  rewrite get_ticker_prices_eq in Hp.
  change (net (happened _ w)) with (net w) in Hp. rewrite Hnet in Hp.
  unfold TiingoClient.prices_of, response_json in Hp. rewrite Hbody in Hp.
  rewrite (bind_Return _ _ _ (PList l) _ eq_refl) in Hp.
  rewrite (bind_Return _ _ _ l _ eq_refl) in Hp.
  apply mapM_Return_Forall2 in Hp; [|apply pure_from_json].
  pose proof (Forall2_length _ _ _ Hp) as Hlen.
  split.
  - destruct prices as [|x q].
    + rewrite to_arrow_empty in Hconv. injection Hconv as <-. by rewrite Hlen.
    + destruct (stored_records (x :: q) df) as (_ & Hrows & _); [done | done |].
      by rewrite Hrows, Hlen.
  - intros i j Hi. destruct (Forall2_lookup_l _ _ _ _ _ Hp Hi) as (p & Hpi & Hj).
    exists p, (map (λ q, PDate (TickerPrice.date q)) prices).
    split; [done|]. split.
    + apply column_date_stored; [|done]. intros ->. by rewrite lookup_nil in Hpi.
    + by rewrite list_lookup_fmap, Hpi.
Qed.

Lemma read_keeps_provider_order_witness :
  length (rows (pd_DataFrame [price_on (jan 3); price_on (jan 2)]))
  = length [price_row "2020-01-03"; price_row "2020-01-02"]
  ∧ ∀ i j, [price_row "2020-01-03"; price_row "2020-01-02"] !! i = Some j →
      ∃ p col, (∀ v, TickerPrice.from_json j v = (Return p, v))
               ∧ column (pd_DataFrame [price_on (jan 3); price_on (jan 2)]) "date"
                 = Some col
               ∧ col !! i = Some (PDate (TickerPrice.date p)).
Proof.
  apply (read_keeps_provider_order storage "QQQ"
           (stored_world
              (provider "QQQ"
                 (ok "(metadata)" (info_body "QQQ" "2020-01-01" "2020-01-03"))
                 (ok "(prices)" (PList [price_row "2020-01-03";
                                        price_row "2020-01-02"])))
              [])
           (happened (info_events client "QQQ")
              (stored_world
                 (provider "QQQ"
                    (ok "(metadata)" (info_body "QQQ" "2020-01-01" "2020-01-03"))
                    (ok "(prices)" (PList [price_row "2020-01-03";
                                           price_row "2020-01-02"])))
                 []))
           (snd (TickerPriceStorage.read storage "QQQ"
                   (stored_world
                      (provider "QQQ"
                         (ok "(metadata)" (info_body "QQQ" "2020-01-01" "2020-01-03"))
                         (ok "(prices)" (PList [price_row "2020-01-03";
                                                price_row "2020-01-02"])))
                      [])))
           (TickerInfo.mk (PStr "QQQ") (PStr "Invesco QQQ Trust")
              (PStr "NASDAQ") (PStr "An index fund") (jan 1) (jan 3))
           (mkResponse 200 "(prices)"
              (Some (PList [price_row "2020-01-03"; price_row "2020-01-02"])))).
  - vm_compute. reflexivity.
  - left. reflexivity.
  - reflexivity.
  - reflexivity.
  - vm_compute. reflexivity.
Defined.

(** ** What pandas and Arrow make of the prices *)

(** X26. What [read] returns is typed, column by column.  When [read]
    returns on a miss, the table has, for every field, a column with one cell
    per record of the list that the price call returned.  A column of the
    records that holds floats only, 64-bit integers only or dates only comes
    back as it is.  A column that mixes 64-bit integers, floats and nulls
    comes back as floats: an integer as the nearest double, a null as NaN; so
    an integer above 2^53 can come back changed, and an integer column with
    one null comes back as floats. *)
Theorem read_types_the_columns {library : Arrow} (self : TickerPriceStorage.t)
    (ticker : string) (w w1 w2 w' : World) (info : TickerInfo.t)
    (prices : list TickerPrice.t) (df : DataFrame) :
  TiingoClient.get_ticker_info (TickerPriceStorage.tiingo self) ticker w
    = (Return info, w1) →
  (node w (TickerPriceStorage.filepath self ticker) = None
   ∨ ∃ df0 lo hi,
       node w (TickerPriceStorage.filepath self ticker) = Some (File (Parquet df0))
       ∧ date_bounds df0 = Some (lo, hi)
       ∧ (lo ≠ PDate (TickerInfo.startDate info)
          ∨ hi ≠ PDate (TickerInfo.endDate info))) →
  TiingoClient.get_ticker_prices (TickerPriceStorage.tiingo self) ticker
    (TickerInfo.startDate info) (TickerInfo.endDate info) w1 = (Return prices, w2) →
  prices ≠ [] →
  TickerPriceStorage.read self ticker w = (Return df, w') →
  columns df = TickerPrice.fields
  ∧ ∀ name col,
      column (records prices) name = Some col →
      ∃ col', column df name = Some col'
              ∧ length col' = length col
              ∧ (uniform col = true → col' = col)
              ∧ (float64_column col = true → col' = map as_float64 col).
Proof.
  intros Hinfo Hmiss Hprices Hne H.
  destruct (get_ticker_info_Return _ _ _ _ _ Hinfo) as [-> _].
  destruct (cached_table_miss (TickerPriceStorage.filepath self ticker) info
              (happened (info_events (TickerPriceStorage.tiingo self) ticker) w))
    as [Hc _]; [done|].
  destruct (read_Return_inv self ticker w df w' H) as (info' & Hinfo' & Hpath).
  rewrite Hinfo in Hinfo'. injection Hinfo' as <-.
  destruct Hpath as [[Hc' _] | (prices' & w2' & _ & Hp & Hconv & _)]; [congruence|].
  rewrite Hprices in Hp. injection Hp as <- _.
  destruct (stored_records prices df Hne Hconv) as (Hcols & _ & Hcol). done.
Qed.

Lemma read_types_the_columns_witness :
  column (pd_DataFrame [price_on (jan 2); untidy_price]) "open"
    = Some [PFloat 100.0; PFloat 9007199254740992.0]
  ∧ column (pd_DataFrame [price_on (jan 2); untidy_price]) "close"
    = Some [PFloat 100.5; PFloat 100.0]
  ∧ column (pd_DataFrame [price_on (jan 2); untidy_price]) "volume"
    = Some [PFloat 1000.0; PFloat nan]
  ∧ column (pd_DataFrame [price_on (jan 2); untidy_price]) "adjusted_volume"
    = Some [PInt 1000; PInt 1000].
Proof.
  destruct (read_types_the_columns storage "QQQ"
              (stored_world untidy_provider [])
              (happened (info_events client "QQQ") (stored_world untidy_provider []))
              (happened (prices_events client "QQQ" (jan 1) (jan 3))
                 (happened (info_events client "QQQ") (stored_world untidy_provider [])))
              (snd (TickerPriceStorage.read storage "QQQ"
                      (stored_world untidy_provider [])))
              (TickerInfo.mk (PStr "QQQ") (PStr "Invesco QQQ Trust")
                 (PStr "NASDAQ") (PStr "An index fund") (jan 1) (jan 3))
              [price_on (jan 2); untidy_price]
              (pd_DataFrame [price_on (jan 2); untidy_price])
              eq_refl (or_introl eq_refl) ltac:(vm_compute; reflexivity)
              ltac:(discriminate) ltac:(vm_compute; reflexivity))
    as [_ Hcol].
  destruct (Hcol "open" [PFloat 100.0; PInt 9007199254740993] eq_refl)
    as (c1 & -> & _ & _ & H1).
  destruct (Hcol "close" [PFloat 100.5; PInt 100] eq_refl)
    as (c2 & -> & _ & _ & H2).
  destruct (Hcol "volume" [PInt 1000; PNone] eq_refl)
    as (c3 & -> & _ & _ & H3).
  destruct (Hcol "adjusted_volume" [PInt 1000; PInt 1000] eq_refl)
    as (c4 & -> & _ & H4 & _).
  rewrite (H1 eq_refl), (H2 eq_refl), (H3 eq_refl), (H4 eq_refl).
  repeat split; vm_compute; reflexivity.
Defined.

(** X27. A frame that cannot be converted is not written.  On a miss, when
    the price call has returned and the conversion of the frame of the prices
    raises, [read] raises that exception, after the price request: nothing is
    written and the disk, hence the cache file if there was one, is as it
    was. *)
Theorem read_conversion_failure {library : Arrow} (self : TickerPriceStorage.t)
    (ticker : string) (w w1 w2 : World) (info : TickerInfo.t)
    (prices : list TickerPrice.t) (cls : string) (args : list string) :
  TiingoClient.get_ticker_info (TickerPriceStorage.tiingo self) ticker w
    = (Return info, w1) →
  (node w (TickerPriceStorage.filepath self ticker) = None
   ∨ ∃ df0 lo hi,
       node w (TickerPriceStorage.filepath self ticker) = Some (File (Parquet df0))
       ∧ date_bounds df0 = Some (lo, hi)
       ∧ (lo ≠ PDate (TickerInfo.startDate info)
          ∨ hi ≠ PDate (TickerInfo.endDate info))) →
  TiingoClient.get_ticker_prices (TickerPriceStorage.tiingo self) ticker
    (TickerInfo.startDate info) (TickerInfo.endDate info) w1 = (Return prices, w2) →
  to_arrow (pd_DataFrame prices) = inr (cls, args) →
  TickerPriceStorage.read self ticker w
  = (Raise (mkException (S (last_obj w)) cls args), set_last_obj (S (last_obj w)) w2)
  ∧ fs w2 = fs w
  ∧ trace w2 = trace w
      ++ info_events (TickerPriceStorage.tiingo self) ticker
      ++ prices_events (TickerPriceStorage.tiingo self) ticker
           (TickerInfo.startDate info) (TickerInfo.endDate info).
Proof.
  intros Hinfo Hmiss Hprices Hconv.
  destruct (get_ticker_info_Return _ _ _ _ _ Hinfo) as [Hw1 _].
  destruct (get_ticker_prices_Return _ _ _ _ _ _ _ Hprices) as [Hw2 _].
  destruct (cached_table_miss (TickerPriceStorage.filepath self ticker) info w1)
    as [Hc _]; [by rewrite Hw1|].
  split; [|split].
  - rewrite (read_convert_raises self ticker w info w1 prices w2 cls args
               Hinfo Hc Hprices Hconv).
    unfold raise_new. by rewrite Hw2, Hw1.
  - by rewrite Hw2, Hw1.
  - rewrite Hw2, Hw1. simpl. by rewrite <- app_assoc.
Qed.

Lemma read_conversion_failure_witness :
  TickerPriceStorage.read storage "QQQ"
    (stored_world huge_provider
       [("QQQ.parquet", Parquet (pd_DataFrame [price_on (jan 2)]))])
  = (Raise (mkException 1 "OverflowError"
              ["Python int too large to convert to C long"]),
     set_last_obj 1
       (happened (prices_events client "QQQ" (jan 1) (jan 3))
          (happened (info_events client "QQQ")
             (stored_world huge_provider
                [("QQQ.parquet", Parquet (pd_DataFrame [price_on (jan 2)]))])))).
Proof.
  refine (proj1 (read_conversion_failure storage "QQQ"
                   (stored_world huge_provider
                      [("QQQ.parquet", Parquet (pd_DataFrame [price_on (jan 2)]))])
                   (happened (info_events client "QQQ")
                      (stored_world huge_provider
                         [("QQQ.parquet", Parquet (pd_DataFrame [price_on (jan 2)]))]))
                   (happened (prices_events client "QQQ" (jan 1) (jan 3))
                      (happened (info_events client "QQQ")
                         (stored_world huge_provider
                            [("QQQ.parquet", Parquet (pd_DataFrame [price_on (jan 2)]))])))
                   (TickerInfo.mk (PStr "QQQ") (PStr "Invesco QQQ Trust")
                      (PStr "NASDAQ") (PStr "An index fund") (jan 1) (jan 3))
                   [huge_price] "OverflowError"
                   ["Python int too large to convert to C long"] _ _ _ _)).
  - reflexivity.
  - right. exists (pd_DataFrame [price_on (jan 2)]), (PDate (jan 2)), (PDate (jan 2)).
    split; [reflexivity|]. split; [vm_compute; reflexivity|].
    left. discriminate.
  - vm_compute. reflexivity.
  - vm_compute. reflexivity.
Defined.

(** X28. Prices that are numbers are always stored.  When every column of the
    records holds floats only, 64-bit integers only or dates only, or mixes
    64-bit integers, floats and nulls with a number among them, the
    conversion does not depend on what the Arrow library does with other
    columns: on a miss, with the storage directory there, [read] writes and
    returns the frame as pandas typed it.  When there is a record, a column
    of the records that mixes numbers and nulls is in it as the column of the
    floats, and every other column as it is in the records. *)
Theorem read_tidy_prices {library : Arrow} (self : TickerPriceStorage.t)
    (ticker : string) (w w1 w2 : World) (info : TickerInfo.t)
    (prices : list TickerPrice.t) :
  TiingoClient.get_ticker_info (TickerPriceStorage.tiingo self) ticker w
    = (Return info, w1) →
  (node w (TickerPriceStorage.filepath self ticker) = None
   ∨ ∃ df0 lo hi,
       node w (TickerPriceStorage.filepath self ticker) = Some (File (Parquet df0))
       ∧ date_bounds df0 = Some (lo, hi)
       ∧ (lo ≠ PDate (TickerInfo.startDate info)
          ∨ hi ≠ PDate (TickerInfo.endDate info))) →
  TiingoClient.get_ticker_prices (TickerPriceStorage.tiingo self) ticker
    (TickerInfo.startDate info) (TickerInfo.endDate info) w1 = (Return prices, w2) →
  tidy prices = true →
  node w (parent (TickerPriceStorage.filepath self ticker)) = Some Dir →
  (∃ w3,
     TickerPriceStorage.read self ticker w = (Return (pd_DataFrame prices), w3)
     ∧ fs w3 = <[TickerPriceStorage.filepath self ticker
                 := File (Parquet (pd_DataFrame prices))]> (fs w))
  ∧ (prices ≠ [] →
     ∀ name col,
       column (records prices) name = Some col →
       column (pd_DataFrame prices) name
       = Some (if float64_column col then map as_float64 col else col)).
Proof.
  intros Hinfo Hmiss Hprices Htidy Hparent. split.
  - destruct (read_refetch self ticker w w1 w2 info prices (pd_DataFrame prices)
                Hinfo Hmiss Hprices (to_arrow_tidy prices Htidy) Hparent)
      as (w3 & Hread & Hfs & _).
    by exists w3.
  - intros Hne name col. by apply column_pd_DataFrame.
Qed.

Lemma read_tidy_prices_witness :
  (∃ w3,
     TickerPriceStorage.read storage "QQQ" (stored_world untidy_provider [])
     = (Return (pd_DataFrame [price_on (jan 2); untidy_price]), w3)
     ∧ fs w3 = <[ [".prices"; "QQQ.parquet"]
                 := File (Parquet (pd_DataFrame [price_on (jan 2); untidy_price])) ]>
                 (fs (stored_world untidy_provider [])))
  ∧ column (pd_DataFrame [price_on (jan 2); untidy_price]) "volume"
    = Some [PFloat 1000.0; PFloat nan].
Proof.
  destruct (read_tidy_prices storage "QQQ" (stored_world untidy_provider [])
              (happened (info_events client "QQQ") (stored_world untidy_provider []))
              (happened (prices_events client "QQQ" (jan 1) (jan 3))
                 (happened (info_events client "QQQ") (stored_world untidy_provider [])))
              (TickerInfo.mk (PStr "QQQ") (PStr "Invesco QQQ Trust")
                 (PStr "NASDAQ") (PStr "An index fund") (jan 1) (jan 3))
              [price_on (jan 2); untidy_price]
              eq_refl (or_introl eq_refl) ltac:(vm_compute; reflexivity)
              ltac:(vm_compute; reflexivity) eq_refl)
    as [Hread Hcol].
  split; [exact Hread|].
  rewrite (Hcol ltac:(discriminate) "volume" [PInt 1000; PNone] eq_refl).
  vm_compute. reflexivity.
Defined.
